(** * n8n-nodes-oasys: a shallow embedding of the bridge, layer, unit and
    polling logic, with the properties of its specification.

  JavaScript numbers that hold block heights, chain ids and confirmation
  counts are integers here ([Z]); [bigint] is [Z] as well.  The epoch,
  block-range and timestamp arithmetic of the utilities is followed on
  doubles ([JsNumber]).  A call that can throw returns an [outcome]; code
  that mutates objects while it may throw runs in a state-and-exception
  monad whose state survives a throw, as the mutated objects do in
  JavaScript. *)

From Stdlib Require Import ZArith String Ascii List Lia Bool DecimalString DecimalPos
  Sorted.
From Stdlib Require Floats.PrimFloat Floats.FloatOps Floats.SpecFloat.
From Stdlib Require Numbers.Cyclic.Int63.Uint63.
From stdpp Require Import base option strings gmap list.

Open Scope Z_scope.

(* ================================================================== *)
(** ** JavaScript runtime pieces shared by the modules below *)
(* ================================================================== *)

Module Js.

(** The result of evaluating an expression that may throw.  The payload of
    [Threw] is the [message] of the thrown [Error]. *)
Inductive outcome (A : Type) : Type :=
| Threw (message : string)
| Done (value : A).
Arguments Threw {A} message.
Arguments Done {A} value.

Definition obind {A B} (m : outcome A) (k : A → outcome B) : outcome B :=
  match m with
  | Threw e => Threw e
  | Done a => k a
  end.

#[export] Instance outcome_ret : MRet outcome := λ A a, Done a.
#[export] Instance outcome_bind : MBind outcome := λ A B k m, obind m k.

(** JSON values, as the nodes hand them to the workflow engine. *)
Unset Elimination Schemes.
Inductive Json : Type :=
| JNull
| JBool (b : bool)
| JNum (n : Z)
| JStr (s : string)
| JArr (items : list Json)
| JObj (fields : list (string * Json)).
Set Elimination Schemes.

(** [obj[key]] on a JSON object; [None] is [undefined]. *)
Fixpoint field_lookup (key : string) (fields : list (string * Json)) : option Json :=
  match fields with
  | [] => None
  | (k, v) :: rest => if String.eqb k key then Some v else field_lookup key rest
  end.

Definition get_field (key : string) (j : Json) : option Json :=
  match j with
  | JObj fields => field_lookup key fields
  | _ => None
  end.

(** [bigint.prototype.toString()] and [String(number)] on an integer. *)
Definition toString (z : Z) : string := NilZero.string_of_int (Z.to_int z).

(** [String.prototype.includes]. *)
Definition includes (s sub : string) : bool :=
  match String.index 0 sub s with
  | Some _ => true
  | None => false
  end.

(** Truthiness of a string: the empty string is falsy. *)
Definition truthy_string (s : string) : bool := negb (String.eqb s "").

(** [x || d] on a number: [undefined] and [0] are falsy. *)
Definition number_or (x : option Z) (d : Z) : Z :=
  match x with
  | None => d
  | Some v => if v =? 0 then d else v
  end.

(** Value of a string of decimal digits, most significant first; [None]
    when a character is not a digit. *)
Definition digit_value (c : ascii) : option Z :=
  let n := Z.of_nat (nat_of_ascii c) in
  if (48 <=? n) && (n <=? 57) then Some (n - 48) else None.

Fixpoint digits_value (acc : Z) (s : string) : option Z :=
  match s with
  | EmptyString => Some acc
  | String c rest =>
      match digit_value c with
      | Some d => digits_value (10 * acc + d) rest
      | None => None
      end
  end.

(** [BigInt(s)] on a decimal literal with an optional sign; the empty string
    is [0n].  Anything else is a [SyntaxError] (hexadecimal, octal and binary
    literals and surrounding blanks, which [BigInt] also reads, do not occur
    in this package). *)
Definition BigInt (s : string) : outcome Z :=
  let bad := Threw ("Cannot convert " +:+ s +:+ " to a BigInt") in
  match s with
  | EmptyString => Done 0
  | String "-" ((String _ _) as body) =>
      match digits_value 0 body with Some v => Done (- v) | None => bad end
  | String "+" ((String _ _) as body) =>
      match digits_value 0 body with Some v => Done v | None => bad end
  | _ =>
      match digits_value 0 s with Some v => Done v | None => bad end
  end.

End Js.
Import Js.

(* ================================================================== *)
(** ** constants/networks.ts *)
(* ================================================================== *)

Module Networks.

Record BridgeConfig := {
  minDeposit : string;
  maxDeposit : string;
  depositConfirmations : Z;
  withdrawalDelay : Z
}.

Definition BRIDGE_CONFIG : BridgeConfig := {|
  minDeposit := "1000000000000000";             (* 0.001 OAS *)
  maxDeposit := "100000000000000000000000";     (* 100,000 OAS *)
  depositConfirmations := 64;
  withdrawalDelay := 604800                     (* 7 days in seconds *)
|}.

End Networks.

(* ================================================================== *)
(** ** constants/verses.ts *)
(* ================================================================== *)

Module Verses.

(** The [VERSES] table, with the one field of [VerseConfig] used below:
    each key with its [chainId], in the order of the table. *)
Definition VERSES : list (string * Z) :=
  [ ("homeVerse", 19011); ("mchVerse", 29548); ("tcgVerse", 2400);
    ("saakuruVerse", 7225878); ("chainVerse", 5555); ("defiVerse", 16116);
    ("yooldoVerse", 50006); ("geekVerse", 75512) ].

(** [getVerseConfig(chainId)] for a number:
    [Object.values(VERSES).find((v) => v.chainId === keyOrChainId)]. *)
Definition getVerseConfig (chainId : Z) : option (string * Z) :=
  List.find (λ v, snd v =? chainId) VERSES.

End Verses.

(* ================================================================== *)
(** ** utils/layerUtils.ts *)
(* ================================================================== *)

Module LayerUtils.

(** [type LayerType = 'hub' | 'verse'] *)
Inductive LayerType := hub | verse.

#[export] Instance LayerType_eq_dec : EqDecision LayerType.
Proof. solve_decision. Defined.

(** Hub mainnet is 248, testnet is 9372. *)
Definition getLayerFromChainId (chainId : Z) : LayerType :=
  if (chainId =? 248) || (chainId =? 9372) then hub else verse.

(** Modelled from the spec: the layer of a chain id with the three answers
    the spec gives it, "chain ids 248/9372 classify as Hub; known Verse
    chain ids classify as Verse; unknown ids classify as unknown".  No
    function of layerUtils has these three answers ([getLayerFromChainId]
    above has two); the unit tests call such a function [getLayerType].  The
    known Verse chain ids are the chain ids of the [VERSES] table. *)
Inductive LayerKind := hubLayer | verseLayer | unknownLayer.

#[export] Instance LayerKind_eq_dec : EqDecision LayerKind.
Proof. solve_decision. Defined.

Definition getLayerType (chainId : Z) : LayerKind :=
  if (chainId =? 248) || (chainId =? 9372) then hubLayer
  else match Verses.getVerseConfig chainId with
       | Some _ => verseLayer
       | None => unknownLayer
       end.

End LayerUtils.

(* ================================================================== *)
(** ** utils/bridgeUtils.ts *)
(* ================================================================== *)

Module BridgeUtils.
Import Networks LayerUtils.

(** [type BridgeDirection = 'deposit' | 'withdraw'] *)
Inductive BridgeDirection := deposit | withdraw.

#[export] Instance BridgeDirection_eq_dec : EqDecision BridgeDirection.
Proof. solve_decision. Defined.

Record BridgeLimits := {
  minDeposit : Z;
  maxDeposit : Z;
  minWithdraw : Z;
  maxWithdraw : Z;
  dailyLimit : option Z;
  remainingDailyLimit : option Z
}.

Definition getDefaultBridgeLimits : outcome BridgeLimits :=
  minD ← BigInt (Networks.minDeposit BRIDGE_CONFIG);
  maxD ← BigInt (Networks.maxDeposit BRIDGE_CONFIG);
  minW ← BigInt (Networks.minDeposit BRIDGE_CONFIG);
  maxW ← BigInt (Networks.maxDeposit BRIDGE_CONFIG);
  mret {| minDeposit := minD; maxDeposit := maxD;
          minWithdraw := minW; maxWithdraw := maxW;
          dailyLimit := None; remainingDailyLimit := None |}.

Record Validation := {
  isValid : bool;
  error : option string
}.

(** [limits = None] is the omitted argument, which takes the default
    [getDefaultBridgeLimits()]. *)
Definition validateBridgeAmount (amount : Z) (direction : BridgeDirection)
    (limits : option BridgeLimits) : outcome Validation :=
  limits ← match limits with
           | Some l => Done l
           | None => getDefaultBridgeLimits
           end;
  let min := if decide (direction = deposit) then minDeposit limits else minWithdraw limits in
  let max := if decide (direction = deposit) then maxDeposit limits else maxWithdraw limits in
  if amount <? min then
    mret {| isValid := false;
            error := Some ("Amount below minimum: " +:+ toString min) |}
  else if amount >? max then
    mret {| isValid := false;
            error := Some ("Amount exceeds maximum: " +:+ toString max) |}
  else
    match remainingDailyLimit limits with
    | Some r =>
        (* a bigint is truthy unless it is 0n *)
        if negb (r =? 0) && (amount >? r) then
          mret {| isValid := false;
                  error := Some ("Amount exceeds remaining daily limit: " +:+ toString r) |}
        else mret {| isValid := true; error := None |}
    | None => mret {| isValid := true; error := None |}
    end.

(** Modelled from the spec: [getBridgeDirection], which the unit tests
    import from bridgeUtils but bridgeUtils does not define.  The spec gives
    "deposit if source is Hub and destination is Verse; withdraw if reverse;
    otherwise undefined", with source and destination classified as the
    spec classifies chain ids ([getLayerType]): a chain id that is neither a
    Hub id nor a known Verse id is on neither layer, and a transfer from or
    to it has no direction. *)
Definition getBridgeDirection (fromChain toChain : Z) : option BridgeDirection :=
  match getLayerType fromChain, getLayerType toChain with
  | hubLayer, verseLayer => Some deposit
  | verseLayer, hubLayer => Some withdraw
  | _, _ => None
  end.

End BridgeUtils.

(* ================================================================== *)
(** ** The two functions of the ethers package that unitConverter.ts calls

    [formatUnits] and [parseUnits] are imported from ethers (version 6).
    They are embedded after the library's [FixedNumber.fromValue] /
    [toString] and [FixedNumber.fromString], for the format the two
    functions use: signed, 512 bits wide. *)
(* ================================================================== *)

Module Ethers.

(** [const Zeros = "0000"] *)
Definition Zeros : string := "0000".

(** [checkValue]: the value fits the signed 512-bit format. *)
Definition checkValue (val : Z) : outcome Z :=
  let limit := Z.shiftl 1 511 in
  if (- limit <=? val) && (val <? limit) then Done val else Threw "overflow".

(** [while (str.length <= decimals) { str = Zeros + str; }]
    Each turn makes the string longer, so [S decimals] turns are enough. *)
Fixpoint pad_left (turns : nat) (decimals : nat) (str : string) : string :=
  match turns with
  | O => str
  | S turns' =>
      if (String.length str <=? decimals)%nat
      then pad_left turns' decimals (Zeros +:+ str)
      else str
  end.

(** [while (str[0] === "0" && str[1] !== ".") { str = str.substring(1); }] *)
Fixpoint trim_leading (str : string) : string :=
  match str with
  | String "0" rest =>
      match rest with
      | String "." _ => str
      | _ => trim_leading rest
      end
  | _ => str
  end.

(** [while (str[str.length - 1] === "0" && str[str.length - 2] !== ".")
       { str = str.substring(0, str.length - 1); }]
    the same loop, run from the other end of the string. *)
Definition trim_trailing (str : string) : string :=
  String.rev (trim_leading (String.rev str)).

(** The library's [toString(val, decimals)]. *)
Definition fixed_toString (val : Z) (decimals : nat) : string :=
  let negative := if val <? 0 then "-" else "" in
  let val := if val <? 0 then val * -1 else val in
  let str := Js.toString val in
  if (decimals =? 0)%nat then negative +:+ str
  else
    let str := pad_left (S decimals) decimals str in
    let index := (String.length str - decimals)%nat in
    let str := String.substring 0 index str +:+ "." +:+
               String.substring index (String.length str - index) str in
    let str := trim_leading str in
    let str := trim_trailing str in
    negative +:+ str.

(** [getBigInt] on a string. *)
Definition getBigInt (value : string) : outcome Z :=
  match value with
  | EmptyString => Threw "invalid BigNumberish string: empty string"
  | String "-" (String "-" _) => BigInt value
  | String "-" rest => v ← BigInt rest; mret (- v)
  | _ => BigInt value
  end.

(** [formatUnits(value, decimals)] with a numeric unit. *)
Definition formatUnits (value : string) (decimals : nat) : outcome string :=
  v ← getBigInt value;
  v ← checkValue v;
  mret (fixed_toString v decimals).

Definition is_digit (c : ascii) : bool :=
  match digit_value c with
  | Some _ => true
  | None => false
  end.

(** The longest prefix of decimal digits, and what follows it. *)
Fixpoint span_digits (s : string) : string * string :=
  match s with
  | EmptyString => (EmptyString, EmptyString)
  | String c rest =>
      if is_digit c
      then let (ds, tl) := span_digits rest in (String c ds, tl)
      else (EmptyString, s)
  end.

(** The match of [_value] against the pattern of [fromString]: an optional
    minus sign, digits, an optional point, digits, and nothing else.  The
    three groups are the sign, the whole part and the decimal part. *)
Definition match_fixed (value : string) : option (string * string * string) :=
  let (sign, s1) := match value with
                    | String "-" rest => ("-", rest)
                    | _ => ("", value)
                    end in
  let (whole, s2) := span_digits s1 in
  let s3 := match s2 with
            | String "." rest => rest
            | _ => s2
            end in
  let (decimal, s4) := span_digits s3 in
  match s4 with
  | EmptyString => Some (sign, whole, decimal)
  | _ => None
  end.

(** [while (decimal.length < format.decimals) { decimal += Zeros; }]
    Each turn adds four characters, so [decimals] turns are enough. *)
Fixpoint pad_right (turns : nat) (decimals : nat) (decimal : string) : string :=
  match turns with
  | O => decimal
  | S turns' =>
      if (String.length decimal <? decimals)%nat
      then pad_right turns' decimals (decimal +:+ Zeros)
      else decimal
  end.

(** Only zeros, the test on what is cut from the decimal part. *)
Fixpoint all_zeros (s : string) : bool :=
  match s with
  | EmptyString => true
  | String c rest => Ascii.eqb c "0" && all_zeros rest
  end.

(** [FixedNumber.fromString(value, format).value] *)
Definition fromString (value : string) (decimals : nat) : outcome Z :=
  match match_fixed value with
  | None => Threw "invalid FixedNumber string value"
  | Some (sign, whole, decimal) =>
      if (String.length whole + String.length decimal =? 0)%nat
      then Threw "invalid FixedNumber string value"
      else
        let whole := if truthy_string whole then whole else "0" in
        let decimal := pad_right decimals decimals decimal in
        if negb (all_zeros (String.substring decimals
                              (String.length decimal - decimals) decimal))
        then Threw "too many decimals for format"
        else
          let decimal := String.substring 0 decimals decimal in
          v ← BigInt (sign +:+ whole +:+ decimal);
          checkValue v
  end.

(** [parseUnits(value, decimals)] with a numeric unit. *)
Definition parseUnits (value : string) (decimals : nat) : outcome Z :=
  fromString value decimals.

(** [n] zeros, the padding of the two loops above. *)
Fixpoint zeros (n : nat) : string :=
  match n with
  | O => ""
  | S n' => String "0" (zeros n')
  end.

(** Only decimal digits. *)
Fixpoint all_digits (s : string) : bool :=
  match s with
  | EmptyString => true
  | String c rest => is_digit c && all_digits rest
  end.

End Ethers.

(* ================================================================== *)
(** ** utils/unitConverter.ts *)
(* ================================================================== *)

Module UnitConverter.

(** The argument type [string | bigint]. *)
Inductive WeiArg :=
| WeiString (s : string)
| WeiBigint (n : Z).

Definition wei_toString (wei : WeiArg) : string :=
  match wei with
  | WeiString s => s
  | WeiBigint n => Js.toString n
  end.

(** Convert wei to OAS. *)
Definition weiToOas (wei : WeiArg) : outcome string :=
  Ethers.formatUnits (wei_toString wei) 18.

(** Convert OAS to wei.  The argument is the string case of
    [string | number]; for a string, [oas.toString()] is [oas] itself. *)
Definition oasToWei (oas : string) : outcome Z :=
  Ethers.parseUnits oas 18.

End UnitConverter.

(* ================================================================== *)
(** ** transport/apiClient.ts: BridgeClient.getBridgeStatus *)
(* ================================================================== *)

Module ApiClient.
Import Networks BridgeUtils.

(** What the method reads of an ethers [TransactionReceipt]; [status] is
    [null | number]. *)
Record TransactionReceipt := {
  blockNumber : Z;
  status : option Z
}.

(** The two provider calls the method makes.  Both are awaited RPC calls
    and may throw. *)
Record Provider := {
  getTransactionReceipt : string → outcome (option TransactionReceipt);
  getBlockNumber : outcome Z
}.

Record BridgeClient := {
  hubProvider : Provider;
  verseProvider : Provider
}.

Inductive Status := pending | completed | failed | challenge.

#[export] Instance Status_eq_dec : EqDecision Status.
Proof. solve_decision. Defined.

Record BridgeStatusReport := {
  report_status : Status;
  confirmations : Z;
  requiredConfirmations : Z
}.

(** [direction === 'deposit' ? this.hubProvider : this.verseProvider] *)
Definition providerFor (this : BridgeClient) (direction : BridgeDirection) : Provider :=
  if decide (direction = deposit) then hubProvider this else verseProvider this.

Definition getBridgeStatus (this : BridgeClient) (txHash : string)
    (direction : BridgeDirection) : outcome BridgeStatusReport :=
  let provider := providerFor this direction in
  receipt ← getTransactionReceipt provider txHash;
  match receipt with
  | None =>
      mret {| report_status := pending;
              confirmations := 0;
              requiredConfirmations := depositConfirmations BRIDGE_CONFIG |}
  | Some receipt =>
      currentBlock ← getBlockNumber provider;
      let confirmations := currentBlock - blockNumber receipt in
      if decide (status receipt = Some 0) then
        mret {| report_status := failed;
                confirmations := confirmations;
                requiredConfirmations := depositConfirmations BRIDGE_CONFIG |}
      else if decide (direction = deposit) then
        if confirmations >=? depositConfirmations BRIDGE_CONFIG then
          mret {| report_status := completed;
                  confirmations := confirmations;
                  requiredConfirmations := depositConfirmations BRIDGE_CONFIG |}
        else
          mret {| report_status := pending;
                  confirmations := confirmations;
                  requiredConfirmations := depositConfirmations BRIDGE_CONFIG |}
      else
        (* Withdrawals have a challenge period *)
        mret {| report_status := challenge;
                confirmations := confirmations;
                requiredConfirmations := 0 |}
  end.

End ApiClient.

(* ================================================================== *)
(** ** OasysTrigger.node.ts: the polling trigger *)
(* ================================================================== *)

Module Trigger.

(** What [poll] reads of an ethers [Block]. *)
Record Block := {
  timestamp : Z;
  hash : option string;
  transactions : option (list string)
}.

Record EpochInfo := {
  currentEpoch : Z;
  blocksRemaining : Z
}.

(** The methods of the hub client that [poll] calls.  Each is an awaited
    RPC call and may throw. *)
Record HubClient := {
  hub_getBlockNumber : outcome Z;
  hub_getBlock : Z → outcome (option Block);
  hub_getCurrentEpochInfo : outcome EpochInfo;
  hub_getBalance : string → outcome Z;
  hub_getStakingInfo : string → outcome Json;
  hub_getContractEvents : string → Json → string → Z → Z → outcome (list Json)
}.

Record VerseClient := {
  verse_getBlockNumber : outcome Z;
  verse_getBlock : Z → outcome (option Block);
  verse_getStatus : outcome Json
}.

(** The fields of the [oasysNetwork] credentials that [poll] reads; [None]
    is [undefined]. *)
Record Credentials := {
  cred_layer : option string;
  cred_privateKey : option string;
  cred_verse : option string
}.

(** A node parameter as the host holds it: reading it may throw (a failing
    expression), it may be unset, or it has a value. *)
Inductive ParamValue :=
| ParamThrows (message : string)
| ParamUnset
| ParamSet (value : string).

(** Everything [poll] gets from outside: the host ([this]), the client
    factories it imports, and the clock.  [formatOas] rounds through a
    floating-point number and [JSON_parse] is the runtime's parser; neither
    is modelled further. *)
Record PollContext := {
  nodeParameter : string → ParamValue;
  getCredentials : string → outcome Credentials;
  createHubClient : string → option string → outcome HubClient;
  createVerseClient : string → option string → outcome VerseClient;
  formatOas : Z → string;
  JSON_parse : string → outcome Json;
  toISOString_now : string
}.

Record INodeExecutionData := { json : Json }.

(** The objects [poll] mutates: its local [results] array, the
    host-persisted [workflowStaticData] and the console. *)
Record PollState := {
  results : list INodeExecutionData;
  workflowStaticData : gmap string Z;
  console : list string
}.

(** Statements that may throw and that mutate [PollState]; what was mutated
    before a throw stays mutated. *)
Definition M (A : Type) : Type := PollState → outcome A * PollState.

#[export] Instance M_ret : MRet M := λ A a s, (Done a, s).
#[export] Instance M_bind : MBind M := λ A B k m s,
  match m s with
  | (Threw e, s') => (Threw e, s')
  | (Done a, s') => k a s'
  end.

Definition throw {A} (message : string) : M A := λ s, (Threw message, s).

(** [await] of a call whose outcome the environment decides. *)
Definition await {A} (call : outcome A) : M A := λ s, (call, s).

(** [try { body } catch (error) { handler }] *)
Definition try_catch (body : M unit) (handler : string → M unit) : M unit := λ s,
  match body s with
  | (Threw e, s') => handler e s'
  | (Done a, s') => (Done a, s')
  end.

Definition new_results : M unit := λ s,
  (Done tt, {| results := []; workflowStaticData := workflowStaticData s;
               console := console s |}).

(** [results.push(item)] *)
Definition push (item : INodeExecutionData) : M unit := λ s,
  (Done tt, {| results := results s ++ [item];
               workflowStaticData := workflowStaticData s;
               console := console s |}).

Definition get_results : M (list INodeExecutionData) := λ s, (Done (results s), s).

(** [workflowStaticData[key]] *)
Definition read_static (key : string) : M (option Z) := λ s,
  (Done (workflowStaticData s !! key), s).

(** [workflowStaticData[key] = value] *)
Definition write_static (key : string) (value : Z) : M unit := λ s,
  (Done tt, {| results := results s;
               workflowStaticData := <[key := value]> (workflowStaticData s);
               console := console s |}).

Definition console_error (label error : string) : M unit := λ s,
  (Done tt, {| results := results s; workflowStaticData := workflowStaticData s;
               console := console s ++ [label +:+ " " +:+ error] |}).

(** [this.getNodeParameter(name)] and [this.getNodeParameter(name, fallback)] *)
Definition getNodeParameter (ctx : PollContext) (name : string)
    (fallback : option string) : M string :=
  match nodeParameter ctx name with
  | ParamThrows e => throw e
  | ParamSet v => mret v
  | ParamUnset =>
      match fallback with
      | Some d => mret d
      | None => throw "Could not get parameter"
      end
  end.

Fixpoint for_each {A} (xs : list A) (body : A → M unit) : M unit :=
  match xs with
  | [] => mret tt
  | x :: rest => _ ← body x; for_each rest body
  end.

(** The values [blockNum] takes in
    [for (let blockNum = first; blockNum <= last; blockNum++)]. *)
Definition for_range (first last : Z) : list Z := seqZ first (last - first + 1).

Definition json_of_hash (h : option string) : Json :=
  match h with
  | Some h => JStr h
  | None => JNull
  end.

(** [block.transactions?.length || 0] *)
Definition transaction_count (b : Block) : Z :=
  number_or ((λ l, Z.of_nat (length l)) <$> transactions b) 0.

Definition hubBlockRecord (blockNum : Z) (block : Block) : INodeExecutionData :=
  {| json := JObj [("event", JStr "newBlock"); ("layer", JStr "Hub");
                   ("blockNumber", JNum blockNum);
                   ("timestamp", JNum (timestamp block));
                   ("hash", json_of_hash (hash block));
                   ("transactions", JNum (transaction_count block))] |}.

Definition verseBlockRecord (verseKey : string) (blockNum : Z) (block : Block)
    : INodeExecutionData :=
  {| json := JObj [("event", JStr "newBlock"); ("layer", JStr "Verse");
                   ("verse", JStr verseKey);
                   ("blockNumber", JNum blockNum);
                   ("timestamp", JNum (timestamp block));
                   ("hash", json_of_hash (hash block));
                   ("transactions", JNum (transaction_count block))] |}.

(** The look-back loop of the [newBlock] event: one [getBlock] per block
    number of the window, and one record per block that is found. *)
Definition replayBlocks (getBlock : Z → outcome (option Block))
    (record : Z → Block → INodeExecutionData)
    (lastProcessedBlock currentBlock : Z) : M unit :=
  for_each (for_range (Z.max (lastProcessedBlock + 1) (currentBlock - 5)) currentBlock)
    (λ blockNum,
       block ← await (getBlock blockNum);
       match block with
       | Some block => push (record blockNum block)
       | None => mret tt
       end).

Definition hubLayerArgument (networkLayer : option string) : string :=
  if decide (networkLayer = Some "hubTestnet") then "hubTestnet" else "hubMainnet".

Definition bridgeRecord (ctx : PollContext) (event verseKey : string) : INodeExecutionData :=
  {| json := JObj [("event", JStr event); ("layer", JStr "Bridge");
                   ("verse", JStr verseKey);
                   ("message", JStr "Bridge event monitoring active");
                   ("timestamp", JStr (toISOString_now ctx))] |}.

(** The branch taken when the category is [hub], [staking], or [wallet] on the
    hub layer.  The value is that of [currentBlock] when the branch ends. *)
Definition hubBranch (ctx : PollContext) (category event : string)
    (credentials : Credentials) (lastProcessedBlock : Z) : M Z :=
  hubClient ← await (createHubClient ctx (hubLayerArgument (cred_layer credentials))
                                     (cred_privateKey credentials));
  currentBlock ← await (hub_getBlockNumber hubClient);
  _ ← (if String.eqb category "hub" then
         if String.eqb event "newBlock" && (currentBlock >? lastProcessedBlock) then
           replayBlocks (hub_getBlock hubClient) hubBlockRecord
                        lastProcessedBlock currentBlock
         else if String.eqb event "epochChanged" then
           epochInfo ← await (hub_getCurrentEpochInfo hubClient);
           push {| json := JObj [("event", JStr "epochChanged"); ("layer", JStr "Hub");
                                 ("currentEpoch", JNum (currentEpoch epochInfo));
                                 ("blocksRemaining", JNum (blocksRemaining epochInfo))] |}
         else mret tt
       else if String.eqb category "wallet" then
         watchAddress ← getNodeParameter ctx "watchAddress" None;
         if truthy_string watchAddress then
           balance ← await (hub_getBalance hubClient watchAddress);
           push {| json := JObj [("event", JStr "balanceCheck"); ("layer", JStr "Hub");
                                 ("address", JStr watchAddress);
                                 ("balance", JStr (Js.toString balance));
                                 ("balanceFormatted", JStr (formatOas ctx balance));
                                 ("blockNumber", JNum currentBlock)] |}
         else mret tt
       else if String.eqb category "staking" then
         watchAddress ← getNodeParameter ctx "watchAddress" None;
         if truthy_string watchAddress then
           stakingInfo ← await (hub_getStakingInfo hubClient watchAddress);
           push {| json := JObj [("event", JStr event); ("layer", JStr "Hub");
                                 ("address", JStr watchAddress);
                                 ("stakingInfo", stakingInfo);
                                 ("blockNumber", JNum currentBlock)] |}
         else mret tt
       else mret tt);
  mret currentBlock.

(** The branch taken when the category is [verse], or [wallet] on the verse
    layer. *)
Definition verseBranch (ctx : PollContext) (event : string)
    (credentials : Credentials) (lastProcessedBlock : Z) : M Z :=
  verseKey ← getNodeParameter ctx "verse" (Some "homeVerse");
  verseClient ← await (createVerseClient ctx verseKey (cred_privateKey credentials));
  currentBlock ← await (verse_getBlockNumber verseClient);
  _ ← (if String.eqb event "newBlock" && (currentBlock >? lastProcessedBlock) then
         replayBlocks (verse_getBlock verseClient) (verseBlockRecord verseKey)
                      lastProcessedBlock currentBlock
       else if String.eqb event "statusChanged" then
         status ← await (verse_getStatus verseClient);
         push {| json := JObj [("event", JStr "statusCheck"); ("layer", JStr "Verse");
                               ("verse", JStr verseKey); ("status", status)] |}
       else mret tt);
  mret currentBlock.

Definition bridgeBranch (ctx : PollContext) (event : string) : M Z :=
  verseKey ← getNodeParameter ctx "verse" (Some "homeVerse");
  _ ← push (bridgeRecord ctx event verseKey);
  mret 0.

(** [(credentials.verse as string) || 'homeVerse'] *)
Definition credentialVerse (credentials : Credentials) : string :=
  match cred_verse credentials with
  | Some v => if truthy_string v then v else "homeVerse"
  | None => "homeVerse"
  end.

Definition nftBranch (ctx : PollContext) (event : string)
    (credentials : Credentials) : M Z :=
  layer ← getNodeParameter ctx "layer" (Some "hub");
  contractAddress ← getNodeParameter ctx "contractAddress" (Some "");
  currentBlock ←
    (if String.eqb layer "hub" then
       hubClient ← await (createHubClient ctx (hubLayerArgument (cred_layer credentials))
                                          (cred_privateKey credentials));
       await (hub_getBlockNumber hubClient)
     else
       verseClient ← await (createVerseClient ctx (credentialVerse credentials)
                                              (cred_privateKey credentials));
       await (verse_getBlockNumber verseClient));
  _ ← push {| json := JObj [("event", JStr event); ("layer", JStr layer);
                            ("contractAddress", JStr contractAddress);
                            ("blockNumber", JNum currentBlock);
                            ("message", JStr ("NFT " +:+ event +:+ " monitoring active"))] |};
  mret currentBlock.

Definition contractBranch (ctx : PollContext) (credentials : Credentials)
    (lastProcessedBlock : Z) : M Z :=
  layer ← getNodeParameter ctx "layer" (Some "hub");
  contractAddress ← getNodeParameter ctx "contractAddress" (Some "");
  eventName ← getNodeParameter ctx "eventName" (Some "");
  if String.eqb layer "hub" then
    hubClient ← await (createHubClient ctx (hubLayerArgument (cred_layer credentials))
                                       (cred_privateKey credentials));
    currentBlock ← await (hub_getBlockNumber hubClient);
    _ ← (if truthy_string contractAddress && truthy_string eventName
            && (currentBlock >? lastProcessedBlock) then
           try_catch
             (abiText ← getNodeParameter ctx "abi" (Some "[]");
              abi ← await (JSON_parse ctx abiText);
              events ← await (hub_getContractEvents hubClient contractAddress abi
                                eventName (lastProcessedBlock + 1) currentBlock);
              for_each events (λ evt,
                push {| json := JObj [("event", JStr "contractEvent"); ("layer", JStr "Hub");
                                      ("contractAddress", JStr contractAddress);
                                      ("eventName", JStr eventName);
                                      ("data", evt)] |}))
             (λ _, mret tt)   (* Event query failed, continue *)
         else mret tt);
    mret currentBlock
  else mret 0.

(** [category === 'wallet' && this.getNodeParameter('layer', fallback) === fallback] *)
Definition walletOnLayer (ctx : PollContext) (category layer : string) : M bool :=
  if String.eqb category "wallet" then
    l ← getNodeParameter ctx "layer" (Some layer);
    mret (String.eqb l layer)
  else mret false.

(** The [try] block up to its last statement: the dispatch on the category.
    The value is that of the local [currentBlock] (initially 0) when the
    dispatch ends. *)
Definition pollWork (ctx : PollContext) (category event : string)
    (credentials : Credentials) (lastProcessedBlock : Z) : M Z :=
  onHub ← ((if String.eqb category "hub" then mret true
            else
              w ← walletOnLayer ctx category "hub";
              if w : bool then mret true
              else mret (String.eqb category "staking")) : M bool);
  if onHub : bool then hubBranch ctx category event credentials lastProcessedBlock
  else
    onVerse ← ((if String.eqb category "verse" then mret true
                else walletOnLayer ctx category "verse") : M bool);
    if onVerse : bool then verseBranch ctx event credentials lastProcessedBlock
    else if String.eqb category "bridge" then bridgeBranch ctx event
    else if String.eqb category "nft" then nftBranch ctx event credentials
    else if String.eqb category "contract" then
      contractBranch ctx credentials lastProcessedBlock
    else mret 0.

(** The body of the [try] block. *)
Definition pollBody (ctx : PollContext) (category event stateKey : string)
    (credentials : Credentials) (lastProcessedBlock : Z) : M unit :=
  currentBlock ← pollWork ctx category event credentials lastProcessedBlock;
  (* Update state *)
  if currentBlock >? lastProcessedBlock
  then write_static stateKey currentBlock
  else mret tt.

Definition stateKeyOf (category event : string) : string :=
  "oasys_trigger_" +:+ category +:+ "_" +:+ event.

(** [OasysTrigger.poll].  [None] is the [null] the host reads as "nothing
    new". *)
Definition poll (ctx : PollContext) : M (option (list (list INodeExecutionData))) :=
  category ← getNodeParameter ctx "category" None;
  event ← getNodeParameter ctx "event" None;
  credentials ← await (getCredentials ctx "oasysNetwork");
  (* Get stored state *)
  let stateKey := stateKeyOf category event in
  stored ← read_static stateKey;
  let lastProcessedBlock := number_or stored 0 in
  _ ← new_results;
  _ ← try_catch
        (pollBody ctx category event stateKey credentials lastProcessedBlock)
        (λ error, console_error "Oasys Trigger polling error:" error);
  results ← get_results;
  if (length results =? 0)%nat then mret None else mret (Some [results]).

(** The stored cursor as [poll] reads it:
    [(workflowStaticData[key] as number) || 0]. *)
Definition cursor (s : PollState) (key : string) : Z :=
  number_or (workflowStaticData s !! key) 0.

(** One poll after another, each with the context of its own time; the
    state a poll leaves is the state the next one finds. *)
Fixpoint runPolls (ctxs : list PollContext) (s : PollState) : PollState :=
  match ctxs with
  | [] => s
  | ctx :: rest => runPolls rest (snd (poll ctx s))
  end.

(** [c] is a height that a client made from this context reports, or the 0
    that [currentBlock] starts with. *)
Definition reportedHeight (ctx : PollContext) (c : Z) : Prop :=
  c = 0 ∨
  (∃ layer key client,
     createHubClient ctx layer key = Done client ∧ hub_getBlockNumber client = Done c) ∨
  (∃ verse key client,
     createVerseClient ctx verse key = Done client ∧ verse_getBlockNumber client = Done c).

(** The records of a window when block [n] is [blocks n]: one for each block
    number whose block is found, in the order of the window. *)
Fixpoint foundRecords (record : Z → Block → INodeExecutionData)
    (blocks : Z → option Block) (window : list Z) : list INodeExecutionData :=
  match window with
  | [] => []
  | n :: rest =>
      match blocks n with
      | Some block => record n block :: foundRecords record blocks rest
      | None => foundRecords record blocks rest
      end
  end.

(** A statement that leaves [workflowStaticData] as it found it. *)
Definition keepsStatic {A} (m : M A) : Prop :=
  ∀ s, workflowStaticData (snd (m s)) = workflowStaticData s.

End Trigger.

(* ================================================================== *)
(** ** Oasys.node.ts: the item loop of [execute] *)
(* ================================================================== *)

Module ActionNode.

(** An output item; [json = None] is [{ json: undefined }], which the loop
    pushes when no branch of the dispatch assigned [result]. *)
Record INodeExecutionData := { json : option Json }.

(** What the loop gets from outside.  [World] is whatever the calls of an
    item act on (the chains, the explorer).  [evaluateItem i] is the body
    of the [try] block for item [i] up to the push: the dispatch on resource
    and operation, which ends with a value for [result] or throws.
    [continueOnFail] is the host's [this.continueOnFail()]. *)
Record ExecuteContext (World : Type) := {
  evaluateItem : nat → World → outcome (option Json) * World;
  continueOnFail : bool
}.
Arguments evaluateItem {World} _ _ _.
Arguments continueOnFail {World} _.

Definition resultItem (result : option Json) : INodeExecutionData :=
  {| json := result |}.

Definition errorItem (message : string) : INodeExecutionData :=
  {| json := Some (JObj [("error", JStr message)]) |}.

(** [for (let i = 0; i < items.length; i++) { try { ... } catch (error) { ... } }]
    over the indices still to visit. *)
Fixpoint itemLoop {World} (ctx : ExecuteContext World) (indices : list nat)
    (returnData : list INodeExecutionData) (w : World)
    : outcome (list INodeExecutionData) * World :=
  match indices with
  | [] => (Done returnData, w)
  | i :: rest =>
      match evaluateItem ctx i w with
      | (Done result, w') =>
          itemLoop ctx rest (returnData ++ [resultItem result]) w'
      | (Threw message, w') =>
          if continueOnFail ctx
          then itemLoop ctx rest (returnData ++ [errorItem message]) w'
          else (Threw message, w')
      end
  end.

(** The loop and the [return [returnData]] that follows it. *)
Definition execute {World} (ctx : ExecuteContext World) (items : list Json) (w : World)
    : outcome (list (list INodeExecutionData)) * World :=
  match itemLoop ctx (seq 0 (length items)) [] w with
  | (Done returnData, w') => (Done [returnData], w')
  | (Threw message, w') => (Threw message, w')
  end.

(** The outcome of every item of [indices] when each is evaluated in turn,
    whatever the earlier ones did, and the world this leaves. *)
Fixpoint evaluateAll {World} (ctx : ExecuteContext World) (indices : list nat) (w : World)
    : list (outcome (option Json)) * World :=
  match indices with
  | [] => ([], w)
  | i :: rest =>
      let (o, w') := evaluateItem ctx i w in
      let (os, w'') := evaluateAll ctx rest w' in
      (o :: os, w'')
  end.

Definition emitted (o : outcome (option Json)) : INodeExecutionData :=
  match o with
  | Done result => resultItem result
  | Threw message => errorItem message
  end.

Definition succeeded {A} (o : outcome A) : bool :=
  match o with
  | Done _ => true
  | Threw _ => false
  end.

End ActionNode.

(* ================================================================== *)
(** ** Concrete chains, hosts and clients, for the examples below *)
(* ================================================================== *)

Module Scenarios.
Import Trigger.

Definition sampleBlock (n : Z) : Block :=
  {| timestamp := 1700000000 + 15 * n;
     hash := Some "0x5a3c";
     transactions := Some ["0x01"; "0x02"] |}.

(** A hub at height [height] that serves every block below [failFrom] and
    whose [getBlock] throws from [failFrom] on. *)
Definition sampleHub (height failFrom : Z) : HubClient :=
  {| hub_getBlockNumber := Done height;
     hub_getBlock := λ n, if failFrom <=? n then Threw "request timeout"
                          else Done (Some (sampleBlock n));
     hub_getCurrentEpochInfo := Done {| currentEpoch := 12; blocksRemaining := 100 |};
     hub_getBalance := λ _, Done 0;
     hub_getStakingInfo := λ _, Done JNull;
     hub_getContractEvents := λ _ _ _ _ _, Done [] |}.

Definition sampleVerse (height : Z) : VerseClient :=
  {| verse_getBlockNumber := Done height;
     verse_getBlock := λ n, Done (Some (sampleBlock n));
     verse_getStatus := Done JNull |}.

Definition sampleCredentials : Credentials :=
  {| cred_layer := Some "hubMainnet"; cred_privateKey := None; cred_verse := None |}.

(** A host whose only set parameters are the category and the event. *)
Definition sampleContext (category event : string) (hub : HubClient)
    (verse : VerseClient) : PollContext :=
  {| nodeParameter := λ name,
       if String.eqb name "category" then ParamSet category
       else if String.eqb name "event" then ParamSet event
       else ParamUnset;
     getCredentials := λ _, Done sampleCredentials;
     createHubClient := λ _ _, Done hub;
     createVerseClient := λ _ _, Done verse;
     formatOas := λ _, "0.0000";
     JSON_parse := λ _, Done (JArr []);
     toISOString_now := "2024-01-01T00:00:00.000Z" |}.

(** The same host when its credentials are missing. *)
Definition contextWithoutCredentials (category event : string) : PollContext :=
  {| nodeParameter := nodeParameter (sampleContext category event (sampleHub 0 0) (sampleVerse 0));
     getCredentials := λ _, Threw "Node does not have any credentials set";
     createHubClient := λ _ _, Done (sampleHub 0 0);
     createVerseClient := λ _ _, Done (sampleVerse 0);
     formatOas := λ _, "0.0000";
     JSON_parse := λ _, Done (JArr []);
     toISOString_now := "2024-01-01T00:00:00.000Z" |}.

(** The state of a trigger that has not polled yet. *)
Definition freshState : PollState :=
  {| results := []; workflowStaticData := ∅; console := [] |}.

(** The number of records a poll hands to the workflow. *)
Definition emittedCount (r : outcome (option (list (list INodeExecutionData)))) : nat :=
  match r with
  | Done (Some runs) => length (concat runs)
  | _ => 0%nat
  end.

Definition sampleReceipt (block : Z) (flag : Z) : ApiClient.TransactionReceipt :=
  {| ApiClient.blockNumber := block; ApiClient.status := Some flag |}.

(** A provider at height [height] that knows one transaction, ["0xabc"]. *)
Definition sampleProvider (receipt : option ApiClient.TransactionReceipt) (height : Z)
    : ApiClient.Provider :=
  {| ApiClient.getTransactionReceipt := λ txHash,
       if String.eqb txHash "0xabc" then Done receipt else Done None;
     ApiClient.getBlockNumber := Done height |}.

Definition sampleBridgeClient : ApiClient.BridgeClient :=
  {| ApiClient.hubProvider := sampleProvider (Some (sampleReceipt 100 1)) 164;
     ApiClient.verseProvider := sampleProvider (Some (sampleReceipt 50 1)) 100000 |}.

Definition failedBridgeClient : ApiClient.BridgeClient :=
  {| ApiClient.hubProvider := sampleProvider (Some (sampleReceipt 100 0)) 110;
     ApiClient.verseProvider := sampleProvider None 7 |}.

(** An action node whose items 0 and 2 succeed and whose item 1 throws; the
    world counts the items evaluated. *)
Definition sampleExecute (continue : bool) : ActionNode.ExecuteContext nat :=
  {| ActionNode.evaluateItem := λ i w,
       if (i =? 1)%nat then (Threw "Wallet not configured", S w)
       else (Done (Some (JNum (Z.of_nat i))), S w);
     ActionNode.continueOnFail := continue |}.

End Scenarios.

(* ================================================================== *)
(** ** JavaScript numbers that hold integers

    A [number] is an IEEE 754 double.  Of the doubles, the functions below
    are followed on the integers ([Int z], for a [z] of at most 53
    significant bits and below [2^1024] in size; zero without its sign), on
    the two infinities and on [NaN]; an argument with a fraction, or the
    argument [-0], is not followed.  A sum, difference or product of such
    numbers is again one of them: the exact result rounded to the nearest
    double, ties to the even mantissa, and infinite from [2^1024] on.  A
    quotient need not be an integer; the code takes [Math.floor] of every
    quotient it forms, and [floor_div] is the two together. *)
(* ================================================================== *)

Module JsNumber.

Inductive number :=
| Int (z : Z)
| Infinity
| NegInfinity
| NaN.

(** The mantissa of a double has 53 bits; the least exponent of a mantissa
    bit is -1074; a double is below [2^1024] in size. *)
Definition precision : Z := 53.
Definition emin : Z := -1074.
Definition emax : Z := 1024.

(** [Number.MAX_SAFE_INTEGER] and [Number.isSafeInteger], for an integer. *)
Definition MAX_SAFE_INTEGER : Z := 2 ^ 53 - 1.

Definition isSafeInteger (z : Z) : Prop := Z.abs z ≤ MAX_SAFE_INTEGER.

(** The fraction [n / (d * 2^e)], as numerator and denominator. *)
Definition scaled_num (n e : Z) : Z := n * 2 ^ Z.max 0 (- e).
Definition scaled_den (d e : Z) : Z := d * 2 ^ Z.max 0 e.

(** The binary exponent of [n / d], for positive [n] and [d]: the [l] with
    [2^l <= n / d < 2^(l+1)]. *)
Definition quotient_log2 (n d : Z) : Z :=
  let l := Z.log2 n - Z.log2 d in
  if scaled_den d l <=? scaled_num n l then l else l - 1.

(** [n / d] rounded to the nearest integer, a tie to the even one. *)
Definition half_even (n d : Z) : Z :=
  let q := n / d in
  let r := n mod d in
  if 2 * r <? d then q
  else if d <? 2 * r then q + 1
  else if Z.even q then q else q + 1.

(** The double nearest to [n / d], for positive [n] and [d], as a mantissa
    [m] and an exponent [e]: it is [m * 2^e]. *)
Definition nearest (n d : Z) : Z * Z :=
  let e := Z.max emin (quotient_log2 n d - (precision - 1)) in
  (half_even (scaled_num n e) (scaled_den d e), e).

(** [Math.floor] of the double nearest to [n / d], for a positive [d]. *)
Definition floor_nearest (n d : Z) : number :=
  if n =? 0 then Int 0
  else
    let '(m, e) := nearest (Z.abs n) d in
    if 0 <=? e then
      if 2 ^ emax <=? m * 2 ^ e then (if 0 <? n then Infinity else NegInfinity)
      else Int (Z.sgn n * m * 2 ^ e)
    else Int ((Z.sgn n * m) / 2 ^ (- e)).

(** The double nearest to an integer. *)
Definition toNumber (x : Z) : number := floor_nearest x 1.

Definition neg (a : number) : number :=
  match a with
  | Int a => Int (- a)
  | Infinity => NegInfinity
  | NegInfinity => Infinity
  | NaN => NaN
  end.

(** [a + b] *)
Definition add (a b : number) : number :=
  match a, b with
  | NaN, _ | _, NaN => NaN
  | Infinity, NegInfinity | NegInfinity, Infinity => NaN
  | Infinity, _ | _, Infinity => Infinity
  | NegInfinity, _ | _, NegInfinity => NegInfinity
  | Int a, Int b => toNumber (a + b)
  end.

(** [a - b] *)
Definition sub (a b : number) : number := add a (neg b).

Definition sign_of (a : number) : Z :=
  match a with
  | Int a => Z.sgn a
  | Infinity => 1
  | NegInfinity => -1
  | NaN => 0
  end.

(** [a * b] *)
Definition mul (a b : number) : number :=
  match a, b with
  | NaN, _ | _, NaN => NaN
  | Int a, Int b => toNumber (a * b)
  | _, _ =>
      match sign_of a * sign_of b with
      | 0 => NaN
      | Zpos _ => Infinity
      | Zneg _ => NegInfinity
      end
  end.

(** [Math.floor(a / b)] *)
Definition floor_div (a b : number) : number :=
  match a, b with
  | NaN, _ | _, NaN => NaN
  | Int a, Int b =>
      if b =? 0 then
        (if 0 <? a then Infinity else if a <? 0 then NegInfinity else NaN)
      else floor_nearest (Z.sgn b * a) (Z.abs b)
  | Int _, _ => Int 0
  | _, Int b => if 0 <=? b then a else neg a
  | _, _ => NaN
  end.

(** [a > b] *)
Definition gt (a b : number) : bool :=
  match a, b with
  | NaN, _ | _, NaN => false
  | Int a, Int b => a >? b
  | Infinity, Infinity => false
  | Infinity, _ => true
  | _, NegInfinity => match a with NegInfinity => false | _ => true end
  | _, _ => false
  end.

End JsNumber.

(* ================================================================== *)
(** ** The doubles of the kernel, to compare [JsNumber] with

    Rocq's primitive floats are IEEE 754 doubles with the operations of the
    processor.  [toFloat] is the double of a number; [floor] reads a double
    back, rounded down to an integer as [Math.floor] does; [agree] says
    that the operations of [JsNumber] on two numbers give what the kernel's
    operations give on their doubles. *)
(* ================================================================== *)

Module Doubles.
Import JsNumber.

#[export] Instance number_eq_dec : EqDecision number.
Proof. solve_decision. Defined.

Definition two : PrimFloat.float := PrimFloat.of_uint63 (Uint63.of_Z 2).

(** The double of an integer of at most 53 significant bits: its leading
    53 bits, converted exactly, times a power of two. *)
Definition ofInteger (z : Z) : PrimFloat.float :=
  let k := Z.max 0 (Z.log2 (Z.abs z) - 52) in
  let x := Z.iter k (λ f, PrimFloat.mul f two)
             (PrimFloat.of_uint63 (Uint63.of_Z (Z.abs z / 2 ^ k))) in
  if z <? 0 then PrimFloat.opp x else x.

Definition toFloat (a : number) : PrimFloat.float :=
  match a with
  | Int z => ofInteger z
  | Infinity => PrimFloat.infinity
  | NegInfinity => PrimFloat.neg_infinity
  | NaN => PrimFloat.nan
  end.

Definition floor (f : PrimFloat.float) : number :=
  match FloatOps.Prim2SF f with
  | SpecFloat.S754_zero _ => Int 0
  | SpecFloat.S754_infinity false => Infinity
  | SpecFloat.S754_infinity true => NegInfinity
  | SpecFloat.S754_nan => NaN
  | SpecFloat.S754_finite s m e =>
      let v := if s then Z.neg m else Z.pos m in
      if 0 <=? e then Int (v * 2 ^ e) else Int (v / 2 ^ (- e))
  end.

Definition agree (a b : number) : Prop :=
  floor (toFloat a) = a ∧
  floor (PrimFloat.add (toFloat a) (toFloat b)) = add a b ∧
  floor (PrimFloat.sub (toFloat a) (toFloat b)) = sub a b ∧
  floor (PrimFloat.mul (toFloat a) (toFloat b)) = mul a b ∧
  floor (PrimFloat.div (toFloat a) (toFloat b)) = floor_div a b ∧
  PrimFloat.ltb (toFloat b) (toFloat a) = gt a b.

Definition agreeb (a b : number) : bool :=
  bool_decide (floor (toFloat a) = a) &&
  bool_decide (floor (PrimFloat.add (toFloat a) (toFloat b)) = add a b) &&
  bool_decide (floor (PrimFloat.sub (toFloat a) (toFloat b)) = sub a b) &&
  bool_decide (floor (PrimFloat.mul (toFloat a) (toFloat b)) = mul a b) &&
  bool_decide (floor (PrimFloat.div (toFloat a) (toFloat b)) = floor_div a b) &&
  bool_decide (PrimFloat.ltb (toFloat b) (toFloat a) = gt a b).

(** Numbers to compare on: small ones, the constants of the code, the
    safe integers at their end and the first doubles past them, an
    infinity of each sign and [NaN]. *)
Definition samples : list number :=
  [ Int 0; Int 1; Int (-1); Int 2; Int 3; Int (-7); Int 10; Int 5760; Int 86400;
    Int (2 ^ 52 + 1); Int (2 ^ 53 - 1); Int (- (2 ^ 53 - 1)); Int (2 ^ 53);
    Int (2 ^ 53 + 2); Int (2 ^ 54 + 4); Int (- (2 ^ 54 + 12));
    Int 1563749870614; Int 9007199254736640; Int 9007199254742400;
    Int 3002399751580331; Infinity; NegInfinity; NaN ].

(** Pairs with doubles at the end of the range, where results overflow,
    and pairs whose quotient is next to an integer. *)
Definition far_samples : list (number * number) :=
  [ (Int ((2 ^ 53 - 1) * 2 ^ 971), Int ((2 ^ 53 - 1) * 2 ^ 971));
    (Int ((2 ^ 53 - 1) * 2 ^ 971), Int (2 ^ 970));
    (Int ((2 ^ 53 - 1) * 2 ^ 971), Int (2 ^ 969));
    (Int (- (2 ^ 53 - 1) * 2 ^ 971), Int (2 ^ 1023));
    (Int (2 ^ 1023), Int 2);
    (Int (2 ^ 1023), Int (-3));
    (Int 1, Int (2 ^ 1023));
    (Int (-1), Int ((2 ^ 53 - 1) * 2 ^ 971));
    (Int (2 ^ 53 - 1), Int (2 ^ 53 - 2));
    (Int (- (2 ^ 53 - 1)), Int (2 ^ 53 - 2));
    (Int (2 ^ 53 - 2), Int (2 ^ 53 - 1));
    (Int (2 ^ 53), Int 3002399751580331);
    (Int (4503599627370497 * 2), Int 4503599627370497);
    (Int (6004799503160661 * 3 - 1), Int 6004799503160661) ].

End Doubles.

(* ================================================================== *)
(** ** constants/networks.ts: the staking, epoch and gas tables *)
(* ================================================================== *)

Module NetworkTables.

Record EpochConfig := {
  blocksPerEpoch : Z;
  epochDuration : Z
}.

Definition EPOCH_CONFIG : EpochConfig := {|
  blocksPerEpoch := 5760;     (* Approximately 24 hours *)
  epochDuration := 86400      (* 24 hours in seconds *)
|}.

Record StakingConfig := {
  minimumStake : string;
  minimumDelegation : string;
  unbondingPeriod : Z
}.

Definition STAKING_CONFIG : StakingConfig := {|
  minimumStake := "10000000000000000000000000";   (* 10,000,000 OAS for validators *)
  minimumDelegation := "1000000000000000000";     (* 1 OAS for delegators *)
  unbondingPeriod := 10                           (* epochs *)
|}.

End NetworkTables.

(* ================================================================== *)
(** ** utils/validatorUtils.ts

    Amounts are [bigint], whose division truncates towards zero ([Z.quot]).
    Epochs and block numbers are numbers that hold integers, with the
    arithmetic of doubles ([JsNumber]); a whole percentage is only
    compared. *)
(* ================================================================== *)

Module ValidatorUtils.
Import NetworkTables JsNumber.

(** Calculate delegator rewards.  [commissionRate] is a whole percentage:
    [BigInt(commissionRate * 100)] is then the integer [commissionRate * 100]
    (on a number with a fraction [BigInt] may throw, which is not modelled). *)
Definition calculateDelegatorRewards
    (delegatedAmount totalValidatorStake validatorRewards commissionRate : Z) : Z :=
  if totalValidatorStake =? 0 then 0
  else
    (* Calculate share of rewards *)
    let sharePercentage := Z.quot (delegatedAmount * 10000) totalValidatorStake in
    let grossRewards := Z.quot (validatorRewards * sharePercentage) 10000 in
    (* Deduct commission *)
    let commission := Z.quot (grossRewards * (commissionRate * 100)) 10000 in
    grossRewards - commission.

(** Get unbonding completion epoch *)
Definition getUnbondingCompletionEpoch (currentEpoch : number) : number :=
  add currentEpoch (Int (unbondingPeriod STAKING_CONFIG)).

(** Calculate epochs until unbonding complete *)
Definition epochsUntilUnbonding (unbondingEpoch currentEpoch : number) : number :=
  let remaining := sub unbondingEpoch currentEpoch in
  if gt remaining (Int 0) then remaining else Int 0.

(** Get current epoch from block number *)
Definition getEpochFromBlock (blockNumber : number) : number :=
  floor_div blockNumber (Int (blocksPerEpoch EPOCH_CONFIG)).

Record BlockRange := {
  startBlock : number;
  endBlock : number
}.

(** Get block range for an epoch *)
Definition getEpochBlockRange (epoch : number) : BlockRange :=
  let startBlock := mul epoch (Int (blocksPerEpoch EPOCH_CONFIG)) in
  let endBlock := sub (add startBlock (Int (blocksPerEpoch EPOCH_CONFIG))) (Int 1) in
  {| startBlock := startBlock; endBlock := endBlock |}.




End ValidatorUtils.

(* ================================================================== *)
(** ** utils/bridgeUtils.ts: required confirmations *)
(* ================================================================== *)

Module BridgeConfirmations.
Import Networks BridgeUtils.

(** Calculate required confirmations *)
Definition getRequiredConfirmations (direction : BridgeDirection) : Z :=
  if decide (direction = deposit) then depositConfirmations BRIDGE_CONFIG
  else
    (* Withdrawals don't need confirmations in the traditional sense.
       They have a challenge period instead *)
    0.

End BridgeConfirmations.

(* ================================================================== *)
(** ** utils/unitConverter.ts: gwei, transaction cost, epoch times *)
(* ================================================================== *)

Module UnitConverterMore.
Import UnitConverter JsNumber.

(** Convert wei to Gwei *)
Definition weiToGwei (wei : WeiArg) : outcome string :=
  Ethers.formatUnits (wei_toString wei) 9.

(** Convert Gwei to wei, for the string case of [string | number]. *)
Definition gweiToWei (gwei : string) : outcome Z :=
  Ethers.parseUnits gwei 9.

Record TransactionCost := {
  cost_wei : Z;
  cost_oas : string;
  cost_gwei : string
}.

(** Estimate transaction cost *)
Definition estimateTransactionCost (gasLimit gasPrice : Z) : outcome TransactionCost :=
  let costWei := gasLimit * gasPrice in
  oas ← weiToOas (WeiBigint costWei);
  gwei ← weiToGwei (WeiBigint costWei);
  mret {| cost_wei := costWei; cost_oas := oas; cost_gwei := gwei |}.

(** Convert epoch to timestamp.  An omitted argument ([None]) takes its
    default: 86400 for [epochDuration], 0 for [genesisTimestamp]. *)
Definition epochToTimestamp (epoch : number) (epochDuration genesisTimestamp : option number)
    : number :=
  let epochDuration := default (Int 86400) epochDuration in
  let genesisTimestamp := default (Int 0) genesisTimestamp in
  add genesisTimestamp (mul epoch epochDuration).

(** Convert timestamp to epoch *)
Definition timestampToEpoch (timestamp : number)
    (epochDuration genesisTimestamp : option number) : number :=
  let epochDuration := default (Int 86400) epochDuration in
  let genesisTimestamp := default (Int 0) genesisTimestamp in
  floor_div (sub timestamp genesisTimestamp) epochDuration.

End UnitConverterMore.

(* ------------------------------------------------------------------------- *)
(** ** constants/verses.ts and constants/networks.ts: the lookup tables *)

Module VerseTable.

(** The fields of [VerseConfig] that the code below reads. *)
Record VerseConfig := {
  id : string;
  name : string;
  chainId : Z;
  rpcUrl : string;
  bridgeAddress : string;
  isGasless : bool
}.

Definition HOME_VERSE : VerseConfig := {|
  id := "home-verse"; name := "HOME Verse"; chainId := 19011;
  rpcUrl := "https://rpc.mainnet.oasys.homeverse.games";
  bridgeAddress := "0x28cF1c5a2E682E1c80C11b7e9aAb3Ef6A31D3C6d";
  isGasless := true |}.

Definition MCH_VERSE : VerseConfig := {|
  id := "mch-verse"; name := "MCH Verse"; chainId := 29548;
  rpcUrl := "https://rpc.oasys.mycryptoheroes.net";
  bridgeAddress := "0x9d8B4F5E99fF123456789a1b2C3d4e5F67890abc";
  isGasless := true |}.

Definition TCG_VERSE : VerseConfig := {|
  id := "tcg-verse"; name := "TCG Verse"; chainId := 2400;
  rpcUrl := "https://rpc.tcgverse.xyz";
  bridgeAddress := "0xTCGBridge123456789abcdef0123456789abcdef";
  isGasless := true |}.

Definition SAAKURU_VERSE : VerseConfig := {|
  id := "saakuru-verse"; name := "Saakuru Verse"; chainId := 7225878;
  rpcUrl := "https://rpc.saakuru.network";
  bridgeAddress := "0xSaakuruBridge123456789abcdef0123456789ab";
  isGasless := true |}.

Definition CHAIN_VERSE : VerseConfig := {|
  id := "chain-verse"; name := "Chain Verse"; chainId := 5555;
  rpcUrl := "https://rpc.chainverse.info";
  bridgeAddress := "0xChainVerseBridge123456789abcdef0123456789";
  isGasless := true |}.

Definition DEFI_VERSE : VerseConfig := {|
  id := "defi-verse"; name := "DeFi Verse"; chainId := 16116;
  rpcUrl := "https://rpc.defi-verse.org";
  bridgeAddress := "0xDeFiVerseBridge123456789abcdef0123456789ab";
  isGasless := false |}.

Definition YOOLDO_VERSE : VerseConfig := {|
  id := "yooldo-verse"; name := "Yooldo Verse"; chainId := 50006;
  rpcUrl := "https://rpc.yooldo-verse.xyz";
  bridgeAddress := "0xYooldoVerseBridge123456789abcdef01234567";
  isGasless := true |}.

Definition GEEK_VERSE : VerseConfig := {|
  id := "geek-verse"; name := "GEEK Verse"; chainId := 75512;
  rpcUrl := "https://rpc.geekverse.io";
  bridgeAddress := "0xGeekVerseBridge123456789abcdef012345678ab";
  isGasless := true |}.

(** The own properties of the object [VERSES], in the order they are
    written. *)
Definition VERSES : list (string * VerseConfig) :=
  [ ("homeVerse", HOME_VERSE); ("mchVerse", MCH_VERSE); ("tcgVerse", TCG_VERSE);
    ("saakuruVerse", SAAKURU_VERSE); ("chainVerse", CHAIN_VERSE);
    ("defiVerse", DEFI_VERSE); ("yooldoVerse", YOOLDO_VERSE);
    ("geekVerse", GEEK_VERSE) ].

(** The own property of a table under [key], if there is one. *)
Definition own {A} (table : list (string * A)) (key : string) : option A :=
  snd <$> List.find (λ entry, String.eqb (fst entry) key) table.

(** The names every object literal inherits from [Object.prototype].  Under
    each of them [table[key]] is a function or an object: a truthy value
    without any of the fields of the table's entries. *)
Definition objectPrototypeNames : list string :=
  [ "constructor"; "__defineGetter__"; "__defineSetter__"; "hasOwnProperty";
    "__lookupGetter__"; "__lookupSetter__"; "isPrototypeOf";
    "propertyIsEnumerable"; "toString"; "valueOf"; "__proto__";
    "toLocaleString" ].

(** What [table[key]] evaluates to. *)
Inductive Property (A : Type) :=
| Own (entry : A)
| Inherited
| Undefined.
Arguments Own {A} entry.
Arguments Inherited {A}.
Arguments Undefined {A}.

Definition property {A} (table : list (string * A)) (key : string) : Property A :=
  match own table key with
  | Some entry => Own entry
  | None =>
      if existsb (String.eqb key) objectPrototypeNames then Inherited else Undefined
  end.

(** [table[key]?.field ?? fallback]: an inherited value has no such field. *)
Definition field_or {A B} (p : Property A) (field : A → B) (fallback : B) : B :=
  match p with
  | Own entry => field entry
  | Inherited | Undefined => fallback
  end.

(** [getVerseConfig(keyOrChainId)] when the argument is a number. *)
Definition getVerseConfig (chainId' : Z) : option VerseConfig :=
  List.find (λ v, chainId v =? chainId') (snd <$> VERSES).

(** Get RPC URL for a Verse *)
Definition getVerseRpcUrl (verseKey : string) : string :=
  field_or (property VERSES verseKey) rpcUrl "".

(** Get chain ID for a Verse *)
Definition getVerseChainId (verseKey : string) : Z :=
  field_or (property VERSES verseKey) chainId 0.

(** The fields of [NetworkConfig] read below. *)
Record NetworkConfig := {
  net_name : string;
  net_chainId : Z;
  net_rpcUrl : string
}.

Definition HUB_MAINNET : NetworkConfig := {|
  net_name := "Oasys Hub Mainnet"; net_chainId := 248;
  net_rpcUrl := "https://rpc.mainnet.oasys.games" |}.

Definition HUB_TESTNET : NetworkConfig := {|
  net_name := "Oasys Hub Testnet"; net_chainId := 9372;
  net_rpcUrl := "https://rpc.testnet.oasys.games" |}.

(** Network configuration map *)
Definition NETWORKS : list (string * NetworkConfig) :=
  [ ("hub", HUB_MAINNET); ("hubTestnet", HUB_TESTNET) ].

End VerseTable.

(* ------------------------------------------------------------------------- *)
(** ** utils/layerUtils.ts: chain ids and gas settings *)

Module LayerConfig.
Import VerseTable.

(** Get chain ID for a given layer/verse combination.  [None] is an
    omitted argument. *)
Definition getChainId (layer : string) (verse : option string)
    (customChainId : option Z) : Z :=
  if String.eqb layer "custom" then default 248 customChainId
  else
    match verse with
    | Some verse' =>
        if String.eqb layer "verse" && truthy_string verse'
        then field_or (property VERSES verse') chainId 0
        else field_or (property NETWORKS layer) net_chainId 248
    | None => field_or (property NETWORKS layer) net_chainId 248
    end.

(** Check if layer supports gasless transactions *)
Definition isGaslessSupported (layer : string) (verse : option string) : bool :=
  (* Hub never supports gasless *)
  if negb (String.eqb layer "verse") then false
  else
    match verse with
    | Some verse' =>
        if truthy_string verse'
        then field_or (property VERSES verse') isGasless false
        else false
    | None => false
    end.

Record GasConfig := {
  useGas : bool;
  defaultGasLimit : Z;
  defaultGasPrice : option Z
}.

(** Get appropriate gas configuration for layer *)
Definition getGasConfig (layer : string) (verse : option string) : GasConfig :=
  if isGaslessSupported layer verse then
    {| useGas := false; defaultGasLimit := 0; defaultGasPrice := None |}
  else if String.eqb layer "hub" || String.eqb layer "hubTestnet" then
    {| useGas := true; defaultGasLimit := 21000;
       defaultGasPrice := Some 1000000000 |}          (* 1 Gwei *)
  else
    {| useGas := true; defaultGasLimit := 21000;
       defaultGasPrice := Some 1000000 |}.            (* 0.001 Gwei *)

(** Check if layer is Hub (Layer 1) *)
Definition isHubLayer (layer : string) : bool :=
  String.eqb layer "hub" || String.eqb layer "hubMainnet" || String.eqb layer "hubTestnet".

End LayerConfig.

(* ------------------------------------------------------------------------- *)
(** ** transport/hubClient.ts: staking queries *)

Module HubStaking.

(** The methods of the stake manager contract that are called below; each is
    an awaited contract call and may throw. *)
Record StakeManager := {
  sm_getValidators : outcome (list string);
  sm_getDelegation : string → string → outcome Z;
  sm_getRewards : string → string → outcome Z
}.

(** What the methods below read of [this]; [None] is [null]. *)
Record HubClient := {
  stakeManager : option StakeManager
}.

(** Get all validators *)
Definition getValidators (this : HubClient) : outcome (list string) :=
  match stakeManager this with
  | None => Threw "Stake manager not initialized"
  | Some sm => sm_getValidators sm
  end.

(** Get delegation info *)
Definition getDelegation (this : HubClient) (delegator validator : string) : outcome Z :=
  match stakeManager this with
  | None => Threw "Stake manager not initialized"
  | Some sm => sm_getDelegation sm delegator validator
  end.

(** Get pending rewards *)
Definition getRewards (this : HubClient) (delegator validator : string) : outcome Z :=
  match stakeManager this with
  | None => Threw "Stake manager not initialized"
  | Some sm => sm_getRewards sm delegator validator
  end.

Record Delegation := {
  validator : string;
  amount : Z;
  rewards : Z
}.

Record StakingInfo := {
  totalStaked : Z;
  validators : list string;
  delegations : list Delegation;
  totalRewards : Z
}.

(** The three variables the loop of [getStakingInfo] updates. *)
Record StakingTotals := {
  acc_delegations : list Delegation;
  acc_totalStaked : Z;
  acc_totalRewards : Z
}.

(** The body of the [try] block for one validator.  The three updates come
    after the last call that may throw, so a throw leaves the variables as
    they were. *)
Definition stakingStep (this : HubClient) (address : string) (acc : StakingTotals)
    (validator : string) : outcome StakingTotals :=
  delegation ← getDelegation this address validator;
  if delegation >? 0 then
    rewards ← getRewards this address validator;
    mret {| acc_delegations :=
              acc_delegations acc ++
                [{| validator := validator; amount := delegation; rewards := rewards |}];
            acc_totalStaked := acc_totalStaked acc + delegation;
            acc_totalRewards := acc_totalRewards acc + rewards |}
  else mret acc.

(** [for (const validator of validators) { try { ... } catch { } }] *)
Fixpoint stakingLoop (this : HubClient) (address : string) (validators : list string)
    (acc : StakingTotals) : StakingTotals :=
  match validators with
  | [] => acc
  | validator :: rest =>
      stakingLoop this address rest
        match stakingStep this address acc validator with
        | Done acc' => acc'
        | Threw _ => acc    (* Skip validators where delegation check fails *)
        end
  end.

(** Get staking info for an address *)
Definition getStakingInfo (this : HubClient) (address : string) : outcome StakingInfo :=
  match stakeManager this with
  | None => Threw "Stake manager not initialized"
  | Some _ =>
      validators ← getValidators this;
      let acc := stakingLoop this address validators
                   {| acc_delegations := []; acc_totalStaked := 0;
                      acc_totalRewards := 0 |} in
      mret {| totalStaked := acc_totalStaked acc;
              validators := validator <$> acc_delegations acc;
              delegations := acc_delegations acc;
              totalRewards := acc_totalRewards acc |}
  end.

(** The sum of a list of amounts. *)
Definition sumZ (xs : list Z) : Z := foldr Z.add 0 xs.

(** What holds of the loop variables before and after every turn. *)
Definition stakingInvariant (this : HubClient) (address : string)
    (acc : StakingTotals) : Prop :=
  acc_totalStaked acc = sumZ (amount <$> acc_delegations acc) ∧
  acc_totalRewards acc = sumZ (rewards <$> acc_delegations acc) ∧
  Forall (λ d, 0 < amount d ∧
               getDelegation this address (validator d) = Done (amount d) ∧
               getRewards this address (validator d) = Done (rewards d))
         (acc_delegations acc).

(** A validator is reported when its delegation is read and positive and its
    rewards are read. *)
Definition reported (this : HubClient) (address : string) (validator : string) : bool :=
  match getDelegation this address validator, getRewards this address validator with
  | Done delegation, Done _ => delegation >? 0
  | _, _ => false
  end.

End HubStaking.

(* ------------------------------------------------------------------------- *)
(** ** transport/apiClient.ts: bridge transfers *)

Module BridgeTransfer.
Import Networks.

(** The overrides object that ends a contract call. *)
Record Overrides := {
  value : option Z;
  gasLimit : option Z;
  gasPrice : option Z
}.

(** The calls made on the L1 bridge contract, with their arguments. *)
Inductive L1BridgeCall :=
| depositETHTo (toAddress : string) (minGasLimit : Z) (extraData : string)
               (overrides : Overrides)
| depositETH (minGasLimit : Z) (extraData : string) (overrides : Overrides).

(** The calls made on the L2 bridge contract. *)
Inductive L2BridgeCall :=
| withdrawTo (l2TokenAddress toAddress : string) (amount : Z) (minGasLimit : Z)
             (extraData : string) (overrides : Overrides)
| withdraw (l2TokenAddress : string) (amount : Z) (minGasLimit : Z)
           (extraData : string) (overrides : Overrides).

Record Wallet := { address : string }.

Record TransactionResponse := { tx_hash : string }.

(** What the methods below read of [this]; [None] is [null].  A contract
    is what it answers to each call, and a call may throw. *)
Record BridgeClient := {
  hubWallet : option Wallet;
  verseWallet : option Wallet;
  l1Bridge : option (L1BridgeCall → outcome TransactionResponse);
  l2Bridge : option (L2BridgeCall → outcome TransactionResponse)
}.

Record TransferOptions := {
  opt_minGasLimit : option Z;
  opt_gasLimit : option Z;
  opt_gasPrice : option Z
}.

(** [toAddress && toAddress !== wallet.address] *)
Definition otherAddress (toAddress : option string) (wallet : Wallet) : option string :=
  match toAddress with
  | Some to =>
      if truthy_string to && negb (String.eqb to (address wallet)) then Some to else None
  | None => None
  end.

(** Deposit OAS from Hub to Verse *)
Definition depositOas (this : BridgeClient) (amount : Z) (toAddress : option string)
    (options : option TransferOptions) : outcome TransactionResponse :=
  match hubWallet this, l1Bridge this with
  | Some wallet, Some bridge =>
      (* Validate amount *)
      min ← BigInt (minDeposit BRIDGE_CONFIG);
      if amount <? min then
        Threw ("Amount below minimum deposit: " +:+ minDeposit BRIDGE_CONFIG)
      else
        max ← BigInt (maxDeposit BRIDGE_CONFIG);
        if amount >? max then
          Threw ("Amount exceeds maximum deposit: " +:+ maxDeposit BRIDGE_CONFIG)
        else
          let minGasLimit := default 200000 (options ≫= opt_minGasLimit) in
          let extraData := "0x" in
          let overrides := {| value := Some amount;
                              gasLimit := Some (default 250000 (options ≫= opt_gasLimit));
                              gasPrice := options ≫= opt_gasPrice |} in
          match otherAddress toAddress wallet with
          | Some to => bridge (depositETHTo to minGasLimit extraData overrides)
          | None => bridge (depositETH minGasLimit extraData overrides)
          end
  | _, _ => Threw "Wallet not configured - private key required"
  end.

(** Withdraw OAS from Verse to Hub *)
Definition withdrawOas (this : BridgeClient) (amount : Z) (toAddress : option string)
    (options : option TransferOptions) : outcome TransactionResponse :=
  match verseWallet this, l2Bridge this with
  | Some wallet, Some bridge =>
      let minGasLimit := default 200000 (options ≫= opt_minGasLimit) in
      let extraData := "0x" in
      (* L2 standard bridge uses address(0) for ETH/OAS *)
      let l2TokenAddress := "0x0000000000000000000000000000000000000000" in
      let overrides := {| value := Some amount;
                          gasLimit := options ≫= opt_gasLimit;
                          gasPrice := options ≫= opt_gasPrice |} in
      match otherAddress toAddress wallet with
      | Some to => bridge (withdrawTo l2TokenAddress to amount minGasLimit extraData
                                      overrides)
      | None => bridge (withdraw l2TokenAddress amount minGasLimit extraData overrides)
      end
  | _, _ => Threw "Wallet not configured - private key required"
  end.

End BridgeTransfer.

(* ------------------------------------------------------------------------- *)
(** ** Oasys.node.ts: the deposit and withdraw operations of the bridge
    resource *)

Module BridgeOperations.
Import BridgeUtils UnitConverter BridgeTransfer.

Record TransferResult := {
  txHash : string;
  result_amount : string;
  result_direction : string;
  result_verse : string;
  estimatedTime : string
}.

(** [if (!validation.isValid) throw new Error(validation.error)] *)
Definition requireValid (validation : Validation) : outcome unit :=
  if isValid validation then mret tt else Threw (default "" (error validation)).

(** [operation === 'deposit'], from the [amount] parameter on. *)
Definition depositOperation (bridgeClient : BridgeClient) (verseKey amount : string)
    : outcome TransferResult :=
  amountWei ← oasToWei amount;
  validation ← validateBridgeAmount amountWei deposit None;
  _ ← requireValid validation;
  tx ← depositOas bridgeClient amountWei None None;
  mret {| txHash := tx_hash tx;
          result_amount := amount;
          result_direction := "Hub → Verse";
          result_verse := verseKey;
          estimatedTime := "~15 minutes" |}.

(** [operation === 'withdraw'], from the [amount] parameter on. *)
Definition withdrawOperation (bridgeClient : BridgeClient) (verseKey amount : string)
    : outcome TransferResult :=
  amountWei ← oasToWei amount;
  validation ← validateBridgeAmount amountWei BridgeUtils.withdraw None;
  _ ← requireValid validation;
  tx ← withdrawOas bridgeClient amountWei None None;
  mret {| txHash := tx_hash tx;
          result_amount := amount;
          result_direction := "Verse → Hub";
          result_verse := verseKey;
          estimatedTime := "~7 days (challenge period)" |}.

End BridgeOperations.

(* ------------------------------------------------------------------------- *)
(** ** The client factories (apiClient.ts, hubClient.ts) *)

Module Factories.
Import VerseTable.

Record BridgeCredentials := {
  bridge_layer : string;
  bridge_privateKey : option string;
  bridge_customRpcUrl : option string
}.

(** The argument of [new BridgeClient(...)]; [verseRpcUrl] is [undefined]
    ([None]) when [VERSES[verseKey]] is an inherited value. *)
Record BridgeClientConfig := {
  hubRpcUrl : string;
  verseRpcUrl : option string;
  verseKey : string;
  bridge_config_privateKey : option string
}.

(** Create Bridge client from credentials: the configuration the client is
    constructed with. *)
Definition createBridgeClient (hubCredentials : BridgeCredentials) (verseKey : string)
    : outcome BridgeClientConfig :=
  match property VERSES verseKey with
  | Undefined => Threw ("Verse not found: " +:+ verseKey)
  | verseConfig =>
      let hubRpcUrl :=
        if String.eqb (bridge_layer hubCredentials) "hub" then net_rpcUrl HUB_MAINNET
        else if String.eqb (bridge_layer hubCredentials) "custom"
             then default (net_rpcUrl HUB_MAINNET) (bridge_customRpcUrl hubCredentials)
        else net_rpcUrl HUB_MAINNET in
      Done {| hubRpcUrl := hubRpcUrl;
              verseRpcUrl := match verseConfig with
                             | Own entry => Some (rpcUrl entry)
                             | _ => None
                             end;
              verseKey := verseKey;
              bridge_config_privateKey := bridge_privateKey hubCredentials |}
  end.

Record HubCredentials := {
  layer : option string;
  network : option string;
  privateKey : option string;
  customRpcUrl : option string;
  customChainId : option Z
}.

(** The argument of [new HubClient(...)]. *)
Record HubClientConfig := {
  config_rpcUrl : string;
  config_chainId : Z;
  config_privateKey : option string
}.

(** [credentials.layer ?? credentials.network ?? 'mainnet'] *)
Definition layerOrNetwork (credentials : HubCredentials) : string :=
  match layer credentials with
  | Some l => l
  | None => default "mainnet" (network credentials)
  end.

(** Create Hub client from credentials: the configuration the client is
    constructed with. *)
Definition createHubClient (credentials : HubCredentials) : HubClientConfig :=
  let name := layerOrNetwork credentials in
  let (rpcUrl, chainId) :=
    if String.eqb name "hub" || String.eqb name "hubMainnet" || String.eqb name "mainnet"
    then (net_rpcUrl HUB_MAINNET, net_chainId HUB_MAINNET)
    else if String.eqb name "hubTestnet" || String.eqb name "testnet"
    then (net_rpcUrl HUB_TESTNET, net_chainId HUB_TESTNET)
    else if String.eqb name "custom"
    then (default (net_rpcUrl HUB_MAINNET) (customRpcUrl credentials),
          default (net_chainId HUB_MAINNET) (customChainId credentials))
    else (net_rpcUrl HUB_MAINNET, net_chainId HUB_MAINNET) in
  {| config_rpcUrl := rpcUrl; config_chainId := chainId;
     config_privateKey := privateKey credentials |}.

End Factories.

(* ------------------------------------------------------------------------- *)
(** ** The polling trigger: more hosts, and what a statement depends on *)

Module TriggerScenarios.
Import Trigger Scenarios.

(** [contractAddress, eventName, data] of a record of the contract
    category. *)
Definition contractRecord (contractAddress eventName : string) (evt : Json)
    : INodeExecutionData :=
  {| json := JObj [("event", JStr "contractEvent"); ("layer", JStr "Hub");
                   ("contractAddress", JStr contractAddress);
                   ("eventName", JStr eventName);
                   ("data", evt)] |}.

(** A host of the contract category that watches the [Transfer] events of
    one contract. *)
Definition contractContext (hub : HubClient) : PollContext :=
  {| nodeParameter := λ name,
       if String.eqb name "category" then ParamSet "contract"
       else if String.eqb name "event" then ParamSet "contractEvent"
       else if String.eqb name "contractAddress" then ParamSet "0x5200"
       else if String.eqb name "eventName" then ParamSet "Transfer"
       else ParamUnset;
     getCredentials := λ _, Done sampleCredentials;
     createHubClient := λ _ _, Done hub;
     createVerseClient := λ _ _, Done (sampleVerse 0);
     formatOas := λ _, "0.0000";
     JSON_parse := λ _, Done (JArr []);
     toISOString_now := "2024-01-01T00:00:00.000Z" |}.

(** A host of the wallet category that watches one address on the layer
    [layer]. *)
Definition walletContext (layer : string) (hub : HubClient) (verse : VerseClient)
    : PollContext :=
  {| nodeParameter := λ name,
       if String.eqb name "category" then ParamSet "wallet"
       else if String.eqb name "event" then ParamSet "balanceChanged"
       else if String.eqb name "layer" then ParamSet layer
       else if String.eqb name "watchAddress" then ParamSet "0x5200"
       else ParamUnset;
     getCredentials := λ _, Done sampleCredentials;
     createHubClient := λ _ _, Done hub;
     createVerseClient := λ _ _, Done verse;
     formatOas := λ _, "0.0000";
     JSON_parse := λ _, Done (JArr []);
     toISOString_now := "2024-01-01T00:00:00.000Z" |}.

(** A hub at height [height] whose event query throws. *)
Definition deafHub (height : Z) : HubClient :=
  {| hub_getBlockNumber := Done height;
     hub_getBlock := λ n, Done (Some (sampleBlock n));
     hub_getCurrentEpochInfo := Done {| currentEpoch := 12; blocksRemaining := 100 |};
     hub_getBalance := λ _, Done 0;
     hub_getStakingInfo := λ _, Done JNull;
     hub_getContractEvents := λ _ _ _ _ _, Threw "query returned more than 10000 results" |}.

(** A statement that reads nothing of the state but [results]: started in
    two states with the same [results], it ends with the same outcome and
    the same [results]. *)
Definition readsResultsOnly {A} (m : M A) : Prop :=
  ∀ s s', results s = results s' →
    fst (m s) = fst (m s') ∧ results (snd (m s)) = results (snd (m s')).

End TriggerScenarios.

(* ------------------------------------------------------------------------- *)
(** ** Oasys.node.ts: the clients [execute] creates *)

Module NodeClients.
Import Factories.

(** [networkLayer === 'hubMainnet' || networkLayer === 'hubTestnet'] *)
Definition isHub (networkLayer : string) : bool :=
  String.eqb networkLayer "hubMainnet" || String.eqb networkLayer "hubTestnet".

(** The hub client of [execute], [null] ([None]) when none is created;
    [networkLayer] is [credentials.layer as string]. *)
Definition hubClientOf (networkLayer : string) (privateKey : option string)
    (resource : string) : option HubClientConfig :=
  if isHub networkLayer ||
     existsb (String.eqb resource) ["hub"; "staking"; "validator"; "bridge"]
  then Some (createHubClient {| layer := None; network := Some networkLayer;
                                privateKey := privateKey;
                                customRpcUrl := None; customChainId := None |})
  else None.

(** The bridge client of the bridge resource. *)
Definition bridgeClientOf (networkLayer : string) (privateKey : option string)
    (verseKey : string) : outcome BridgeClientConfig :=
  createBridgeClient {| bridge_layer := networkLayer;
                        bridge_privateKey := privateKey;
                        bridge_customRpcUrl := None |} verseKey.

End NodeClients.

(* ------------------------------------------------------------------------- *)
(** ** Sample clients for the staking queries and the bridge transfers *)

Module ClientScenarios.
Import HubStaking BridgeTransfer.

(** A stake manager with three validators: the delegator has 5 with the
    first and 7 with the third, and the query for the second throws. *)
Definition sampleStakeManager : StakeManager :=
  {| sm_getValidators := Done ["0xv1"; "0xv2"; "0xv3"];
     sm_getDelegation := λ _ validator,
       if String.eqb validator "0xv1" then Done 5
       else if String.eqb validator "0xv2" then Threw "call revert exception"
       else Done 7;
     sm_getRewards := λ _ validator,
       if String.eqb validator "0xv1" then Done 1 else Done 2 |}.

Definition sampleStakingClient : HubClient :=
  {| stakeManager := Some sampleStakeManager |}.

(** A bridge client with a wallet on both layers whose contracts answer
    every call with the same transaction. *)
Definition sampleSigner : BridgeClient :=
  {| hubWallet := Some {| address := "0xf39F" |};
     verseWallet := Some {| address := "0xf39F" |};
     l1Bridge := Some (λ _, Done {| tx_hash := "0x1d" |});
     l2Bridge := Some (λ _, Done {| tx_hash := "0x2w" |}) |}.

End ClientScenarios.

(* ------------------------------------------------------------------------- *)
(** ** transport/verseClient.ts: gasless verses *)

Module VerseClients.
Import VerseTable.

Record VerseCredentials := {
  verse : string;
  privateKey : option string;
  customVerseRpcUrl : option string;
  customVerseChainId : option Z
}.

(** The fields of the argument of [new VerseClient(...)] that are read
    below.  A field is [undefined] ([None]) when it is read from a value
    that [VERSES] only inherits. *)
Record VerseClientConfig := {
  config_rpcUrl : option string;
  config_chainId : option Z;
  config_privateKey : option string;
  config_isGasless : option bool
}.

(** Create Verse client from credentials: the configuration the client is
    constructed with. *)
Definition createVerseClient (credentials : VerseCredentials)
    : outcome VerseClientConfig :=
  if String.eqb (verse credentials) "customVerse" then
    Done {| config_rpcUrl := Some (default "" (customVerseRpcUrl credentials));
            config_chainId := Some (default 0 (customVerseChainId credentials));
            config_privateKey := privateKey credentials;
            (* Assume custom verses are gasless by default *)
            config_isGasless := Some true |}
  else
    match property VERSES (verse credentials) with
    | Undefined => Threw ("Verse not found: " +:+ verse credentials)
    | Own verseConfig =>
        Done {| config_rpcUrl := Some (rpcUrl verseConfig);
                config_chainId := Some (chainId verseConfig);
                config_privateKey := privateKey credentials;
                config_isGasless := Some (isGasless verseConfig) |}
    | Inherited =>
        Done {| config_rpcUrl := None; config_chainId := None;
                config_privateKey := privateKey credentials;
                config_isGasless := None |}
    end.

(** A transaction request as [transfer] builds it; a key that is not set
    and a key set to [undefined] are both [None]. *)
Record TransactionRequest := {
  to : string;
  value : Z;
  gasLimit : option Z;
  gasPrice : option Z
}.

Record TransactionResponse := { hash : string }.

(** What the methods below read of [this]: the flag, the wallet with its
    [sendTransaction], and two calls of the provider ([getFeeData] with
    the [gasPrice] of its answer, [null] being [None]). *)
Record VerseClient := {
  this_isGasless : bool;
  wallet : option (TransactionRequest → outcome TransactionResponse);
  provider_getFeeData : outcome (option Z);
  provider_estimateGas : string → option Z → option string → outcome Z
}.

(** The constructor: [this.isGasless = config.isGasless ?? true]. *)
Definition constructedGasless (config : VerseClientConfig) : bool :=
  default true (config_isGasless config).

(** Get gas price (may be 0 for gasless verses) *)
Definition getGasPrice (this : VerseClient) : outcome Z :=
  if this_isGasless this then Done 0
  else
    gasPrice ← provider_getFeeData this;
    mret (default 0 gasPrice).

(** Estimate gas for a transaction *)
Definition estimateGas (this : VerseClient) (to : string) (value : option Z)
    (data : option string) : outcome Z :=
  if this_isGasless this then Done 0
  else provider_estimateGas this to value data.

Record GasOptions := {
  opt_gasLimit : option Z;
  opt_gasPrice : option Z
}.

(** Send OAS transfer on Verse *)
Definition transfer (this : VerseClient) (to : string) (amount : Z)
    (options : option GasOptions) : outcome TransactionResponse :=
  match wallet this with
  | None => Threw "Wallet not configured - private key required"
  | Some sendTransaction =>
      (* For gasless verses, gas is paid by the operator *)
      if negb (this_isGasless this) then
        sendTransaction {| to := to; value := amount;
                           gasLimit := options ≫= opt_gasLimit;
                           gasPrice := options ≫= opt_gasPrice |}
      else
        sendTransaction {| to := to; value := amount;
                           gasLimit := None; gasPrice := None |}
  end.

End VerseClients.

(* ------------------------------------------------------------------------- *)
(** ** utils/validatorUtils.ts: validator recommendations *)

Module Recommendations.

(** The addresses of [KNOWN_VALIDATORS] (constants/validators.ts), in the
    order of the list. *)
Definition KNOWN_VALIDATOR_ADDRESSES : list string :=
  [ "0x1234567890123456789012345678901234567890";
    "0x2345678901234567890123456789012345678901";
    "0x3456789012345678901234567890123456789012";
    "0x4567890123456789012345678901234567890123";
    "0x5678901234567890123456789012345678901234";
    "0x6789012345678901234567890123456789012345";
    "0x7890123456789012345678901234567890123456";
    "0x8901234567890123456789012345678901234567" ].

(** [toLowerCase] on the letters A to Z.  The known addresses are made of
    digits and the letter x, which no other character lower-cases to, so
    on the comparison below this agrees with the full [toLowerCase]. *)
Definition lower (c : ascii) : ascii :=
  let n := nat_of_ascii c in
  if (65 <=? n)%nat && (n <=? 90)%nat then ascii_of_nat (n + 32) else c.

Fixpoint toLowerCase (s : string) : string :=
  match s with
  | EmptyString => EmptyString
  | String c rest => String (lower c) (toLowerCase rest)
  end.

(** The flags of [criteria]; an omitted flag is [false]. *)
Record Criteria := {
  preferLowCommission : bool;
  preferHighUptime : bool;
  preferKnownValidator : bool
}.

(** A validator of the argument list; the two numbers hold integers. *)
Record Validator := {
  address : string;
  commissionRate : Z;
  uptime : Z
}.

(** [Array.prototype.sort] with a comparator is a stable sort.  [before a b]
    says that the comparator does not put [b] before [a]; an element is
    inserted in front of the first element it may stand before. *)
Fixpoint insert_by {A} (before : A → A → bool) (x : A) (l : list A) : list A :=
  match l with
  | [] => [x]
  | y :: rest => if before x y then x :: l else y :: insert_by before x rest
  end.

Definition sort_by {A} (before : A → A → bool) (l : list A) : list A :=
  foldr (insert_by before) [] l.

(** [(a, b) => a.commissionRate - b.commissionRate] *)
Definition byCommission (a b : Validator) : bool :=
  commissionRate a <=? commissionRate b.

(** [(a, b) => b.uptime - a.uptime] *)
Definition byUptime (a b : Validator) : bool := uptime b <=? uptime a.

(** [knownAddresses.includes(v.address.toLowerCase())] *)
Definition isKnown (v : Validator) : bool :=
  existsb (String.eqb (toLowerCase (address v)))
          (toLowerCase <$> KNOWN_VALIDATOR_ADDRESSES).

(** The order a stable sort leaves between two elements of which [a] stands
    before [b]: the comparator lets [a] stand before [b], and where it also
    lets [b] stand before [a], they are in the order [earlier] they had. *)
Definition ranks {A} (before : A → A → bool) (earlier : A → A → Prop) (a b : A) : Prop :=
  before a b = true ∧ (before b a = true → earlier a b).

(** Get validator recommendations based on criteria *)
Definition getValidatorRecommendations (criteria : Criteria)
    (validators : list Validator) : list string :=
  let sorted := validators in
  let sorted := if preferLowCommission criteria
                then sort_by byCommission sorted else sorted in
  let sorted := if preferHighUptime criteria
                then sort_by byUptime sorted else sorted in
  let sorted := if preferKnownValidator criteria
                then List.filter isKnown sorted else sorted in
  address <$> take 5 sorted.

End Recommendations.

(* ------------------------------------------------------------------------- *)
(** ** transport/hubClient.ts and Oasys.node.ts: staking transactions *)

Module StakingTransactions.
Import NetworkTables UnitConverter BridgeTransfer.

(** The calls made on the stake manager contract by the methods below. *)
Inductive StakeManagerCall :=
| stake_call (validator : string) (overrides : Overrides)
| unstake_call (validator : string) (amount : Z) (overrides : Overrides).

Record StakeOptions := {
  stake_gasLimit : option Z;
  stake_gasPrice : option Z
}.

(** What [stake] and [unstake] read of [this]; [None] is [null]. *)
Record HubSigner := {
  wallet : option Wallet;
  stakeManager : option (StakeManagerCall → outcome TransactionResponse)
}.

(** Stake OAS to a validator *)
Definition stake (this : HubSigner) (validator : string) (amount : Z)
    (options : option StakeOptions) : outcome TransactionResponse :=
  match wallet this, stakeManager this with
  | Some _, Some contract =>
      contract (stake_call validator
                  {| value := Some amount;
                     gasLimit := Some (default 150000 (options ≫= stake_gasLimit));
                     gasPrice := options ≫= stake_gasPrice |})
  | _, _ => Threw "Wallet not configured - private key required"
  end.

(** Unstake OAS from a validator *)
Definition unstake (this : HubSigner) (validator : string) (amount : Z)
    (options : option StakeOptions) : outcome TransactionResponse :=
  match wallet this, stakeManager this with
  | Some _, Some contract =>
      contract (unstake_call validator amount
                  {| value := None;
                     gasLimit := Some (default 150000 (options ≫= stake_gasLimit));
                     gasPrice := options ≫= stake_gasPrice |})
  | _, _ => Threw "Wallet not configured - private key required"
  end.

(** utils/validatorUtils.ts: check if amount meets minimum delegation. *)
Definition meetsMinimumDelegation (amount : Z) : outcome bool :=
  minimum ← BigInt (minimumDelegation STAKING_CONFIG);
  mret (amount >=? minimum).

Record StakeResult := {
  txHash : string;
  result_validator : string;
  result_amount : string
}.

(** The staking resource: [if (!hubClient) throw ...], [hubClient] being
    [null] ([None]) when [execute] created none. *)
Definition requireHubClient (hubClient : option HubSigner) : outcome HubSigner :=
  match hubClient with
  | Some client => Done client
  | None => Threw "Hub client required for staking operations"
  end.

(** [operation === 'stake'] *)
Definition stakeOperation (hubClient : option HubSigner)
    (validatorAddress amount : string) : outcome StakeResult :=
  client ← requireHubClient hubClient;
  amountWei ← oasToWei amount;
  tx ← stake client validatorAddress amountWei None;
  mret {| txHash := tx_hash tx; result_validator := validatorAddress;
          result_amount := amount |}.

(** [operation === 'unstake'] *)
Definition unstakeOperation (hubClient : option HubSigner)
    (validatorAddress amount : string) : outcome StakeResult :=
  client ← requireHubClient hubClient;
  amountWei ← oasToWei amount;
  tx ← unstake client validatorAddress amountWei None;
  mret {| txHash := tx_hash tx; result_validator := validatorAddress;
          result_amount := amount |}.

End StakingTransactions.


(* ------------------------------------------------------------------------- *)
(** ** A sample hub signer *)

Module StakingScenarios.
Import BridgeTransfer StakingTransactions.

(** A hub client with a wallet whose stake manager answers every call with
    the same transaction. *)
Definition sampleStaker : HubSigner :=
  {| wallet := Some {| address := "0xf39F" |};
     stakeManager := Some (λ _, Done {| tx_hash := "0x57" |}) |}.

End StakingScenarios.

(* ================================================================== *)
(** * Properties *)
(* ================================================================== *)

(** ** Bridge status *)

Section BridgeStatus.
Import Networks BridgeUtils ApiClient.

Variable this : BridgeClient.
Variable txHash : string.

Lemma getBridgeStatus_no_receipt direction :
  getTransactionReceipt (providerFor this direction) txHash = Done None →
  getBridgeStatus this txHash direction =
    Done {| report_status := pending; confirmations := 0; requiredConfirmations := 64 |}.
Proof.
  intros Hr. unfold getBridgeStatus.
  destruct direction; simpl in *; rewrite Hr; reflexivity.
Qed.

Lemma getBridgeStatus_receipt direction receipt currentBlock :
  getTransactionReceipt (providerFor this direction) txHash = Done (Some receipt) →
  getBlockNumber (providerFor this direction) = Done currentBlock →
  getBridgeStatus this txHash direction =
    Done (let confirmations := currentBlock - blockNumber receipt in
          if decide (status receipt = Some 0) then
            {| report_status := failed; confirmations := confirmations;
               requiredConfirmations := 64 |}
          else match direction with
               | deposit =>
                   {| report_status := if 64 <=? confirmations then completed else pending;
                      confirmations := confirmations; requiredConfirmations := 64 |}
               | withdraw =>
                   {| report_status := challenge; confirmations := confirmations;
                      requiredConfirmations := 0 |}
               end).
Proof.
  intros Hr Hb. unfold getBridgeStatus.
  destruct direction; simpl in *; rewrite Hr; simpl; rewrite Hb; simpl;
    destruct (decide (status receipt = Some 0)); try reflexivity.
  rewrite Z.geb_leb. destruct (64 <=? currentBlock - blockNumber receipt); reflexivity.
Qed.

(** C1.  The status [getBridgeStatus] reports is decided by whether a
    receipt exists, by the receipt's status flag and by the confirmation
    count (current block minus receipt block): without a receipt it is
    [pending] with 0 confirmations; with status flag 0 it is [failed]; for a
    deposit whose flag is not 0 it is [completed] exactly when the count is
    at least 64 and [pending] otherwise; for a withdrawal whose flag is not 0
    it is [challenge], never [completed]. *)
Theorem getBridgeStatus_spec (direction : BridgeDirection) :
  depositConfirmations BRIDGE_CONFIG = 64 ∧
  (getTransactionReceipt (providerFor this direction) txHash = Done None →
   getBridgeStatus this txHash direction =
     Done {| report_status := pending; confirmations := 0;
             requiredConfirmations := 64 |}) ∧
  (∀ receipt currentBlock,
     getTransactionReceipt (providerFor this direction) txHash = Done (Some receipt) →
     getBlockNumber (providerFor this direction) = Done currentBlock →
     ∃ report,
       getBridgeStatus this txHash direction = Done report ∧
       confirmations report = currentBlock - blockNumber receipt ∧
       (status receipt = Some 0 → report_status report = failed) ∧
       (status receipt ≠ Some 0 → direction = deposit →
          (report_status report = completed ↔ 64 ≤ confirmations report) ∧
          (report_status report = pending ↔ confirmations report < 64)) ∧
       (status receipt ≠ Some 0 → direction = withdraw →
          report_status report = challenge ∧ report_status report ≠ completed)).
Proof.
  split; [reflexivity|]. split; [apply getBridgeStatus_no_receipt|].
  intros receipt currentBlock Hr Hb.
  eexists. split; [apply (getBridgeStatus_receipt _ _ _ Hr Hb)|].
  simpl. destruct (decide (status receipt = Some 0)) as [Hs|Hs].
  - simpl. repeat split; try done.
  - destruct direction; simpl; repeat split; try done.
    + destruct (64 <=? currentBlock - blockNumber receipt) eqn:E; [lia|done].
    + intros Hc. apply Z.leb_le in Hc. by rewrite Hc.
    + destruct (64 <=? currentBlock - blockNumber receipt) eqn:E; [done|lia].
    + intros Hc. apply Z.leb_gt in Hc. by rewrite Hc.
Qed.

End BridgeStatus.

(** ** Bridge amount validation *)

Section BridgeAmount.
Import Networks BridgeUtils.

Lemma getDefaultBridgeLimits_value :
  getDefaultBridgeLimits =
    Done {| minDeposit := 1000000000000000;
            maxDeposit := 100000000000000000000000;
            minWithdraw := 1000000000000000;
            maxWithdraw := 100000000000000000000000;
            dailyLimit := None; remainingDailyLimit := None |}.
Proof. vm_compute. reflexivity. Qed.

Lemma includes_minimum (tail : string) :
  includes ("Amount below minimum: " +:+ tail) "minimum" = true.
Proof. reflexivity. Qed.

Lemma includes_maximum (tail : string) :
  includes ("Amount exceeds maximum: " +:+ tail) "maximum" = true.
Proof. reflexivity. Qed.

(** The same checks for limits passed by the caller: below the minimum of
    the direction the answer names the minimum; otherwise, above the maximum
    it names the maximum; otherwise, without a remaining daily limit, the
    amount is accepted. *)
Lemma validateBridgeAmount_limits amount direction limits :
  let min := match direction with
             | deposit => minDeposit limits | withdraw => minWithdraw limits end in
  let max := match direction with
             | deposit => maxDeposit limits | withdraw => maxWithdraw limits end in
  (amount < min →
   validateBridgeAmount amount direction (Some limits) =
     Done {| isValid := false;
             error := Some ("Amount below minimum: " +:+ Js.toString min) |}) ∧
  (min ≤ amount → max < amount →
   validateBridgeAmount amount direction (Some limits) =
     Done {| isValid := false;
             error := Some ("Amount exceeds maximum: " +:+ Js.toString max) |}) ∧
  (min ≤ amount → amount ≤ max → remainingDailyLimit limits = None →
   validateBridgeAmount amount direction (Some limits) =
     Done {| isValid := true; error := None |}).
Proof.
  unfold validateBridgeAmount.
  destruct direction; simpl; repeat split; intros.
  all: repeat match goal with
       | |- context [?a <? ?b] =>
           destruct (Z.ltb_spec a b); try lia
       | |- context [?a >? ?b] =>
           rewrite (Z.gtb_ltb a b); destruct (Z.ltb_spec b a); try lia
       end; try reflexivity.
  all: match goal with H : remainingDailyLimit _ = None |- _ => rewrite H end;
       reflexivity.
Qed.

(** C3.  With the configured limits (minimum 0.001 OAS, maximum 100,000 OAS,
    both in wei, no daily limit), for either direction: an amount below the
    minimum is rejected with an error that contains "minimum"; an amount
    above the maximum is rejected with an error that contains "maximum";
    zero and negative amounts are rejected; an amount from the minimum to
    the maximum is accepted. *)
Theorem validateBridgeAmount_spec (amount : Z) (direction : BridgeDirection) :
  BigInt (Networks.minDeposit BRIDGE_CONFIG) = Done 1000000000000000 ∧
  BigInt (Networks.maxDeposit BRIDGE_CONFIG) = Done 100000000000000000000000 ∧
  (amount < 1000000000000000 →
   ∃ message,
     validateBridgeAmount amount direction None =
       Done {| isValid := false; error := Some message |} ∧
     includes message "minimum" = true) ∧
  (amount > 100000000000000000000000 →
   ∃ message,
     validateBridgeAmount amount direction None =
       Done {| isValid := false; error := Some message |} ∧
     includes message "maximum" = true) ∧
  (amount ≤ 0 →
   ∃ message,
     validateBridgeAmount amount direction None =
       Done {| isValid := false; error := Some message |}) ∧
  (1000000000000000 ≤ amount ≤ 100000000000000000000000 →
   validateBridgeAmount amount direction None =
     Done {| isValid := true; error := None |}).
Proof.
  assert (Hdef : ∀ l, getDefaultBridgeLimits = Done l →
            validateBridgeAmount amount direction None =
            validateBridgeAmount amount direction (Some l)).
  { intros l Hl. unfold validateBridgeAmount. rewrite Hl. reflexivity. }
  specialize (Hdef _ getDefaultBridgeLimits_value).
  pose proof (validateBridgeAmount_limits amount direction
    {| minDeposit := 1000000000000000;
       maxDeposit := 100000000000000000000000;
       minWithdraw := 1000000000000000;
       maxWithdraw := 100000000000000000000000;
       dailyLimit := None; remainingDailyLimit := None |}) as (Hlo & Hhi & Hin).
  rewrite <- Hdef in Hlo, Hhi, Hin.
  assert (Hmin : (match direction with
                  | deposit => 1000000000000000 | withdraw => 1000000000000000 end)
                 = 1000000000000000) by (destruct direction; reflexivity).
  assert (Hmax : (match direction with
                  | deposit => 100000000000000000000000
                  | withdraw => 100000000000000000000000 end)
                 = 100000000000000000000000) by (destruct direction; reflexivity).
  simpl in Hlo, Hhi, Hin. rewrite Hmin in Hlo, Hhi, Hin. rewrite Hmax in Hhi, Hin.
  split; [vm_compute; reflexivity|]. split; [vm_compute; reflexivity|].
  split; [|split; [|split]].
  - intros Ha. eexists. split; [apply Hlo; exact Ha|]. apply includes_minimum.
  - intros Ha. eexists. split; [apply Hhi; lia|]. apply includes_maximum.
  - intros Ha. eexists. apply Hlo. lia.
  - intros [Ha Hb]. apply Hin; [exact Ha | exact Hb | reflexivity].
Qed.

End BridgeAmount.

(** ** Layer classification and bridge direction *)

Section Layers.
Import Verses LayerUtils BridgeUtils.

Lemma getLayerFromChainId_hub chainId :
  getLayerFromChainId chainId = hub ↔ chainId = 248 ∨ chainId = 9372.
Proof.
  unfold getLayerFromChainId.
  destruct (Z.eqb_spec chainId 248), (Z.eqb_spec chainId 9372); simpl;
    split; intros; try done; try lia; auto.
Qed.

Lemma getLayerFromChainId_verse chainId :
  getLayerFromChainId chainId = verse ↔ chainId ≠ 248 ∧ chainId ≠ 9372.
Proof.
  unfold getLayerFromChainId.
  destruct (Z.eqb_spec chainId 248), (Z.eqb_spec chainId 9372); simpl;
    split; intros; try done; try lia.
Qed.

(** C4, as the claim states it, at chain id 1: the id is neither a Hub id nor
    in the [VERSES] table, and the claim gives it a classification that is
    neither Hub nor Verse.  The function gives it Verse. *)
Lemma getLayerFromChainId_unknown_counterexample :
  ¬ (getVerseConfig 1 = None ∧
     1 ≠ 248 ∧ 1 ≠ 9372 →
     getLayerFromChainId 1 ≠ hub ∧ getLayerFromChainId 1 ≠ verse).
Proof.
  intros Hclaim. destruct Hclaim as [_ Hnot].
  - repeat split; lia.
  - apply Hnot. reflexivity.
Qed.

(** C4, amended.  [getLayerFromChainId] has two answers: 248 and 9372 are
    Hub, and every other chain id is Verse, whether the [VERSES] table knows
    it (19011, 29548 and the other six) or not. *)
Theorem getLayerFromChainId_spec (chainId : Z) :
  getLayerFromChainId 248 = hub ∧
  getLayerFromChainId 9372 = hub ∧
  Forall (λ v, getLayerFromChainId (snd v) = verse) VERSES ∧
  getLayerFromChainId 19011 = verse ∧
  getLayerFromChainId 29548 = verse ∧
  (getLayerFromChainId chainId = hub ↔ chainId = 248 ∨ chainId = 9372) ∧
  (getLayerFromChainId chainId = verse ↔ chainId ≠ 248 ∧ chainId ≠ 9372) ∧
  (getLayerFromChainId chainId = hub ∨ getLayerFromChainId chainId = verse).
Proof.
  split; [reflexivity|]. split; [reflexivity|].
  split; [repeat constructor|].
  split; [reflexivity|]. split; [reflexivity|].
  split; [apply getLayerFromChainId_hub|].
  split; [apply getLayerFromChainId_verse|].
  destruct (getLayerFromChainId chainId); auto.
Qed.

(** The three answers of the classification, by chain id. *)
Lemma getLayerType_cases (chainId : Z) :
  (getLayerType chainId = hubLayer ↔ chainId = 248 ∨ chainId = 9372) ∧
  (getLayerType chainId = verseLayer ↔ chainId ∈ (snd <$> VERSES)) ∧
  (getLayerType chainId = unknownLayer ↔
   chainId ≠ 248 ∧ chainId ≠ 9372 ∧ chainId ∉ (snd <$> VERSES)).
Proof.
  unfold getLayerType, getVerseConfig, VERSES.
  cbn [fmap list_fmap snd find].
  rewrite !elem_of_cons, elem_of_nil.
  repeat match goal with
         | |- context [Z.eqb ?a ?b] =>
             destruct (Z.eqb_spec a b) as [->|?]; cbn [orb]
         end;
    (split; [|split]); split; intros; try discriminate; try lia; try tauto;
    try (exfalso; intuition lia).
Qed.

(** C5.  The direction of a bridge transfer from one chain id to another.
    It is [deposit] exactly from a Hub id (248, 9372) to a known Verse id
    (19011 and the other chain ids of the table), [withdraw] exactly from a
    known Verse id to a Hub id, and there is none otherwise: when both ids
    are Hub ids (248 to 248), when both are Verse ids (19011 to 29548), and
    when either id is on neither layer (248 to 1, 999999 to 248). *)
Theorem getBridgeDirection_spec (fromChain toChain : Z) :
  (getBridgeDirection fromChain toChain = Some deposit ↔
   (fromChain = 248 ∨ fromChain = 9372) ∧ toChain ∈ (snd <$> VERSES)) ∧
  (getBridgeDirection fromChain toChain = Some withdraw ↔
   fromChain ∈ (snd <$> VERSES) ∧ (toChain = 248 ∨ toChain = 9372)) ∧
  ((fromChain = 248 ∨ fromChain = 9372) → (toChain = 248 ∨ toChain = 9372) →
   getBridgeDirection fromChain toChain = None) ∧
  (fromChain ∈ (snd <$> VERSES) → toChain ∈ (snd <$> VERSES) →
   getBridgeDirection fromChain toChain = None) ∧
  (getLayerType fromChain = unknownLayer ∨ getLayerType toChain = unknownLayer →
   getBridgeDirection fromChain toChain = None) ∧
  getBridgeDirection 248 19011 = Some deposit ∧
  getBridgeDirection 19011 248 = Some withdraw ∧
  getBridgeDirection 248 248 = None ∧
  getBridgeDirection 19011 29548 = None ∧
  getBridgeDirection 248 1 = None ∧
  getBridgeDirection 999999 248 = None.
Proof.
  destruct (getLayerType_cases fromChain) as (Hfh & Hfv & _).
  destruct (getLayerType_cases toChain) as (Hth & Htv & _).
  unfold getBridgeDirection.
  split; [|split; [|split; [|split; [|split]]]].
  - rewrite <- Hfh, <- Htv.
    destruct (getLayerType fromChain), (getLayerType toChain);
      intuition congruence.
  - rewrite <- Hfv, <- Hth.
    destruct (getLayerType fromChain), (getLayerType toChain);
      intuition congruence.
  - intros Hf Ht. apply Hfh in Hf. apply Hth in Ht. rewrite Hf, Ht. reflexivity.
  - intros Hf Ht. apply Hfv in Hf. apply Htv in Ht. rewrite Hf, Ht. reflexivity.
  - intros [H|H]; rewrite H; [|destruct (getLayerType fromChain)]; reflexivity.
  - repeat split; reflexivity.
Qed.

End Layers.

(** ** The polling trigger: what a poll does to the stored cursor *)

Section PollState.
Import Trigger.

Lemma keepsStatic_ret {A} (a : A) : keepsStatic (mret a : M A).
Proof. intros s. reflexivity. Qed.

Lemma keepsStatic_bind {A B} (m : M A) (k : A → M B) :
  keepsStatic m → (∀ a, keepsStatic (k a)) → keepsStatic (m ≫= k).
Proof.
  intros Hm Hk s. unfold mbind, M_bind. specialize (Hm s).
  destruct (m s) as [[e|a] s1]; simpl in *; [exact Hm|].
  rewrite Hk. exact Hm.
Qed.

Lemma keepsStatic_throw {A} e : keepsStatic (throw e : M A).
Proof. intros s. reflexivity. Qed.

Lemma keepsStatic_await {A} (call : outcome A) : keepsStatic (await call).
Proof. intros s. reflexivity. Qed.

Lemma keepsStatic_push item : keepsStatic (push item).
Proof. intros s. reflexivity. Qed.

Lemma keepsStatic_new_results : keepsStatic new_results.
Proof. intros s. reflexivity. Qed.

Lemma keepsStatic_get_results : keepsStatic get_results.
Proof. intros s. reflexivity. Qed.

Lemma keepsStatic_read_static key : keepsStatic (read_static key).
Proof. intros s. reflexivity. Qed.

Lemma keepsStatic_console_error label e : keepsStatic (console_error label e).
Proof. intros s. reflexivity. Qed.

Lemma keepsStatic_try_catch body handler :
  keepsStatic body → (∀ e, keepsStatic (handler e)) →
  keepsStatic (try_catch body handler).
Proof.
  intros Hb Hh s. unfold try_catch. specialize (Hb s).
  destruct (body s) as [[e|a] s1]; simpl in *; [|exact Hb].
  rewrite Hh. exact Hb.
Qed.

Lemma keepsStatic_getNodeParameter ctx name fallback :
  keepsStatic (getNodeParameter ctx name fallback).
Proof.
  unfold getNodeParameter.
  destruct (nodeParameter ctx name); [apply keepsStatic_throw| |apply keepsStatic_ret].
  destruct fallback; [apply keepsStatic_ret | apply keepsStatic_throw].
Qed.

Lemma keepsStatic_for_each {A} (xs : list A) body :
  (∀ x, keepsStatic (body x)) → keepsStatic (for_each xs body).
Proof.
  intros Hb. induction xs as [|x xs IH]; simpl.
  - apply keepsStatic_ret.
  - apply keepsStatic_bind; [apply Hb | intros _; exact IH].
Qed.

Create HintDb keeps.
#[local] Hint Resolve keepsStatic_ret keepsStatic_throw keepsStatic_await
  keepsStatic_push keepsStatic_new_results keepsStatic_get_results
  keepsStatic_read_static keepsStatic_console_error
  keepsStatic_getNodeParameter : keeps.

(** Splits a statement along its binds, conditionals and loops until the
    primitive statements remain. *)
Ltac keeps :=
  repeat first
    [ progress intros
    | solve [auto with keeps]
    | apply keepsStatic_bind
    | apply keepsStatic_try_catch
    | apply keepsStatic_for_each
    | match goal with
      | |- keepsStatic (if ?b then _ else _) => destruct b
      | |- keepsStatic (match ?x with _ => _ end) => destruct x
      end ].

Lemma keepsStatic_replayBlocks getBlock record lastProcessedBlock currentBlock :
  keepsStatic (replayBlocks getBlock record lastProcessedBlock currentBlock).
Proof. unfold replayBlocks. keeps. Qed.

Lemma keepsStatic_walletOnLayer ctx category layer :
  keepsStatic (walletOnLayer ctx category layer).
Proof. unfold walletOnLayer. keeps. Qed.

Lemma keepsStatic_hubBranch ctx category event credentials lastProcessedBlock :
  keepsStatic (hubBranch ctx category event credentials lastProcessedBlock).
Proof. unfold hubBranch. pose proof keepsStatic_replayBlocks. keeps. Qed.

Lemma keepsStatic_verseBranch ctx event credentials lastProcessedBlock :
  keepsStatic (verseBranch ctx event credentials lastProcessedBlock).
Proof. unfold verseBranch. pose proof keepsStatic_replayBlocks. keeps. Qed.

Lemma keepsStatic_bridgeBranch ctx event : keepsStatic (bridgeBranch ctx event).
Proof. unfold bridgeBranch. keeps. Qed.

Lemma keepsStatic_nftBranch ctx event credentials :
  keepsStatic (nftBranch ctx event credentials).
Proof. unfold nftBranch. keeps. Qed.

Lemma keepsStatic_contractBranch ctx credentials lastProcessedBlock :
  keepsStatic (contractBranch ctx credentials lastProcessedBlock).
Proof. unfold contractBranch. keeps. Qed.

Lemma keepsStatic_pollWork ctx category event credentials lastProcessedBlock :
  keepsStatic (pollWork ctx category event credentials lastProcessedBlock).
Proof.
  unfold pollWork.
  pose proof keepsStatic_walletOnLayer. pose proof keepsStatic_hubBranch.
  pose proof keepsStatic_verseBranch. pose proof keepsStatic_bridgeBranch.
  pose proof keepsStatic_nftBranch. pose proof keepsStatic_contractBranch.
  keeps.
Qed.

Lemma bind_run {A B} (m : M A) (k : A → M B) (s : PollState) :
  (m ≫= k) s = match m s with
               | (Threw e, s') => (Threw e, s')
               | (Done a, s') => k a s'
               end.
Proof. reflexivity. Qed.

(** The state in which the [try] block starts: [results] is the fresh empty
    array. *)
Lemma poll_run ctx s category event credentials :
  nodeParameter ctx "category" = ParamSet category →
  nodeParameter ctx "event" = ParamSet event →
  getCredentials ctx "oasysNetwork" = Done credentials →
  let key := stateKeyOf category event in
  let s0 := {| results := []; workflowStaticData := workflowStaticData s;
               console := console s |} in
  poll ctx s =
    (let s1 := snd (try_catch (pollBody ctx category event key credentials (cursor s key))
                      (λ error, console_error "Oasys Trigger polling error:" error) s0) in
     (Done (if (length (results s1) =? 0)%nat then None else Some [results s1]), s1)).
Proof.
  intros Hc He Hcr key s0. subst key s0. unfold poll, getNodeParameter, cursor.
  rewrite Hc, He, Hcr.
  unfold mbind, M_bind, mret, M_ret, await, read_static, new_results, get_results.
  cbv beta iota.
  destruct (try_catch _ _ _) as [[e|[]] s1] eqn:Htry.
  - exfalso. unfold try_catch in Htry.
    destruct (pollBody _ _ _ _ _ _ _) as [[e'|[]] s']; discriminate.
  - simpl. destruct (length (results s1) =? 0)%nat; reflexivity.
Qed.

(** When reading the category, the event or the credentials throws, the
    error leaves [poll]: these reads come before the [try] block. *)
Lemma poll_prelude_throws ctx s :
  (∀ category, nodeParameter ctx "category" ≠ ParamSet category) ∨
  (∀ event, nodeParameter ctx "event" ≠ ParamSet event) ∨
  (∀ credentials, getCredentials ctx "oasysNetwork" ≠ Done credentials) →
  ∃ e, poll ctx s = (Threw e, s).
Proof.
  intros H. unfold poll, getNodeParameter. rewrite !bind_run.
  destruct (nodeParameter ctx "category") as [e| |category] eqn:Hc;
    [eexists; reflexivity | eexists; reflexivity |].
  simpl. rewrite !bind_run.
  destruct (nodeParameter ctx "event") as [e| |event] eqn:He;
    [eexists; reflexivity | eexists; reflexivity |].
  simpl. rewrite !bind_run.
  destruct (getCredentials ctx "oasysNetwork") as [e|credentials] eqn:Hcr;
    [eexists; reflexivity |].
  exfalso. destruct H as [H|[H|H]]; eapply H; reflexivity.
Qed.

Lemma poll_prelude_cases ctx :
  ((∀ category, nodeParameter ctx "category" ≠ ParamSet category) ∨
   (∀ event, nodeParameter ctx "event" ≠ ParamSet event) ∨
   (∀ credentials, getCredentials ctx "oasysNetwork" ≠ Done credentials)) ∨
  (∃ category event credentials,
     nodeParameter ctx "category" = ParamSet category ∧
     nodeParameter ctx "event" = ParamSet event ∧
     getCredentials ctx "oasysNetwork" = Done credentials).
Proof.
  destruct (nodeParameter ctx "category") as [| |category]; [left; left; done..|].
  destruct (nodeParameter ctx "event") as [| |event]; [left; right; left; done..|].
  destruct (getCredentials ctx "oasysNetwork") as [|credentials];
    [left; right; right; done|].
  right. eauto 10.
Qed.

(** What one poll does to the stored data: nothing, or one write of the
    value of [currentBlock] under the poll's own key, and the write is made
    exactly when the dispatch ends without throwing with a [currentBlock]
    above the stored cursor. *)
Lemma poll_static_data ctx s :
  workflowStaticData (snd (poll ctx s)) = workflowStaticData s ∨
  ∃ category event credentials c s1,
    nodeParameter ctx "category" = ParamSet category ∧
    nodeParameter ctx "event" = ParamSet event ∧
    getCredentials ctx "oasysNetwork" = Done credentials ∧
    pollWork ctx category event credentials (cursor s (stateKeyOf category event))
      {| results := []; workflowStaticData := workflowStaticData s;
         console := console s |} = (Done c, s1) ∧
    cursor s (stateKeyOf category event) < c ∧
    workflowStaticData (snd (poll ctx s)) =
      <[stateKeyOf category event := c]> (workflowStaticData s).
Proof.
  destruct (poll_prelude_cases ctx) as [Hbad|(category & event & credentials & Hc & He & Hcr)].
  - left. destruct (poll_prelude_throws ctx s Hbad) as [e ->]. reflexivity.
  - rewrite (poll_run ctx s _ _ _ Hc He Hcr). simpl.
    unfold try_catch, pollBody. rewrite bind_run.
    pose proof (keepsStatic_pollWork ctx category event credentials
                  (cursor s (stateKeyOf category event))
                  {| results := []; workflowStaticData := workflowStaticData s;
                     console := console s |}) as Hk.
    destruct (pollWork _ _ _ _ _ _) as [[e|c] s1] eqn:Hw; simpl in *.
    + left. exact Hk.
    + destruct (c >? cursor s (stateKeyOf category event)) eqn:Hgt; simpl.
      * right. exists category, event, credentials, c, s1.
        repeat split; try done. { lia. } { by rewrite Hk. }
      * left. exact Hk.
Qed.

Lemma cursor_insert s s' k c key :
  workflowStaticData s' = <[k := c]> (workflowStaticData s) →
  cursor s' key = if decide (k = key) then c else cursor s key.
Proof.
  intros Hs. unfold cursor. rewrite Hs.
  destruct (decide (k = key)) as [->|Hne].
  - rewrite lookup_insert_eq. simpl. destruct (Z.eqb_spec c 0); congruence.
  - rewrite lookup_insert_ne by exact Hne. reflexivity.
Qed.

Lemma hubBranch_height ctx category event credentials lastProcessedBlock s c s' :
  hubBranch ctx category event credentials lastProcessedBlock s = (Done c, s') →
  ∃ client,
    createHubClient ctx (hubLayerArgument (cred_layer credentials))
                    (cred_privateKey credentials) = Done client ∧
    hub_getBlockNumber client = Done c.
Proof.
  unfold hubBranch. rewrite bind_run. unfold await at 1.
  destruct (createHubClient _ _ _) as [e|client]; [discriminate|].
  rewrite bind_run. unfold await at 1.
  destruct (hub_getBlockNumber client) as [e|h] eqn:Hh; [discriminate|].
  rewrite bind_run.
  match goal with |- context [match ?m s with _ => _ end] => destruct (m s) as [[e|[]] s1] end;
    [discriminate|].
  intros [= <- <-]. eauto.
Qed.

Lemma verseBranch_height ctx event credentials lastProcessedBlock s c s' :
  verseBranch ctx event credentials lastProcessedBlock s = (Done c, s') →
  ∃ verseKey client,
    createVerseClient ctx verseKey (cred_privateKey credentials) = Done client ∧
    verse_getBlockNumber client = Done c.
Proof.
  unfold verseBranch. rewrite bind_run.
  destruct (getNodeParameter _ _ _ s) as [[e|verseKey] s1]; [discriminate|].
  rewrite bind_run. unfold await at 1.
  destruct (createVerseClient _ _ _) as [e|client] eqn:Hc; [discriminate|].
  rewrite bind_run. unfold await at 1.
  destruct (verse_getBlockNumber client) as [e|h] eqn:Hh; [discriminate|].
  rewrite bind_run.
  match goal with |- context [match ?m s1 with _ => _ end] => destruct (m s1) as [[e|[]] s2] end;
    [discriminate|].
  intros [= <- <-]. eauto.
Qed.

Lemma bridgeBranch_height ctx event s c s' :
  bridgeBranch ctx event s = (Done c, s') → c = 0.
Proof.
  unfold bridgeBranch. rewrite bind_run.
  destruct (getNodeParameter _ _ _ s) as [[e|verseKey] s1]; [discriminate|].
  rewrite bind_run. simpl. by intros [= <- <-].
Qed.

Lemma nftBranch_height ctx event credentials s c s' :
  nftBranch ctx event credentials s = (Done c, s') → reportedHeight ctx c.
Proof.
  unfold nftBranch. rewrite bind_run.
  destruct (getNodeParameter _ _ _ s) as [[e|layer] s1]; [discriminate|].
  rewrite bind_run.
  destruct (getNodeParameter _ _ _ s1) as [[e|contractAddress] s2]; [discriminate|].
  rewrite bind_run.
  destruct (String.eqb layer "hub").
  - rewrite bind_run. unfold await at 1.
    destruct (createHubClient _ _ _) as [e|client] eqn:Hc; [discriminate|].
    unfold await at 1.
    destruct (hub_getBlockNumber client) as [e|h] eqn:Hh; [discriminate|].
    rewrite bind_run. simpl. intros [= <- <-]. right; left. eauto.
  - rewrite bind_run. unfold await at 1.
    destruct (createVerseClient _ _ _) as [e|client] eqn:Hc; [discriminate|].
    unfold await at 1.
    destruct (verse_getBlockNumber client) as [e|h] eqn:Hh; [discriminate|].
    rewrite bind_run. simpl. intros [= <- <-]. right; right. eauto.
Qed.

Lemma contractBranch_height ctx credentials lastProcessedBlock s c s' :
  contractBranch ctx credentials lastProcessedBlock s = (Done c, s') →
  reportedHeight ctx c.
Proof.
  unfold contractBranch. rewrite bind_run.
  destruct (getNodeParameter _ _ _ s) as [[e|layer] s1]; [discriminate|].
  rewrite bind_run.
  destruct (getNodeParameter _ _ _ s1) as [[e|contractAddress] s2]; [discriminate|].
  rewrite bind_run.
  destruct (getNodeParameter _ _ _ s2) as [[e|eventName] s3]; [discriminate|].
  destruct (String.eqb layer "hub").
  - rewrite bind_run. unfold await at 1.
    destruct (createHubClient _ _ _) as [e|client] eqn:Hc; [discriminate|].
    rewrite bind_run. unfold await at 1.
    destruct (hub_getBlockNumber client) as [e|h] eqn:Hh; [discriminate|].
    rewrite bind_run.
    match goal with |- context [match ?m s3 with _ => _ end] =>
      destruct (m s3) as [[e|[]] s4] end; [discriminate|].
    intros [= <- <-]. right; left. eauto.
  - intros [= <- <-]. by left.
Qed.

Lemma pollWork_height ctx category event credentials lastProcessedBlock s c s' :
  pollWork ctx category event credentials lastProcessedBlock s = (Done c, s') →
  reportedHeight ctx c.
Proof.
  unfold pollWork. rewrite bind_run.
  match goal with |- context [match ?m s with _ => _ end] =>
    destruct (m s) as [[e|onHub] s1] end; [discriminate|].
  destruct onHub.
  { intros H. apply hubBranch_height in H as (client & ? & ?). right; left. eauto. }
  rewrite bind_run.
  match goal with |- context [match ?m s1 with _ => _ end] =>
    destruct (m s1) as [[e|onVerse] s2] end; [discriminate|].
  destruct onVerse.
  { intros H. apply verseBranch_height in H as (v & client & ? & ?). right; right. eauto. }
  destruct (String.eqb category "bridge").
  { intros H. apply bridgeBranch_height in H. by left. }
  destruct (String.eqb category "nft"); [apply nftBranch_height|].
  destruct (String.eqb category "contract"); [apply contractBranch_height|].
  intros [= <- <-]. by left.
Qed.

Lemma poll_cursor_step ctx s key :
  cursor s key ≤ cursor (snd (poll ctx s)) key.
Proof.
  destruct (poll_static_data ctx s)
    as [Hsame|(category & event & credentials & c & s1 & _ & _ & _ & _ & Hlt & Hins)].
  - unfold cursor. rewrite Hsame. lia.
  - rewrite (cursor_insert _ _ _ _ key Hins).
    destruct (decide (stateKeyOf category event = key)) as [<-|]; lia.
Qed.

(** C9.  The stored cursor never goes down.  One poll leaves the stored data
    as it is or writes one value under one key, a height that a client
    reported in this poll and that is above the cursor found there; for every
    key the cursor after the poll is at least the cursor before it; the
    stored data is unchanged when the poll throws, and when the dispatch
    inside the [try] block throws before the update; and over any sequence of
    polls the cursor of every key is at least what it was at the start. *)
Theorem poll_cursor_monotone (ctxs : list PollContext) (ctx : PollContext)
    (s : PollState) (key : string) :
  (workflowStaticData (snd (poll ctx s)) = workflowStaticData s ∨
   ∃ k c, reportedHeight ctx c ∧ cursor s k < c ∧
          workflowStaticData (snd (poll ctx s)) = <[k := c]> (workflowStaticData s)) ∧
  cursor s key ≤ cursor (snd (poll ctx s)) key ∧
  (∀ e, fst (poll ctx s) = Threw e →
        workflowStaticData (snd (poll ctx s)) = workflowStaticData s) ∧
  (∀ category event credentials e s1,
     nodeParameter ctx "category" = ParamSet category →
     nodeParameter ctx "event" = ParamSet event →
     getCredentials ctx "oasysNetwork" = Done credentials →
     pollWork ctx category event credentials (cursor s (stateKeyOf category event))
       {| results := []; workflowStaticData := workflowStaticData s;
          console := console s |} = (Threw e, s1) →
     workflowStaticData (snd (poll ctx s)) = workflowStaticData s) ∧
  cursor s key ≤ cursor (runPolls ctxs s) key.
Proof.
  split; [|split; [|split; [|split]]].
  - destruct (poll_static_data ctx s)
      as [Hsame|(category & event & credentials & c & s1 & _ & _ & _ & Hw & Hlt & Hins)].
    + by left.
    + right. exists (stateKeyOf category event), c.
      split; [exact (pollWork_height _ _ _ _ _ _ _ _ Hw)|done].
  - apply poll_cursor_step.
  - intros e He.
    destruct (poll_prelude_cases ctx) as [Hbad|(category & event & credentials & Hc & Hev & Hcr)].
    + destruct (poll_prelude_throws ctx s Hbad) as [e' ->]. reflexivity.
    + rewrite (poll_run ctx s _ _ _ Hc Hev Hcr) in He. discriminate.
  - intros category event credentials e s1 Hc Hev Hcr Hw.
    rewrite (poll_run ctx s _ _ _ Hc Hev Hcr). simpl.
    unfold try_catch, pollBody. rewrite bind_run, Hw. simpl.
    pose proof (keepsStatic_pollWork ctx category event credentials
                  (cursor s (stateKeyOf category event))
                  {| results := []; workflowStaticData := workflowStaticData s;
                     console := console s |}) as Hk.
    rewrite Hw in Hk. exact Hk.
  - revert s. induction ctxs as [|c0 rest IH]; intros s; simpl; [lia|].
    etrans; [apply (poll_cursor_step c0 s key)|apply IH].
Qed.

End PollState.

(** ** The polling trigger: what a poll emits *)

Section PollEvents.
Import Trigger Scenarios.

Lemma for_range_window (L C : Z) :
  L < C →
  for_range (Z.max (L + 1) (C - 5)) C = seqZ (Z.max (L + 1) (C - 5)) (Z.min (C - L) 6) ∧
  length (for_range (Z.max (L + 1) (C - 5)) C) = Z.to_nat (Z.min (C - L) 6) ∧
  (1 ≤ length (for_range (Z.max (L + 1) (C - 5)) C) ≤ 6)%nat.
Proof.
  intros HL. unfold for_range.
  replace (C - Z.max (L + 1) (C - 5) + 1) with (Z.min (C - L) 6) by lia.
  rewrite length_seqZ. split; [reflexivity|]. split; [reflexivity|]. lia.
Qed.

Lemma for_each_found (getBlock : Z → outcome (option Block))
    (record : Z → Block → INodeExecutionData) (blocks : Z → option Block)
    (xs : list Z) (s : PollState) :
  (∀ n, n ∈ xs → getBlock n = Done (blocks n)) →
  for_each xs (λ blockNum,
     block ← await (getBlock blockNum);
     match block with
     | Some block => push (record blockNum block)
     | None => mret tt
     end) s =
  (Done tt, {| results := results s ++ foundRecords record blocks xs;
               workflowStaticData := workflowStaticData s;
               console := console s |}).
Proof.
  revert s. induction xs as [|x xs IH]; intros s Hall; simpl.
  - rewrite app_nil_r. destruct s; reflexivity.
  - rewrite bind_run, bind_run. unfold await at 1.
    rewrite (Hall x) by (left).
    destruct (blocks x) as [b|] eqn:Hb; simpl.
    + rewrite IH by (intros n Hn; apply Hall; by right).
      simpl. rewrite <- app_assoc. reflexivity.
    + rewrite IH by (intros n Hn; apply Hall; by right). reflexivity.
Qed.

Lemma foundRecords_length_le record blocks (xs : list Z) :
  (length (foundRecords record blocks xs) ≤ length xs)%nat.
Proof.
  induction xs as [|x xs IH]; simpl; [lia|]. destruct (blocks x); simpl; lia.
Qed.

Lemma foundRecords_all_found record blocks (found : Z → Block) (xs : list Z) :
  (∀ n, n ∈ xs → blocks n = Some (found n)) →
  foundRecords record blocks xs = map (λ n, record n (found n)) xs.
Proof.
  induction xs as [|x xs IH]; intros Hall; simpl; [reflexivity|].
  rewrite (Hall x) by left. f_equal. apply IH. intros y Hy. apply Hall. by right.
Qed.

Lemma bind_ret_run {A B} (a : A) (k : A → M B) (s : PollState) :
  (mret a ≫= k) s = k a s.
Proof. reflexivity. Qed.

Lemma bind_await_run {A B} (call : outcome A) (a : A) (k : A → M B) (s : PollState) :
  call = Done a → (await call ≫= k) s = k a s.
Proof. intros ->. reflexivity. Qed.

Lemma bind_param_run {B} ctx name fallback value (k : string → M B) (s : PollState) :
  nodeParameter ctx name = ParamSet value →
  (getNodeParameter ctx name fallback ≫= k) s = k value s.
Proof. intros H. unfold getNodeParameter. rewrite H. reflexivity. Qed.

(** Runs the binds at the head of a goal [m s = _] as far as they are
    decided. *)
Ltac run :=
  repeat first [ rewrite bind_run
               | progress cbv beta iota
               | progress unfold mret, M_ret, await ].

(** The [newBlock] poll of the hub category when no call throws. *)
Lemma hub_newBlock_poll ctx s credentials hubClient C (blocks : Z → option Block) :
  nodeParameter ctx "category" = ParamSet "hub" →
  nodeParameter ctx "event" = ParamSet "newBlock" →
  getCredentials ctx "oasysNetwork" = Done credentials →
  createHubClient ctx (hubLayerArgument (cred_layer credentials))
                  (cred_privateKey credentials) = Done hubClient →
  hub_getBlockNumber hubClient = Done C →
  cursor s "oasys_trigger_hub_newBlock" < C →
  (∀ n, n ∈ for_range (Z.max (cursor s "oasys_trigger_hub_newBlock" + 1) (C - 5)) C →
        hub_getBlock hubClient n = Done (blocks n)) →
  let emitted :=
    foundRecords hubBlockRecord blocks
         (for_range (Z.max (cursor s "oasys_trigger_hub_newBlock" + 1) (C - 5)) C) in
  poll ctx s =
    (Done (if (length emitted =? 0)%nat then None else Some [emitted]),
     {| results := emitted;
        workflowStaticData := <["oasys_trigger_hub_newBlock" := C]> (workflowStaticData s);
        console := console s |}).
Proof.
  intros Hc He Hcr Hcl Hbn HL Hblocks emitted.
  assert (HgtC : (C >? cursor s "oasys_trigger_hub_newBlock") = true)
    by (rewrite Z.gtb_ltb; apply Z.ltb_lt; exact HL).
  set (s0 := {| results := []; workflowStaticData := workflowStaticData s;
                console := console s |}).
  assert (Hwork : pollWork ctx "hub" "newBlock" credentials
                    (cursor s "oasys_trigger_hub_newBlock") s0 =
                  (Done C, {| results := emitted;
                              workflowStaticData := workflowStaticData s;
                              console := console s |})).
  { unfold pollWork. change (String.eqb "hub" "hub") with true. cbv iota.
    rewrite bind_ret_run. cbv iota.
    unfold hubBranch.
    rewrite (bind_await_run _ _ _ _ Hcl), (bind_await_run _ _ _ _ Hbn).
    change (String.eqb "hub" "hub") with true.
    change (String.eqb "newBlock" "newBlock") with true.
    rewrite HgtC. simpl andb. cbv iota.
    rewrite bind_run. unfold replayBlocks.
    rewrite (for_each_found _ _ blocks) by exact Hblocks. reflexivity. }
  rewrite (poll_run ctx s _ _ _ Hc He Hcr).
  change (stateKeyOf "hub" "newBlock") with "oasys_trigger_hub_newBlock".
  fold s0. unfold try_catch, pollBody. rewrite bind_run, Hwork, HgtC.
  reflexivity.
Qed.

(** The [newBlock] poll of the verse category when no call throws. *)
Lemma verse_newBlock_poll ctx s credentials verseClient C
    (blocks : Z → option Block) :
  nodeParameter ctx "category" = ParamSet "verse" →
  nodeParameter ctx "event" = ParamSet "newBlock" →
  getCredentials ctx "oasysNetwork" = Done credentials →
  (∀ e, nodeParameter ctx "verse" ≠ ParamThrows e) →
  let verseKey := match nodeParameter ctx "verse" with
                  | ParamSet v => v
                  | _ => "homeVerse"
                  end in
  createVerseClient ctx verseKey (cred_privateKey credentials) = Done verseClient →
  verse_getBlockNumber verseClient = Done C →
  cursor s "oasys_trigger_verse_newBlock" < C →
  (∀ n, n ∈ for_range (Z.max (cursor s "oasys_trigger_verse_newBlock" + 1) (C - 5)) C →
        verse_getBlock verseClient n = Done (blocks n)) →
  let emitted :=
    foundRecords (verseBlockRecord verseKey) blocks
         (for_range (Z.max (cursor s "oasys_trigger_verse_newBlock" + 1) (C - 5)) C) in
  poll ctx s =
    (Done (if (length emitted =? 0)%nat then None else Some [emitted]),
     {| results := emitted;
        workflowStaticData := <["oasys_trigger_verse_newBlock" := C]> (workflowStaticData s);
        console := console s |}).
Proof.
  intros Hc He Hcr Hv verseKey Hcl Hbn HL Hblocks emitted.
  assert (HgtC : (C >? cursor s "oasys_trigger_verse_newBlock") = true)
    by (rewrite Z.gtb_ltb; apply Z.ltb_lt; exact HL).
  set (s0 := {| results := []; workflowStaticData := workflowStaticData s;
                console := console s |}).
  assert (Hwork : pollWork ctx "verse" "newBlock" credentials
                    (cursor s "oasys_trigger_verse_newBlock") s0 =
                  (Done C, {| results := emitted;
                              workflowStaticData := workflowStaticData s;
                              console := console s |})).
  { assert (Hkey : getNodeParameter ctx "verse" (Some "homeVerse") = mret verseKey).
    { unfold getNodeParameter. subst verseKey.
      destruct (nodeParameter ctx "verse") as [e| |v] eqn:Hverse;
        [exfalso; exact (Hv e eq_refl) | reflexivity | reflexivity]. }
    unfold pollWork, walletOnLayer, verseBranch. rewrite Hkey.
    change (String.eqb "verse" "hub") with false.
    change (String.eqb "verse" "wallet") with false.
    change (String.eqb "verse" "staking") with false.
    change (String.eqb "verse" "verse") with true.
    change (String.eqb "newBlock" "newBlock") with true.
    run. rewrite Hcl. run. rewrite Hbn. run. rewrite HgtC.
    change (true && true) with true. run.
    unfold replayBlocks.
    rewrite (for_each_found _ _ blocks) by exact Hblocks. reflexivity. }
  rewrite (poll_run ctx s _ _ _ Hc He Hcr).
  change (stateKeyOf "verse" "newBlock") with "oasys_trigger_verse_newBlock".
  fold s0. unfold try_catch, pollBody. rewrite bind_run, Hwork, HgtC.
  reflexivity.
Qed.

(** C2, as the claim states it, on a hub at height 10 polled for the first
    time (stored height 0, every block served): the claim bounds the number
    of blocks replayed by 5.  The poll replays blocks 5 to 10 and emits 6
    records. *)
Lemma newBlock_window_counterexample :
  ¬ (emittedCount
       (fst (poll (sampleContext "hub" "newBlock" (sampleHub 10 11) (sampleVerse 0))
                  freshState)) ≤ 5)%nat.
Proof. vm_compute. lia. Qed.

(** C2, amended.  A [newBlock] poll that finds the stored height [L] below
    the chain height [C], on the hub or on a verse, asks for the blocks from
    [max (L + 1) (C - 5)] through [C], in this order: [min (C - L) 6] of
    them, so at least one and at most 6.  When no call throws it emits the
    records of the blocks that are found, in the same order (one record per
    block of the window when all are found), and stores [C]. *)
Theorem newBlock_window_spec (ctx : PollContext) (s : PollState)
    (credentials : Credentials) (C : Z) (blocks : Z → option Block) :
  nodeParameter ctx "event" = ParamSet "newBlock" →
  getCredentials ctx "oasysNetwork" = Done credentials →
  (∀ hubClient,
     nodeParameter ctx "category" = ParamSet "hub" →
     createHubClient ctx (hubLayerArgument (cred_layer credentials))
                     (cred_privateKey credentials) = Done hubClient →
     hub_getBlockNumber hubClient = Done C →
     let L := cursor s "oasys_trigger_hub_newBlock" in
     let window := for_range (Z.max (L + 1) (C - 5)) C in
     let emitted := foundRecords hubBlockRecord blocks window in
     L < C →
     (∀ n, n ∈ window → hub_getBlock hubClient n = Done (blocks n)) →
     window = seqZ (Z.max (L + 1) (C - 5)) (Z.min (C - L) 6) ∧
     (1 ≤ length window ≤ 6)%nat ∧
     (length emitted ≤ length window)%nat ∧
     (∀ found, (∀ n, n ∈ window → blocks n = Some (found n)) →
               emitted = map (λ n, hubBlockRecord n (found n)) window) ∧
     poll ctx s =
       (Done (if (length emitted =? 0)%nat then None else Some [emitted]),
        {| results := emitted;
           workflowStaticData :=
             <["oasys_trigger_hub_newBlock" := C]> (workflowStaticData s);
           console := console s |})) ∧
  (∀ verseClient,
     nodeParameter ctx "category" = ParamSet "verse" →
     (∀ e, nodeParameter ctx "verse" ≠ ParamThrows e) →
     let verseKey := match nodeParameter ctx "verse" with
                     | ParamSet v => v
                     | _ => "homeVerse"
                     end in
     createVerseClient ctx verseKey (cred_privateKey credentials) = Done verseClient →
     verse_getBlockNumber verseClient = Done C →
     let L := cursor s "oasys_trigger_verse_newBlock" in
     let window := for_range (Z.max (L + 1) (C - 5)) C in
     let emitted := foundRecords (verseBlockRecord verseKey) blocks window in
     L < C →
     (∀ n, n ∈ window → verse_getBlock verseClient n = Done (blocks n)) →
     window = seqZ (Z.max (L + 1) (C - 5)) (Z.min (C - L) 6) ∧
     (1 ≤ length window ≤ 6)%nat ∧
     (length emitted ≤ length window)%nat ∧
     (∀ found, (∀ n, n ∈ window → blocks n = Some (found n)) →
               emitted = map (λ n, verseBlockRecord verseKey n (found n)) window) ∧
     poll ctx s =
       (Done (if (length emitted =? 0)%nat then None else Some [emitted]),
        {| results := emitted;
           workflowStaticData :=
             <["oasys_trigger_verse_newBlock" := C]> (workflowStaticData s);
           console := console s |})).
Proof.
  intros He Hcr. split.
  - intros hubClient Hc Hcl Hbn L window emitted HL Hblocks.
    destruct (for_range_window L C HL) as (Hw & _ & Hlen).
    split; [exact Hw|]. split; [exact Hlen|].
    split; [apply foundRecords_length_le|].
    split; [intros found Hfound; by apply foundRecords_all_found|].
    exact (hub_newBlock_poll ctx s credentials hubClient C blocks
             Hc He Hcr Hcl Hbn HL Hblocks).
  - intros verseClient Hc Hv verseKey Hcl Hbn L window emitted HL Hblocks.
    destruct (for_range_window L C HL) as (Hw & _ & Hlen).
    split; [exact Hw|]. split; [exact Hlen|].
    split; [apply foundRecords_length_le|].
    split; [intros found Hfound; by apply foundRecords_all_found|].
    exact (verse_newBlock_poll ctx s credentials verseClient C blocks
             Hc He Hcr Hv Hcl Hbn HL Hblocks).
Qed.

(** Once the category, the event and the credentials are read, [poll]
    returns: what the [try] block throws is caught and logged. *)
Lemma poll_swallows ctx s category event credentials :
  nodeParameter ctx "category" = ParamSet category →
  nodeParameter ctx "event" = ParamSet event →
  getCredentials ctx "oasysNetwork" = Done credentials →
  ∃ r s', poll ctx s = (Done r, s').
Proof.
  intros Hc He Hcr. rewrite (poll_run ctx s _ _ _ Hc He Hcr). eauto.
Qed.

(** When the dispatch throws, [poll] returns the records pushed before the
    throw, [null] only if there are none, logs the error and stores
    nothing. *)
Lemma poll_after_throw ctx s category event credentials e s1 :
  nodeParameter ctx "category" = ParamSet category →
  nodeParameter ctx "event" = ParamSet event →
  getCredentials ctx "oasysNetwork" = Done credentials →
  pollWork ctx category event credentials (cursor s (stateKeyOf category event))
    {| results := []; workflowStaticData := workflowStaticData s;
       console := console s |} = (Threw e, s1) →
  poll ctx s =
    (Done (if (length (results s1) =? 0)%nat then None else Some [results s1]),
     {| results := results s1; workflowStaticData := workflowStaticData s1;
        console := console s1 ++ ["Oasys Trigger polling error: " +:+ e] |}).
Proof.
  intros Hc He Hcr Hw. rewrite (poll_run ctx s _ _ _ Hc He Hcr).
  unfold try_catch, pollBody. rewrite bind_run, Hw. reflexivity.
Qed.

(** C7, at a hub of height 2 polled for the first time, whose [getBlock]
    serves block 1 and throws for block 2: the error is caught and logged,
    the cursor is not stored, and the poll returns the record of block 1, not
    [null].  And when the credentials cannot be read, the error leaves
    [poll]. *)
Theorem poll_error_keeps_partial_results :
  poll (sampleContext "hub" "newBlock" (sampleHub 2 2) (sampleVerse 0)) freshState =
    (Done (Some [[hubBlockRecord 1 (sampleBlock 1)]]),
     {| results := [hubBlockRecord 1 (sampleBlock 1)];
        workflowStaticData := ∅;
        console := ["Oasys Trigger polling error: request timeout"] |}) ∧
  poll (contextWithoutCredentials "hub" "newBlock") freshState =
    (Threw "Node does not have any credentials set", freshState).
Proof. split; vm_compute; reflexivity. Qed.

(** The bridge poll, run: one record, made of the event name, the verse
    parameter (or its default) and the clock. *)
Lemma bridge_poll_run ctx s event credentials :
  nodeParameter ctx "category" = ParamSet "bridge" →
  nodeParameter ctx "event" = ParamSet event →
  getCredentials ctx "oasysNetwork" = Done credentials →
  (∀ e, nodeParameter ctx "verse" ≠ ParamThrows e) →
  let verseKey := match nodeParameter ctx "verse" with
                  | ParamSet v => v
                  | _ => "homeVerse"
                  end in
  let record :=
    {| json := JObj [("event", JStr event); ("layer", JStr "Bridge");
                     ("verse", JStr verseKey);
                     ("message", JStr "Bridge event monitoring active");
                     ("timestamp", JStr (toISOString_now ctx))] |} in
  fst (poll ctx s) = Done (Some [[record]]) ∧
  results (snd (poll ctx s)) = [record].
Proof.
  intros Hc He Hcr Hv verseKey record.
  set (key := stateKeyOf "bridge" event).
  set (s0 := {| results := []; workflowStaticData := workflowStaticData s;
                console := console s |}).
  assert (Hwork : pollWork ctx "bridge" event credentials (cursor s key) s0 =
                  (Done 0, {| results := [record];
                              workflowStaticData := workflowStaticData s;
                              console := console s |})).
  { unfold pollWork, walletOnLayer, bridgeBranch, getNodeParameter.
    change (String.eqb "bridge" "hub") with false.
    change (String.eqb "bridge" "wallet") with false.
    change (String.eqb "bridge" "staking") with false.
    change (String.eqb "bridge" "verse") with false.
    change (String.eqb "bridge" "bridge") with true.
    subst record verseKey. unfold bridgeRecord.
    destruct (nodeParameter ctx "verse") as [e| |v] eqn:Hverse.
    - exfalso. exact (Hv e eq_refl).
    - run. reflexivity.
    - run. reflexivity. }
  rewrite (poll_run ctx s _ _ _ Hc He Hcr). fold key. fold s0.
  unfold try_catch, pollBody. rewrite bind_run, Hwork.
  destruct (0 >? cursor s key); simpl; split; reflexivity.
Qed.

(** C10.  A poll of the bridge category in which reading the parameters and
    the credentials does not throw returns exactly one record, whose message
    is "Bridge event monitoring active", and never [null].  The record is
    made of the event name, the verse parameter (or its default) and the
    clock: the poll returns the same for any other clients and chains, and
    reports no deposit or withdrawal. *)
Theorem bridge_poll_spec (ctx : PollContext) (s : PollState)
    (event : string) (credentials : Credentials) :
  nodeParameter ctx "category" = ParamSet "bridge" →
  nodeParameter ctx "event" = ParamSet event →
  getCredentials ctx "oasysNetwork" = Done credentials →
  (∀ e, nodeParameter ctx "verse" ≠ ParamThrows e) →
  let verseKey := match nodeParameter ctx "verse" with
                  | ParamSet v => v
                  | _ => "homeVerse"
                  end in
  let record :=
    {| json := JObj [("event", JStr event); ("layer", JStr "Bridge");
                     ("verse", JStr verseKey);
                     ("message", JStr "Bridge event monitoring active");
                     ("timestamp", JStr (toISOString_now ctx))] |} in
  fst (poll ctx s) = Done (Some [[record]]) ∧
  results (snd (poll ctx s)) = [record] ∧
  get_field "message" (json record) = Some (JStr "Bridge event monitoring active") ∧
  fst (poll ctx s) ≠ Done None ∧
  (∀ hubFactory verseFactory s',
     fst (poll {| nodeParameter := nodeParameter ctx;
                  getCredentials := getCredentials ctx;
                  createHubClient := hubFactory;
                  createVerseClient := verseFactory;
                  formatOas := formatOas ctx;
                  JSON_parse := JSON_parse ctx;
                  toISOString_now := toISOString_now ctx |} s') =
     fst (poll ctx s)).
Proof.
  intros Hc He Hcr Hv verseKey record.
  destruct (bridge_poll_run ctx s event credentials Hc He Hcr Hv) as [Hrun Hres].
  fold verseKey in Hrun, Hres. fold record in Hrun, Hres.
  split; [exact Hrun|]. split; [exact Hres|]. split; [reflexivity|].
  split; [rewrite Hrun; discriminate|].
  intros hubFactory verseFactory s'. rewrite Hrun.
  exact (proj1 (bridge_poll_run
                  {| nodeParameter := nodeParameter ctx;
                     getCredentials := getCredentials ctx;
                     createHubClient := hubFactory;
                     createVerseClient := verseFactory;
                     formatOas := formatOas ctx;
                     JSON_parse := JSON_parse ctx;
                     toISOString_now := toISOString_now ctx |}
                  s' event credentials Hc He Hcr Hv)).
Qed.

End PollEvents.

(** ** The action node: the item loop *)

Section ExecuteLoop.
Import ActionNode.

Context {World : Type}.
Variable ctx : ExecuteContext World.

Lemma evaluateAll_length (indices : list nat) (w : World) :
  length (fst (evaluateAll ctx indices w)) = length indices.
Proof.
  revert w. induction indices as [|i rest IH]; intros w; simpl; [reflexivity|].
  destruct (evaluateItem ctx i w) as [o w1].
  specialize (IH w1). destruct (evaluateAll ctx rest w1) as [os w2].
  simpl in *. by rewrite IH.
Qed.

(** With continue-on-fail the loop visits every index and emits one item
    for each: the result, or the error record. *)
Lemma itemLoop_continue (indices : list nat) returnData (w : World) :
  continueOnFail ctx = true →
  itemLoop ctx indices returnData w =
    (Done (returnData ++ map emitted (fst (evaluateAll ctx indices w))),
     snd (evaluateAll ctx indices w)).
Proof.
  intros Hcof. revert returnData w.
  induction indices as [|i rest IH]; intros returnData w; simpl.
  - by rewrite app_nil_r.
  - destruct (evaluateItem ctx i w) as [[e|r] w1]; rewrite ?Hcof, IH;
      destruct (evaluateAll ctx rest w1) as [os w2]; simpl;
      by rewrite <- app_assoc.
Qed.

(** When no item throws the loop emits one result item for each index,
    whatever the continue-on-fail setting. *)
Lemma itemLoop_no_error (indices : list nat) returnData (w : World) :
  Forall (λ o, succeeded o = true) (fst (evaluateAll ctx indices w)) →
  itemLoop ctx indices returnData w =
    (Done (returnData ++ map emitted (fst (evaluateAll ctx indices w))),
     snd (evaluateAll ctx indices w)).
Proof.
  revert returnData w.
  induction indices as [|i rest IH]; intros returnData w; simpl.
  - intros _. by rewrite app_nil_r.
  - destruct (evaluateItem ctx i w) as [[e|r] w1].
    + destruct (evaluateAll ctx rest w1) as [os w2]. simpl.
      intros Hall. inversion Hall as [|? ? Ho Hos]. discriminate.
    + specialize (IH (returnData ++ [resultItem r]) w1).
      destruct (evaluateAll ctx rest w1) as [os w2]. simpl in *.
      intros Hall. inversion Hall as [|? ? Ho Hos]; subst.
      rewrite (IH Hos). by rewrite <- app_assoc.
Qed.

(** Without continue-on-fail the loop stops at the first item that throws:
    the error leaves the loop, and the world is the one that item left. *)
Lemma itemLoop_abort (before after : list nat) (i : nat) returnData (w w1 w2 : World) os e :
  continueOnFail ctx = false →
  evaluateAll ctx before w = (os, w1) →
  Forall (λ o, succeeded o = true) os →
  evaluateItem ctx i w1 = (Threw e, w2) →
  itemLoop ctx (before ++ i :: after) returnData w = (Threw e, w2).
Proof.
  intros Hcof. revert returnData w os.
  induction before as [|j before IH]; intros returnData w os; simpl.
  - intros [= <- <-] _ Hi. by rewrite Hi, Hcof.
  - destruct (evaluateItem ctx j w) as [o wj].
    destruct (evaluateAll ctx before wj) as [os' w'] eqn:Hrest.
    intros [= <- <-] Hall Hi. inversion Hall as [|? ? Ho Hos]; subst.
    destruct o as [e'|r]; [discriminate|].
    by apply (IH _ _ os').
Qed.

Lemma emitted_succeeded (os : list (outcome (option Json))) :
  Forall (λ o, succeeded o = true) os →
  Forall2 (λ o item, ∃ result, o = Done result ∧ item = resultItem result)
          os (map emitted os).
Proof.
  induction 1 as [|o os Ho Hos IH]; simpl; constructor; [|exact IH].
  destruct o as [e|r]; [discriminate|]. eauto.
Qed.

(** C8.  The loop of [execute] over the input items, where the outcome of
    each item is what evaluating it gives in the world the earlier items
    left.  With continue-on-fail, the loop emits one item for every input
    item, the result of the item or [{error: message}] when the item threw,
    and goes on to the next item.  Without it, the first error leaves
    [execute] and no later item is evaluated.  When no item throws, exactly
    one result item is produced for each input item. *)
Theorem execute_spec (items : list Json) (w : World) :
  let indices := seq 0 (length items) in
  let outcomes := fst (evaluateAll ctx indices w) in
  length (map emitted outcomes) = length items ∧
  (continueOnFail ctx = true →
   execute ctx items w =
     (Done [map emitted outcomes], snd (evaluateAll ctx indices w)) ∧
   Forall2 (λ o item,
              match o with
              | Done result => item = {| json := result |}
              | Threw message =>
                  item = {| json := Some (JObj [("error", JStr message)]) |}
              end) outcomes (map emitted outcomes)) ∧
  (continueOnFail ctx = false →
   ∀ i os e w1 w2,
     (i < length items)%nat →
     evaluateAll ctx (seq 0 i) w = (os, w1) →
     Forall (λ o, succeeded o = true) os →
     evaluateItem ctx i w1 = (Threw e, w2) →
     execute ctx items w = (Threw e, w2)) ∧
  (Forall (λ o, succeeded o = true) outcomes →
   execute ctx items w =
     (Done [map emitted outcomes], snd (evaluateAll ctx indices w)) ∧
   Forall2 (λ o item, ∃ result, o = Done result ∧ item = resultItem result)
           outcomes (map emitted outcomes)).
Proof.
  intros indices outcomes. subst outcomes indices.
  split; [by rewrite length_map, evaluateAll_length, length_seq|].
  split; [|split].
  - intros Hcof. split.
    + unfold execute. by rewrite (itemLoop_continue _ _ _ Hcof).
    + generalize (fst (evaluateAll ctx (seq 0 (length items)) w)). intros os.
      induction os as [|[e|r] os IH]; simpl; constructor; done.
  - intros Hcof i os e w1 w2 Hi Hbefore Hall Hthrow.
    unfold execute.
    replace (seq 0 (length items))
      with (seq 0 i ++ i :: seq (S i) (length items - S i)).
    + by rewrite (itemLoop_abort _ _ _ _ _ _ _ _ _ Hcof Hbefore Hall Hthrow).
    + change (i :: seq (S i) (length items - S i))
        with (seq (0 + i) (S (length items - S i))).
      rewrite <- seq_app. f_equal. lia.
  - intros Hall. split.
    + unfold execute. by rewrite (itemLoop_no_error _ _ _ Hall).
    + by apply emitted_succeeded.
Qed.

End ExecuteLoop.

(** ** Unit conversion *)

Section Units.
Import Ethers UnitConverter.

(** *** Strings of digits *)

Lemma app_cons (c : ascii) (a b : string) : String c a +:+ b = String c (a +:+ b).
Proof. reflexivity. Qed.

Lemma app_nil_l (b : string) : "" +:+ b = b.
Proof. reflexivity. Qed.

Ltac app_simpl := rewrite ?app_cons, ?app_nil_l; simpl.

Lemma length_app (a b : string) :
  String.length (a +:+ b) = (String.length a + String.length b)%nat.
Proof. induction a as [|c a IH]; app_simpl; [reflexivity|]. by rewrite IH. Qed.

Lemma app_assoc_s (a b c : string) : (a +:+ b) +:+ c = a +:+ (b +:+ c).
Proof. induction a as [|x a IH]; app_simpl; [reflexivity|]. by rewrite IH. Qed.

Lemma app_nil_r_s (a : string) : a +:+ "" = a.
Proof. induction a as [|x a IH]; app_simpl; [reflexivity|]. by rewrite IH. Qed.

Lemma substring_0_app (a b : string) :
  String.substring 0 (String.length a) (a +:+ b) = a.
Proof.
  induction a as [|x a IH]; app_simpl.
  - destruct b; reflexivity.
  - by rewrite IH.
Qed.

Lemma substring_skip_app (a b : string) (m : nat) :
  String.substring (String.length a) m (a +:+ b) = String.substring 0 m b.
Proof. induction a as [|x a IH]; app_simpl; [reflexivity|]. exact IH. Qed.

Lemma substring_0_length (s : string) :
  String.substring 0 (String.length s) s = s.
Proof. induction s as [|x s IH]; simpl; [reflexivity|]. by rewrite IH. Qed.

(** Cutting a string at [n]. *)
Lemma substring_split (s : string) (n : nat) :
  (n ≤ String.length s)%nat →
  String.substring 0 n s +:+ String.substring n (String.length s - n) s = s ∧
  String.length (String.substring 0 n s) = n.
Proof.
  revert n. induction s as [|x s IH]; intros n Hn; simpl in *.
  - assert (n = 0%nat) as -> by lia. split; reflexivity.
  - destruct n as [|n]; simpl.
    + split; [|reflexivity]. app_simpl. by rewrite substring_0_length.
    + destruct (IH n ltac:(lia)) as [H1 H2]. app_simpl.
      split; [by rewrite H1|by rewrite H2].
Qed.

Lemma rev_app_eq (s1 s2 : string) : String.rev_app s1 s2 = String.rev s1 +:+ s2.
Proof.
  unfold String.rev. revert s2. induction s1 as [|x s1 IH]; intros s2; simpl.
  - reflexivity.
  - rewrite IH. rewrite (IH (String x "")). by rewrite app_assoc_s.
Qed.

Lemma rev_cons (x : ascii) (s : string) :
  String.rev (String x s) = String.rev s +:+ String x "".
Proof. unfold String.rev at 1. simpl. apply rev_app_eq. Qed.

Lemma rev_app_distr (a b : string) : String.rev (a +:+ b) = String.rev b +:+ String.rev a.
Proof.
  induction a as [|x a IH]; app_simpl.
  - by rewrite app_nil_r_s.
  - by rewrite !rev_cons, IH, app_assoc_s.
Qed.

Lemma rev_involutive (s : string) : String.rev (String.rev s) = s.
Proof.
  induction s as [|x s IH]; [reflexivity|].
  by rewrite rev_cons, rev_app_distr, IH.
Qed.

Lemma rev_length (s : string) : String.length (String.rev s) = String.length s.
Proof.
  induction s as [|x s IH]; [reflexivity|].
  rewrite rev_cons, length_app, IH. simpl. lia.
Qed.

Lemma zeros_app (m n : nat) : zeros (m + n) = zeros m +:+ zeros n.
Proof. induction m as [|m IH]; simpl; [reflexivity|]. by rewrite IH. Qed.

Lemma zeros_length (n : nat) : String.length (zeros n) = n.
Proof. induction n as [|n IH]; simpl; [reflexivity|]. by rewrite IH. Qed.

Lemma zeros_snoc (n : nat) : zeros n +:+ "0" = String "0" (zeros n).
Proof. induction n as [|n IH]; simpl; [reflexivity|]. app_simpl. by rewrite IH. Qed.

Lemma rev_zeros (n : nat) : String.rev (zeros n) = zeros n.
Proof.
  induction n as [|n IH]; [reflexivity|].
  simpl. rewrite rev_cons, IH. apply zeros_snoc.
Qed.

Lemma all_digits_app (a b : string) :
  all_digits (a +:+ b) = all_digits a && all_digits b.
Proof.
  induction a as [|x a IH]; app_simpl; [reflexivity|].
  rewrite IH. by rewrite andb_assoc.
Qed.

Lemma all_digits_rev (s : string) : all_digits (String.rev s) = all_digits s.
Proof.
  induction s as [|x s IH]; [reflexivity|].
  rewrite rev_cons, all_digits_app, IH. simpl.
  rewrite andb_true_r. apply andb_comm.
Qed.

Lemma all_digits_zeros (n : nat) : all_digits (zeros n) = true.
Proof. induction n as [|n IH]; simpl; [reflexivity|]. exact IH. Qed.

Lemma digits_value_zeros (n : nat) (s : string) :
  digits_value 0 (zeros n +:+ s) = digits_value 0 s.
Proof. induction n as [|n IH]; app_simpl; [reflexivity|]. exact IH. Qed.

(** The digit characters. *)
Lemma is_digit_cases (c : ascii) :
  is_digit c = true →
  c = "0"%char ∨ c = "1"%char ∨ c = "2"%char ∨ c = "3"%char ∨ c = "4"%char ∨
  c = "5"%char ∨ c = "6"%char ∨ c = "7"%char ∨ c = "8"%char ∨ c = "9"%char.
Proof.
  destruct c as [[] [] [] [] [] [] [] []]; vm_compute; intros H;
    try discriminate H; tauto.
Qed.

Lemma digits_value_uint_acc (d : Decimal.uint) (acc : positive) :
  digits_value (Z.pos acc) (NilEmpty.string_of_uint d) =
    Some (Z.pos (Pos.of_uint_acc d acc)).
Proof.
  revert acc. induction d; intros acc; simpl; [reflexivity|..];
    match goal with
    | |- _ = Some (Z.pos (Pos.of_uint_acc _ ?a)) => rewrite <- (IHd a)
    end; f_equal;
    repeat match goal with
    | |- context [Z.of_nat (nat_of_ascii ?c)] =>
        let v := eval vm_compute in (Z.of_nat (nat_of_ascii c)) in
        change (Z.of_nat (nat_of_ascii c)) with v
    end; lia.
Qed.

Lemma digits_value_uint (d : Decimal.uint) :
  digits_value 0 (NilEmpty.string_of_uint d) = Some (Z.of_N (Pos.of_uint d)).
Proof.
  induction d; simpl; [reflexivity| exact IHd |..];
    apply (digits_value_uint_acc d).
Qed.

Lemma all_digits_uint (d : Decimal.uint) :
  all_digits (NilEmpty.string_of_uint d) = true.
Proof. induction d; simpl; [reflexivity|..]; exact IHd. Qed.

(** [toString] of a positive number: its digits, the first of them not 0. *)
Lemma toString_pos (p : positive) :
  ∃ c rest,
    Js.toString (Z.pos p) = String c rest ∧
    all_digits (String c rest) = true ∧
    digits_value 0 (String c rest) = Some (Z.pos p).
Proof.
  unfold Js.toString. simpl.
  pose proof (Unsigned.to_uint_nonnil p) as Hnil.
  pose proof (DecimalPos.Unsigned.of_to p) as Hof.
  pose proof (digits_value_uint (Pos.to_uint p)) as Hval.
  pose proof (all_digits_uint (Pos.to_uint p)) as Hdig.
  rewrite Hof in Hval. simpl in Hval.
  unfold NilZero.string_of_uint.
  destruct (Pos.to_uint p) eqn:E; [congruence|..]; simpl in *; eauto.
Qed.

Lemma toString_neg (p : positive) :
  Js.toString (Z.neg p) = String "-" (Js.toString (Z.pos p)).
Proof. reflexivity. Qed.

Lemma toString_nonneg (w : Z) :
  0 ≤ w →
  ∃ c rest,
    Js.toString w = String c rest ∧
    all_digits (String c rest) = true ∧
    digits_value 0 (String c rest) = Some w.
Proof.
  intros Hw. destruct w as [|p|p]; [|apply toString_pos|lia].
  exists "0"%char, "". repeat split.
Qed.

(** The padding loop puts zeros in front until the string is longer than
    [decimals]; its turns are enough. *)
Lemma pad_left_zeros (turns decimals : nat) (str : string) :
  (decimals < String.length str + turns)%nat →
  ∃ k, pad_left turns decimals str = zeros k +:+ str ∧
       (decimals < String.length (zeros k +:+ str))%nat.
Proof.
  revert str. induction turns as [|turns IH]; intros str Hlen; simpl.
  - exists 0%nat. app_simpl. split; [reflexivity|lia].
  - destruct (Nat.leb_spec (String.length str) decimals) as [Hle|Hgt].
    + destruct (IH (Zeros +:+ str)) as (k & Hk & Hlong).
      { rewrite length_app. simpl. lia. }
      exists (k + 4)%nat. rewrite zeros_app, app_assoc_s. split; [exact Hk|exact Hlong].
    + exists 0%nat. app_simpl. split; [reflexivity|lia].
Qed.

(** The loop that trims the whole part, on digits followed by a point:
    leading zeros go, and at least one digit stays. *)
Lemma trim_leading_point (a t : string) :
  a ≠ "" → all_digits a = true →
  ∃ j a', a = zeros j +:+ a' ∧ a' ≠ "" ∧
          trim_leading (a +:+ String "." t) = a' +:+ String "." t.
Proof.
  induction a as [|c a IH]; intros Hne Hdig; [congruence|].
  simpl in Hdig. apply andb_true_iff in Hdig as [Hc Ha].
  destruct (ascii_dec c "0") as [->|Hc0].
  - destruct a as [|c2 a2].
    + exists 0%nat, "0". repeat split; done.
    + destruct IH as (j & a' & Hj & Hne' & Htrim); [done|exact Ha|].
      exists (S j), a'. split; [simpl; app_simpl; by rewrite Hj|]. split; [exact Hne'|].
      rewrite <- Htrim. app_simpl.
      simpl in Ha. apply andb_true_iff in Ha as [Hc2 _].
      destruct (is_digit_cases _ Hc2) as [->|[->|[->|[->|[->|[->|[->|[->|[->| ->]]]]]]]]];
        reflexivity.
  - exists 0%nat, (String c a). split; [reflexivity|]. split; [done|].
    app_simpl.
    destruct (is_digit_cases _ Hc) as [->|[->|[->|[->|[->|[->|[->|[->|[->| ->]]]]]]]]];
      try reflexivity. congruence.
Qed.

(** A run of digits is what [span_digits] takes when what follows does not
    start with a digit. *)
Lemma span_digits_app (a t : string) :
  all_digits a = true →
  match t with
  | String c _ => is_digit c = false
  | EmptyString => True
  end →
  span_digits (a +:+ t) = (a, t).
Proof.
  intros Ha Ht. induction a as [|c a IH]; app_simpl.
  - destruct t as [|c t]; [reflexivity|]. simpl. by rewrite Ht.
  - simpl in Ha. apply andb_true_iff in Ha as [Hc Ha].
    rewrite Hc, (IH Ha). reflexivity.
Qed.

(** The loop that pads the decimal part appends zeros until it has
    [decimals] characters; its turns are enough. *)
Lemma pad_right_zeros (turns decimals : nat) (decimal : string) :
  (decimals ≤ String.length decimal + 4 * turns)%nat →
  ∃ k, pad_right turns decimals decimal = decimal +:+ zeros k ∧
       (decimals ≤ String.length (decimal +:+ zeros k))%nat.
Proof.
  revert decimal. induction turns as [|turns IH]; intros decimal Hlen; simpl.
  - exists 0%nat. rewrite app_nil_r_s. split; [reflexivity|]. simpl. lia.
  - destruct (Nat.ltb_spec (String.length decimal) decimals) as [Hlt|Hge].
    + destruct (IH (decimal +:+ Zeros)) as (k & Hk & Hlong).
      { rewrite length_app. simpl. lia. }
      exists (4 + k)%nat. rewrite zeros_app. rewrite <- app_assoc_s.
      split; [exact Hk|exact Hlong].
    + exists 0%nat. rewrite app_nil_r_s. split; [reflexivity|]. simpl. lia.
Qed.

Lemma all_zeros_zeros (n : nat) : all_zeros (zeros n) = true.
Proof. induction n as [|n IH]; simpl; [reflexivity|exact IH]. Qed.

Lemma substring_zeros (n m : nat) :
  (m ≤ n)%nat → String.substring 0 m (zeros n) = zeros m.
Proof.
  revert m. induction n as [|n IH]; intros m Hm.
  - assert (m = 0%nat) as -> by lia. reflexivity.
  - destruct m as [|m]; simpl; [reflexivity|]. rewrite IH by lia. reflexivity.
Qed.

Lemma substring_skip_zeros (n m : nat) :
  (m ≤ n)%nat → String.substring m (n - m) (zeros n) = zeros (n - m).
Proof.
  intros Hm. replace n with (m + (n - m))%nat at 2 by lia.
  rewrite zeros_app.
  rewrite <- (zeros_length m) at 1. rewrite substring_skip_app.
  rewrite <- (zeros_length (n - m)) at 1. apply substring_0_length.
Qed.

(** [BigInt] on a run of digits. *)
Lemma BigInt_digits (c : ascii) (rest : string) (v : Z) :
  is_digit c = true →
  digits_value 0 (String c rest) = Some v →
  BigInt (String c rest) = Done v.
Proof.
  intros Hc Hv. unfold BigInt. rewrite Hv.
  destruct (is_digit_cases _ Hc) as [->|[->|[->|[->|[->|[->|[->|[->|[->| ->]]]]]]]]];
    reflexivity.
Qed.

Lemma BigInt_minus_digits (c : ascii) (rest : string) (v : Z) :
  digits_value 0 (String c rest) = Some v →
  BigInt (String "-" (String c rest)) = Done (- v).
Proof. intros Hv. unfold BigInt. rewrite Hv. reflexivity. Qed.

Lemma getBigInt_toString (w : Z) : getBigInt (Js.toString w) = Done w.
Proof.
  destruct w as [|p|p].
  - reflexivity.
  - destruct (toString_pos p) as (c & rest & -> & Hdig & Hval).
    simpl in Hdig. apply andb_true_iff in Hdig as [Hc _].
    unfold getBigInt. rewrite (BigInt_digits c rest _ Hc Hval).
    destruct (is_digit_cases _ Hc) as [->|[->|[->|[->|[->|[->|[->|[->|[->| ->]]]]]]]]];
      reflexivity.
  - rewrite toString_neg.
    destruct (toString_pos p) as (c & rest & -> & Hdig & Hval).
    simpl in Hdig. apply andb_true_iff in Hdig as [Hc _].
    unfold getBigInt.
    assert (HB : BigInt (String c rest) = Done (Z.pos p))
      by exact (BigInt_digits c rest _ Hc Hval).
    destruct (is_digit_cases _ Hc) as [->|[->|[->|[->|[->|[->|[->|[->|[->| ->]]]]]]]]];
      rewrite HB; reflexivity.
Qed.

(** The text [toString] of the library gives for a value that is not
    negative: the whole digits, a point and the decimal digits, which are the
    digits of the value once the decimal part is filled up with zeros. *)
Lemma fixed_toString_shape (v : Z) (decimals : nat) :
  0 ≤ v → (0 < decimals)%nat →
  ∃ whole frac j,
    fixed_toString v decimals = whole +:+ String "." frac ∧
    whole ≠ "" ∧ all_digits whole = true ∧ all_digits frac = true ∧
    (String.length frac + j = decimals)%nat ∧
    digits_value 0 (whole +:+ frac +:+ zeros j) = Some v.
Proof.
  intros Hv Hd. unfold fixed_toString.
  destruct (Z.ltb_spec v 0) as [?|_]; [lia|].
  destruct (Nat.eqb_spec decimals 0) as [?|_]; [lia|].
  destruct (toString_nonneg v Hv) as (c & rest & Hstr & Hdig & Hval).
  rewrite Hstr.
  destruct (pad_left_zeros (S decimals) decimals (String c rest)) as (k & -> & Hlong).
  { simpl. lia. }
  set (padded := zeros k +:+ String c rest) in *.
  assert (Hpd : all_digits padded = true)
    by (unfold padded; rewrite all_digits_app, all_digits_zeros; exact Hdig).
  assert (Hpv : digits_value 0 padded = Some v)
    by (unfold padded; rewrite digits_value_zeros; exact Hval).
  set (index := (String.length padded - decimals)%nat).
  destruct (substring_split padded index) as [Hcut Hwl]; [unfold index; lia|].
  set (whole0 := String.substring 0 index padded) in *.
  set (frac0 := String.substring index (String.length padded - index) padded) in *.
  assert (Hfl : String.length frac0 = decimals).
  { apply (f_equal String.length) in Hcut. rewrite length_app, Hwl in Hcut.
    unfold index in *. lia. }
  assert (Hw0 : whole0 ≠ "").
  { intros E. rewrite E in Hwl. simpl in Hwl. unfold index in *. lia. }
  rewrite <- Hcut in Hpd, Hpv. rewrite all_digits_app in Hpd.
  apply andb_true_iff in Hpd as [Hwd Hfd].
  change ("" +:+ ?x) with x.
  change ("." +:+ frac0) with (String "." frac0).
  destruct (trim_leading_point whole0 frac0 Hw0 Hwd) as (j1 & whole & Hw & Hwne & ->).
  unfold trim_trailing.
  rewrite rev_app_distr, rev_cons, app_assoc_s. change ("." +:+ ?x) with (String "." x).
  assert (Hf0 : String.rev frac0 ≠ "").
  { intros E. apply (f_equal String.length) in E. rewrite rev_length, Hfl in E.
    simpl in E. lia. }
  destruct (trim_leading_point (String.rev frac0) (String.rev whole) Hf0)
    as (j & f' & Hf & Hfne & ->); [by rewrite all_digits_rev|].
  rewrite rev_app_distr, rev_cons, rev_involutive, app_assoc_s.
  change ("." +:+ ?x) with (String "." x).
  exists whole, (String.rev f'), j.
  assert (Hfrac : frac0 = String.rev f' +:+ zeros j).
  { rewrite <- (rev_involutive frac0), Hf, rev_app_distr, rev_zeros. reflexivity. }
  split; [reflexivity|]. split; [exact Hwne|].
  rewrite Hw, all_digits_app in Hwd. apply andb_true_iff in Hwd as [_ Hwd].
  split; [exact Hwd|].
  rewrite Hfrac, all_digits_app in Hfd. apply andb_true_iff in Hfd as [Hfd _].
  split; [exact Hfd|].
  split.
  - rewrite Hfrac, length_app, zeros_length in Hfl. exact Hfl.
  - rewrite <- Hfrac. rewrite Hw, app_assoc_s, digits_value_zeros in Hpv. exact Hpv.
Qed.

Lemma fixed_toString_negative (v : Z) (decimals : nat) :
  v < 0 → (0 < decimals)%nat →
  fixed_toString v decimals = String "-" (fixed_toString (- v) decimals).
Proof.
  intros Hv Hd. unfold fixed_toString.
  destruct (Z.ltb_spec v 0) as [_|?]; [|lia].
  destruct (Z.ltb_spec (- v) 0) as [?|_]; [lia|].
  destruct (Nat.eqb_spec decimals 0) as [?|_]; [lia|].
  replace (v * -1) with (- v) by lia. reflexivity.
Qed.

Lemma match_fixed_shape (negative : bool) (whole frac : string) :
  whole ≠ "" → all_digits whole = true → all_digits frac = true →
  match_fixed ((if negative then "-" else "") +:+ whole +:+ String "." frac) =
    Some (if negative then "-" else "", whole, frac).
Proof.
  intros Hne Hw Hf.
  assert (Hspan1 : span_digits (whole +:+ String "." frac) = (whole, String "." frac))
    by (apply span_digits_app; [exact Hw|reflexivity]).
  assert (Hspan2 : span_digits frac = (frac, ""))
    by (rewrite <- (app_nil_r_s frac) at 1; apply span_digits_app; [exact Hf|exact I]).
  unfold match_fixed. destruct negative.
  - change ("-" +:+ ?x) with (String "-" x). cbv iota beta.
    rewrite Hspan1, Hspan2. reflexivity.
  - change ("" +:+ ?x) with x.
    destruct whole as [|c r]; [congruence|]. rewrite app_cons in *.
    simpl in Hw. apply andb_true_iff in Hw as [Hc _].
    destruct (is_digit_cases _ Hc) as [->|[->|[->|[->|[->|[->|[->|[->|[->| ->]]]]]]]]];
      cbv iota beta; rewrite Hspan1, Hspan2; reflexivity.
Qed.

(** Reading back the text of [fixed_toString_shape], with or without a
    minus sign in front. *)
Lemma fromString_shape (negative : bool) (whole frac : string) (j decimals : nat) (v : Z) :
  whole ≠ "" → all_digits whole = true → all_digits frac = true →
  (String.length frac + j = decimals)%nat →
  digits_value 0 (whole +:+ frac +:+ zeros j) = Some v →
  - 2 ^ 511 ≤ (if negative then - v else v) < 2 ^ 511 →
  fromString ((if negative then "-" else "") +:+ whole +:+ String "." frac) decimals =
    Done (if negative then - v else v).
Proof.
  intros Hne Hw Hf Hlen Hval Hrange. unfold fromString.
  rewrite (match_fixed_shape negative whole frac Hne Hw Hf).
  destruct whole as [|c r] eqn:Hwhole; [congruence|]. rewrite <- Hwhole in *.
  assert (Hl : (String.length whole + String.length frac =? 0)%nat = false)
    by (rewrite Hwhole; reflexivity).
  rewrite Hl.
  assert (Ht : truthy_string whole = true) by (rewrite Hwhole; reflexivity).
  rewrite Ht.
  destruct (pad_right_zeros decimals decimals frac) as (k & -> & Hlong); [lia|].
  rewrite length_app, zeros_length in Hlong.
  assert (Hpad : frac +:+ zeros k = (frac +:+ zeros j) +:+ zeros (k - j)).
  { rewrite app_assoc_s, <- zeros_app. do 2 f_equal. lia. }
  assert (Hfl : String.length (frac +:+ zeros j) = decimals)
    by (rewrite length_app, zeros_length; exact Hlen).
  rewrite Hpad.
  rewrite <- Hfl at 1. rewrite substring_skip_app.
  assert (Htail : String.substring 0
                    (String.length ((frac +:+ zeros j) +:+ zeros (k - j)) - decimals)
                    (zeros (k - j)) = zeros (k - j)).
  { rewrite length_app, Hfl, zeros_length.
    replace (decimals + (k - j) - decimals)%nat with (k - j)%nat by lia.
    apply substring_zeros. lia. }
  rewrite Htail, all_zeros_zeros. cbv iota beta. simpl negb. cbv iota.
  rewrite <- Hfl at 1. rewrite substring_0_app.
  assert (Hc : is_digit c = true).
  { rewrite Hwhole in Hw. simpl in Hw. by apply andb_true_iff in Hw as [Hc _]. }
  assert (Hbig : BigInt ((if negative then "-" else "") +:+ whole +:+ frac +:+ zeros j) =
                 Done (if negative then - v else v)).
  { rewrite Hwhole in *. rewrite app_cons in *. destruct negative.
    - change ("-" +:+ ?x) with (String "-" x). by apply BigInt_minus_digits.
    - change ("" +:+ ?x) with x. by apply BigInt_digits. }
  rewrite Hbig. simpl. unfold checkValue.
  rewrite Z.shiftl_1_l.
  destruct (Z.leb_spec (- 2 ^ 511) (if negative then - v else v)); [|lia].
  destruct (Z.ltb_spec (if negative then - v else v) (2 ^ 511)); [|lia].
  reflexivity.
Qed.

(** Any value of the format, written with [formatUnits] and read with
    [parseUnits] at the same number of decimals, comes back. *)
Lemma parseUnits_formatUnits (value : string) (w : Z) (decimals : nat) :
  getBigInt value = Done w →
  (0 < decimals)%nat → - 2 ^ 511 ≤ w < 2 ^ 511 →
  (formatUnits value decimals ≫= λ s, parseUnits s decimals) = Done w.
Proof.
  intros Hvalue Hd Hw. unfold formatUnits. rewrite Hvalue. simpl.
  unfold checkValue at 1. rewrite Z.shiftl_1_l.
  destruct (Z.leb_spec (- 2 ^ 511) w); [|lia].
  destruct (Z.ltb_spec w (2 ^ 511)); [|lia].
  simpl. unfold parseUnits.
  destruct (Z.lt_ge_cases w 0) as [Hneg|Hpos].
  - rewrite (fixed_toString_negative w decimals Hneg Hd).
    destruct (fixed_toString_shape (- w) decimals ltac:(lia) Hd)
      as (whole & frac & j & -> & Hne & Hwd & Hfd & Hlen & Hval).
    assert (Hback : Done (- - w) = Done w) by (f_equal; lia).
    rewrite <- Hback.
    apply (fromString_shape true whole frac j decimals (- w) Hne Hwd Hfd Hlen Hval).
    simpl. lia.
  - destruct (fixed_toString_shape w decimals Hpos Hd)
      as (whole & frac & j & -> & Hne & Hwd & Hfd & Hlen & Hval).
    exact (fromString_shape false whole frac j decimals w Hne Hwd Hfd Hlen Hval Hw).
Qed.

(** One OAS is [10^18] wei in both directions, and half an OAS is
    [5 * 10^17] wei. *)
Lemma oasToWei_values :
  oasToWei "1" = Done (10 ^ 18) ∧
  oasToWei "1.0" = Done (10 ^ 18) ∧
  oasToWei "0.5" = Done (5 * 10 ^ 17) ∧
  oasToWei "0" = Done 0.
Proof. repeat split; vm_compute; reflexivity. Qed.

(** [formatUnits] keeps one digit after the point, so a whole number of OAS
    ends in [.0]. *)
Lemma weiToOas_values :
  weiToOas (WeiString "1000000000000000000") = Done "1.0" ∧
  weiToOas (WeiString "500000000000000000") = Done "0.5" ∧
  weiToOas (WeiString "1234567890000000000") = Done "1.23456789" ∧
  weiToOas (WeiString "0") = Done "0.0" ∧
  weiToOas (WeiString "1000000000000000000000000") = Done "1000000.0" ∧
  weiToOas (WeiBigint (10 ^ 18)) = Done "1.0".
Proof. repeat split; vm_compute; reflexivity. Qed.

(** C6.  [weiToOas] at the values its unit test checks.  One OAS in wei is
    written ["1.0"], zero ["0.0"] and a million OAS ["1000000.0"], where the
    unit test has ["1"], ["0"] and ["1000000"]: the text of [formatUnits] is
    returned as it is, and it always keeps a digit after the point.  The
    values with a fraction are as the test has them, one OAS in wei goes
    there and back unchanged, and [oasToWei] reads ["1"] as [10^18] wei and
    ["0.5"] as [5 * 10^17]. *)
Theorem weiToOas_whole_OAS_text :
  weiToOas (WeiString "1000000000000000000") = Done "1.0" ∧
  weiToOas (WeiString "1000000000000000000") ≠ Done "1" ∧
  weiToOas (WeiString "0") = Done "0.0" ∧
  weiToOas (WeiString "0") ≠ Done "0" ∧
  weiToOas (WeiString "1000000000000000000000000") = Done "1000000.0" ∧
  weiToOas (WeiString "1000000000000000000000000") ≠ Done "1000000" ∧
  weiToOas (WeiString "500000000000000000") = Done "0.5" ∧
  weiToOas (WeiString "1234567890000000000") = Done "1.23456789" ∧
  (weiToOas (WeiString "1000000000000000000") ≫= oasToWei) = Done (10 ^ 18) ∧
  oasToWei "1" = Done (10 ^ 18) ∧
  oasToWei "0.5" = Done (5 * 10 ^ 17).
Proof.
  repeat split;
    first [ vm_compute; reflexivity
          | intros H; vm_compute in H; discriminate H ].
Qed.

(** The round trip itself.  Wei to OAS with [weiToOas] and back with
    [oasToWei] gives the wei value again, for a [bigint] and for a string
    that [BigInt] reads, whenever the value fits the signed 512-bit format
    of the library: the digit that [weiToOas] adds to a whole number of OAS
    does not change the value [oasToWei] reads. *)
Lemma wei_round_trip_spec (w : Z) (text : string) :
  - 2 ^ 511 ≤ w < 2 ^ 511 →
  getBigInt text = Done w →
  (weiToOas (WeiBigint w) ≫= oasToWei) = Done w ∧
  (weiToOas (WeiString text) ≫= oasToWei) = Done w ∧
  weiToOas (WeiString "1000000000000000000") = Done "1.0" ∧
  oasToWei "1.0" = Done (10 ^ 18) ∧
  oasToWei "1" = Done (10 ^ 18) ∧
  oasToWei "0.5" = Done (5 * 10 ^ 17).
Proof.
  intros Hw Htext.
  split; [|split].
  - apply (parseUnits_formatUnits (Js.toString w) w 18);
      [apply getBigInt_toString | lia | exact Hw].
  - apply (parseUnits_formatUnits text w 18); [exact Htext | lia | exact Hw].
  - destruct oasToWei_values as (H1 & H10 & H05 & _).
    destruct weiToOas_values as (Hone & _).
    split; [exact Hone|]. split; [exact H10|]. split; [exact H1|exact H05].
Qed.

End Units.

(** ** The properties above at concrete inputs *)

Section Instances.
Import Networks LayerUtils BridgeUtils ApiClient Trigger ActionNode Scenarios.

(** A deposit mined at block 100 with the hub at 164 has 64 confirmations
    and is completed; the withdrawal on the verse is in its challenge
    period; a receipt with flag 0 is failed; an unknown hash is pending. *)
Lemma getBridgeStatus_spec_witness :
  (∃ report, getBridgeStatus sampleBridgeClient "0xabc" deposit = Done report ∧
             report_status report = completed ∧ confirmations report = 64) ∧
  (∃ report, getBridgeStatus sampleBridgeClient "0xabc" withdraw = Done report ∧
             report_status report = challenge) ∧
  (∃ report, getBridgeStatus failedBridgeClient "0xabc" deposit = Done report ∧
             report_status report = failed) ∧
  getBridgeStatus failedBridgeClient "0xabc" withdraw =
    Done {| report_status := pending; confirmations := 0; requiredConfirmations := 64 |}.
Proof.
  split; [|split; [|split]].
  - destruct (getBridgeStatus_spec sampleBridgeClient "0xabc" deposit) as (_ & _ & H).
    destruct (H (sampleReceipt 100 1) 164 eq_refl eq_refl)
      as (report & Hrun & Hconf & _ & Hdep & _).
    exists report. split; [exact Hrun|]. split; [|exact Hconf].
    apply Hdep; [discriminate | reflexivity |]. rewrite Hconf. simpl. lia.
  - destruct (getBridgeStatus_spec sampleBridgeClient "0xabc" withdraw) as (_ & _ & H).
    destruct (H (sampleReceipt 50 1) 100000 eq_refl eq_refl)
      as (report & Hrun & _ & _ & _ & Hwd).
    exists report. split; [exact Hrun|]. apply Hwd; [discriminate | reflexivity].
  - destruct (getBridgeStatus_spec failedBridgeClient "0xabc" deposit) as (_ & _ & H).
    destruct (H (sampleReceipt 100 0) 110 eq_refl eq_refl)
      as (report & Hrun & _ & Hfail & _).
    exists report. split; [exact Hrun|]. apply Hfail. reflexivity.
  - destruct (getBridgeStatus_spec failedBridgeClient "0xabc" withdraw) as (_ & H & _).
    apply H. reflexivity.
Defined.

Lemma validateBridgeAmount_spec_witness :
  (∃ message, validateBridgeAmount 999999999999999 deposit None =
                Done {| isValid := false; error := Some message |} ∧
              includes message "minimum" = true) ∧
  (∃ message, validateBridgeAmount (2 * 10 ^ 23) withdraw None =
                Done {| isValid := false; error := Some message |} ∧
              includes message "maximum" = true) ∧
  (∃ message, validateBridgeAmount (-10) deposit None =
                Done {| isValid := false; error := Some message |}) ∧
  validateBridgeAmount (10 ^ 20) deposit None = Done {| isValid := true; error := None |}.
Proof.
  split; [|split; [|split]].
  - destruct (validateBridgeAmount_spec 999999999999999 deposit) as (_ & _ & H & _).
    apply H. lia.
  - destruct (validateBridgeAmount_spec (2 * 10 ^ 23) withdraw) as (_ & _ & _ & H & _).
    apply H. lia.
  - destruct (validateBridgeAmount_spec (-10) deposit) as (_ & _ & _ & _ & H & _).
    apply H. lia.
  - destruct (validateBridgeAmount_spec (10 ^ 20) deposit) as (_ & _ & _ & _ & _ & H).
    apply H. lia.
Defined.

Lemma getBridgeDirection_spec_witness :
  getBridgeDirection 9372 2400 = Some deposit ∧
  getBridgeDirection 5555 248 = Some withdraw ∧
  getBridgeDirection 9372 248 = None ∧
  getBridgeDirection 5555 7225878 = None ∧
  getBridgeDirection 9372 1 = None.
Proof.
  split; [|split; [|split; [|split]]].
  - destruct (getBridgeDirection_spec 9372 2400) as (H & _).
    apply H. split; [right; reflexivity|].
    (unfold Verses.VERSES; cbn [fmap list_fmap snd]; repeat constructor).
  - destruct (getBridgeDirection_spec 5555 248) as (_ & H & _).
    apply H. split; [|left; reflexivity].
    (unfold Verses.VERSES; cbn [fmap list_fmap snd]; repeat constructor).
  - destruct (getBridgeDirection_spec 9372 248) as (_ & _ & H & _).
    apply H; [right|left]; reflexivity.
  - destruct (getBridgeDirection_spec 5555 7225878) as (_ & _ & _ & H & _).
    apply H;
      (unfold Verses.VERSES; cbn [fmap list_fmap snd]; repeat constructor).
  - destruct (getBridgeDirection_spec 9372 1) as (_ & _ & _ & _ & H & _).
    apply H. right. reflexivity.
Defined.

(** The values of the unit tests, there and back. *)
Lemma wei_round_trip_spec_witness :
  (UnitConverter.weiToOas (UnitConverter.WeiBigint 1234567890000000000)
     ≫= UnitConverter.oasToWei) = Done 1234567890000000000 ∧
  (UnitConverter.weiToOas (UnitConverter.WeiString "500000000000000000")
     ≫= UnitConverter.oasToWei) = Done 500000000000000000 ∧
  (UnitConverter.weiToOas (UnitConverter.WeiString "-1000000000000000000000000")
     ≫= UnitConverter.oasToWei) = Done (-1000000000000000000000000).
Proof.
  split; [|split].
  - destruct (wei_round_trip_spec 1234567890000000000 "1234567890000000000")
      as (H & _); [lia | reflexivity | exact H].
  - destruct (wei_round_trip_spec 500000000000000000 "500000000000000000")
      as (_ & H & _); [lia | reflexivity | exact H].
  - destruct (wei_round_trip_spec (-1000000000000000000000000)
                "-1000000000000000000000000")
      as (_ & H & _); [lia | reflexivity | exact H].
Defined.

(** A hub at height 10 polled for the first time: blocks 5 to 10, six
    records; a verse at height 3: blocks 1 to 3. *)
Lemma newBlock_window_spec_witness :
  (length (for_range (Z.max (0 + 1) (10 - 5)) 10) = 6%nat ∧
   fst (poll (sampleContext "hub" "newBlock" (sampleHub 10 11) (sampleVerse 0)) freshState) =
     Done (Some [map (λ n, hubBlockRecord n (sampleBlock n)) [5; 6; 7; 8; 9; 10]])) ∧
  fst (poll (sampleContext "verse" "newBlock" (sampleHub 0 0) (sampleVerse 3)) freshState) =
    Done (Some [map (λ n, verseBlockRecord "homeVerse" n (sampleBlock n)) [1; 2; 3]]).
Proof.
  split.
  - split; [reflexivity|].
    destruct (newBlock_window_spec
                (sampleContext "hub" "newBlock" (sampleHub 10 11) (sampleVerse 0))
                freshState sampleCredentials 10 (λ n, Some (sampleBlock n))
                eq_refl eq_refl) as [Hhub _].
    destruct (Hhub (sampleHub 10 11) eq_refl eq_refl eq_refl) as (_ & _ & _ & _ & Hpoll).
    + vm_compute. reflexivity.
    + intros n Hn. change (n ∈ [5; 6; 7; 8; 9; 10]) in Hn.
      repeat (apply elem_of_cons in Hn as [->|Hn]; [reflexivity|]).
      inversion Hn.
    + rewrite Hpoll. reflexivity.
  - destruct (newBlock_window_spec
                (sampleContext "verse" "newBlock" (sampleHub 0 0) (sampleVerse 3))
                freshState sampleCredentials 3 (λ n, Some (sampleBlock n))
                eq_refl eq_refl) as [_ Hverse].
    destruct (Hverse (sampleVerse 3) eq_refl) as (_ & _ & _ & _ & Hpoll).
    + intros e. discriminate.
    + reflexivity.
    + reflexivity.
    + vm_compute. reflexivity.
    + intros n Hn. reflexivity.
    + rewrite Hpoll. reflexivity.
Defined.

(** Three items of which the second throws: with continue-on-fail three
    output items, the second an error record, and all three evaluated;
    without it the error leaves [execute] after two evaluations. *)
Lemma execute_spec_witness :
  execute (sampleExecute true) [JNull; JNull; JNull] 0%nat =
    (Done [[ {| ActionNode.json := Some (JNum 0) |};
             {| ActionNode.json := Some (JObj [("error", JStr "Wallet not configured")]) |};
             {| ActionNode.json := Some (JNum 2) |} ]], 3%nat) ∧
  execute (sampleExecute false) [JNull; JNull; JNull] 0%nat =
    (Threw "Wallet not configured", 2%nat) ∧
  execute (sampleExecute false) [JNull] 0%nat =
    (Done [[ {| ActionNode.json := Some (JNum 0) |} ]], 1%nat).
Proof.
  split; [|split].
  - destruct (execute_spec (sampleExecute true) [JNull; JNull; JNull] 0%nat)
      as (_ & Hcontinue & _).
    destruct (Hcontinue eq_refl) as [Hrun _]. exact Hrun.
  - destruct (execute_spec (sampleExecute false) [JNull; JNull; JNull] 0%nat)
      as (_ & _ & Habort & _).
    apply (Habort eq_refl 1%nat [Done (Some (JNum 0))] "Wallet not configured" 1%nat 2%nat).
    + simpl. lia.
    + reflexivity.
    + repeat constructor.
    + reflexivity.
  - destruct (execute_spec (sampleExecute false) [JNull] 0%nat)
      as (_ & _ & _ & Hclean).
    destruct Hclean as [Hrun _]; [repeat constructor|]. exact Hrun.
Defined.

(** Two polls of a hub, first at height 10 and then at height 12, move the
    cursor from 0 to 12; a poll without credentials throws and stores
    nothing; a poll whose [getBlock] throws stores nothing. *)
Lemma poll_cursor_monotone_witness :
  cursor freshState "oasys_trigger_hub_newBlock" ≤
    cursor (runPolls [sampleContext "hub" "newBlock" (sampleHub 10 11) (sampleVerse 0);
                      sampleContext "hub" "newBlock" (sampleHub 12 13) (sampleVerse 0)]
                     freshState) "oasys_trigger_hub_newBlock" ∧
  workflowStaticData (snd (poll (contextWithoutCredentials "hub" "newBlock") freshState)) =
    workflowStaticData freshState ∧
  workflowStaticData
    (snd (poll (sampleContext "hub" "newBlock" (sampleHub 2 2) (sampleVerse 0)) freshState)) =
    workflowStaticData freshState.
Proof.
  split; [|split].
  - destruct (poll_cursor_monotone
                [sampleContext "hub" "newBlock" (sampleHub 10 11) (sampleVerse 0);
                 sampleContext "hub" "newBlock" (sampleHub 12 13) (sampleVerse 0)]
                (sampleContext "hub" "newBlock" (sampleHub 10 11) (sampleVerse 0))
                freshState "oasys_trigger_hub_newBlock") as (_ & _ & _ & _ & Hseq).
    exact Hseq.
  - destruct (poll_cursor_monotone [] (contextWithoutCredentials "hub" "newBlock")
                freshState "oasys_trigger_hub_newBlock") as (_ & _ & Hthrow & _).
    apply (Hthrow "Node does not have any credentials set"). reflexivity.
  - destruct (poll_cursor_monotone []
                (sampleContext "hub" "newBlock" (sampleHub 2 2) (sampleVerse 0))
                freshState "oasys_trigger_hub_newBlock") as (_ & _ & _ & Hwork & _).
    apply (Hwork "hub" "newBlock" sampleCredentials "request timeout"
             {| results := [hubBlockRecord 1 (sampleBlock 1)];
                workflowStaticData := ∅; console := [] |});
      [reflexivity | reflexivity | reflexivity |].
    vm_compute. reflexivity.
Defined.

(** A bridge poll next to a hub and a verse of any height: one record. *)
Lemma bridge_poll_spec_witness :
  fst (poll (sampleContext "bridge" "depositCompleted" (sampleHub 10 11) (sampleVerse 7))
            freshState) =
    Done (Some [[ {| Trigger.json :=
                       JObj [("event", JStr "depositCompleted"); ("layer", JStr "Bridge");
                             ("verse", JStr "homeVerse");
                             ("message", JStr "Bridge event monitoring active");
                             ("timestamp", JStr "2024-01-01T00:00:00.000Z")] |} ]]).
Proof.
  destruct (bridge_poll_spec
              (sampleContext "bridge" "depositCompleted" (sampleHub 10 11) (sampleVerse 7))
              freshState "depositCompleted" sampleCredentials eq_refl eq_refl eq_refl)
    as (Hrun & _).
  - intros e. discriminate.
  - exact Hrun.
Defined.

End Instances.

(* ================================================================== *)
(** * Further properties of the utilities *)
(* ================================================================== *)

(** ** Numbers: the arithmetic of doubles is exact on safe integers *)

Section NumberProperties.
Import JsNumber.

Lemma half_even_cases n d :
  half_even n d = n / d ∨ (half_even n d = n / d + 1 ∧ d ≤ 2 * (n mod d)).
Proof.
  unfold half_even.
  destruct (Z.ltb_spec (2 * (n mod d)) d); [left; reflexivity|].
  destruct (Z.ltb_spec d (2 * (n mod d))); [right; split; [reflexivity|lia]|].
  destruct (Z.even (n / d)); [left; reflexivity|right; split; [reflexivity|lia]].
Qed.

Lemma half_even_down n d :
  half_even n d = n / d → 2 * (n mod d) ≤ d.
Proof.
  unfold half_even.
  destruct (Z.ltb_spec (2 * (n mod d)) d); [lia|].
  destruct (Z.ltb_spec d (2 * (n mod d))); [lia|]. lia.
Qed.

(** Rounding a quotient of a safe integer and flooring it gives the floor of
    the exact quotient: the nearest double lies on the same side of every
    integer.  [P] is the power of two that scales the mantissa. *)
Lemma floor_half_even a d P s :
  0 < a → 0 < d → 0 < P → d < 2 * P → (s = 1 ∨ s = -1) →
  (s * half_even (a * P) d) / P = (s * a) / d.
Proof.
  intros Ha Hd HP HdP Hs.
  pose proof (Z.div_mod (a * P) d ltac:(lia)) as HN.
  pose proof (Z.mod_pos_bound (a * P) d Hd) as Hr.
  pose proof (Z.div_mod a d ltac:(lia)) as Hq.
  pose proof (Z.mod_pos_bound a d Hd) as Ht.
  set (m0 := (a * P) / d) in *. set (r := (a * P) mod d) in *.
  set (q := a / d) in *. set (t := a mod d) in *.
  assert (Hlo : q * P ≤ m0) by nia.
  assert (Hhi : m0 < (q + 1) * P) by nia.
  pose proof (half_even_cases (a * P) d) as Hc.
  pose proof (half_even_down (a * P) d) as Hdown.
  fold m0 r in Hc, Hdown.
  set (m := half_even (a * P) d) in *.
  destruct Hs as [-> | ->].
  - rewrite !Z.mul_1_l. fold q.
    symmetry. apply (Z.div_unique m P q (m - q * P)); [|lia].
    left. destruct Hc as [-> | [-> Hup]]; [lia|].
    split; [lia|].
    assert (m0 + 1 ≠ (q + 1) * P) by nia. lia.
  - destruct (Z.eq_dec t 0) as [Ht0|Ht0].
    + assert (Hm0 : m0 = q * P) by nia.
      assert (Hr0 : r = 0) by nia.
      assert (Hm : m = m0) by (destruct Hc as [?|[? ?]]; [assumption|lia]).
      rewrite Hm, Hm0.
      replace (-1 * (q * P)) with ((- q) * P) by lia. rewrite Z.div_mul by lia.
      apply (Z.div_unique (-1 * a) d (- q) 0); lia.
    + transitivity (- q - 1).
      * symmetry. apply (Z.div_unique (-1 * m) P (- q - 1) ((q + 1) * P - m)); [|lia].
        left. split; [destruct Hc as [-> | [-> Hup]]; lia|].
        destruct Hc as [Hm | [Hm Hup]]; [|lia].
        specialize (Hdown Hm). rewrite Hm.
        assert (m0 ≠ q * P) by nia. lia.
      * apply (Z.div_unique (-1 * a) d (- q - 1) (d - t)); lia.
Qed.

Lemma quotient_log2_spec a d :
  0 < a → 0 < d →
  scaled_den d (quotient_log2 a d) ≤ scaled_num a (quotient_log2 a d) ∧
  Z.log2 a - Z.log2 d - 1 ≤ quotient_log2 a d ≤ Z.log2 a - Z.log2 d.
Proof.
  intros Ha Hd. unfold quotient_log2.
  set (l := Z.log2 a - Z.log2 d).
  destruct (Z.leb_spec (scaled_den d l) (scaled_num a l)) as [Hle|Hlt];
    [split; [exact Hle|lia]|].
  split; [|lia].
  pose proof (Z.log2_spec a Ha) as [Hla _].
  pose proof (Z.log2_spec d Hd) as [_ Hld].
  pose proof (Z.log2_nonneg a) as Hna. pose proof (Z.log2_nonneg d) as Hnd.
  unfold scaled_den, scaled_num.
  destruct (Z.le_gt_cases 1 l) as [Hl|Hl].
  - rewrite (Z.max_r 0 (l - 1)) by lia. rewrite (Z.max_l 0 (- (l - 1))) by lia.
    rewrite Z.pow_0_r, Z.mul_1_r.
    assert (Hpow : 2 ^ Z.succ (Z.log2 d) * 2 ^ (l - 1) = 2 ^ Z.log2 a).
    { rewrite <- Z.pow_add_r by lia. f_equal. lia. }
    assert (0 < 2 ^ (l - 1)) by (apply Z.pow_pos_nonneg; lia).
    nia.
  - rewrite (Z.max_l 0 (l - 1)) by lia. rewrite (Z.max_r 0 (- (l - 1))) by lia.
    rewrite Z.pow_0_r, Z.mul_1_r.
    assert (Hpow : 2 ^ Z.log2 a * 2 ^ (- (l - 1)) = 2 ^ Z.succ (Z.log2 d)).
    { rewrite <- Z.pow_add_r by lia. f_equal. lia. }
    assert (0 < 2 ^ (- (l - 1))) by (apply Z.pow_pos_nonneg; lia).
    nia.
Qed.

Lemma nearest_safe a d :
  0 < a < 2 ^ 53 → 0 < d < 2 ^ 53 →
  ∃ k, 0 ≤ k ∧ d < 2 * 2 ^ k ∧
       nearest a d = (half_even (a * 2 ^ k) d, - k).
Proof.
  intros Ha Hd.
  destruct (quotient_log2_spec a d ltac:(lia) ltac:(lia)) as [Hn [Hlo Hhi]].
  set (l := quotient_log2 a d) in *.
  assert (Hla : Z.log2 a < 53) by (apply Z.log2_lt_pow2; lia).
  assert (Hld : Z.log2 d < 53) by (apply Z.log2_lt_pow2; lia).
  pose proof (Z.log2_nonneg a). pose proof (Z.log2_nonneg d).
  exists (52 - l). split; [lia|].
  assert (Hpos : 0 < 2 ^ (52 - l)) by (apply Z.pow_pos_nonneg; lia).
  assert (Hbound : 2 ^ 52 * d ≤ a * 2 ^ (52 - l)).
  { unfold scaled_den, scaled_num in Hn.
    destruct (Z.le_gt_cases 0 l) as [Hl|Hl].
    - rewrite (Z.max_r 0 l) in Hn by lia. rewrite (Z.max_l 0 (- l)) in Hn by lia.
      rewrite Z.pow_0_r, Z.mul_1_r in Hn.
      assert (2 ^ l * 2 ^ (52 - l) = 2 ^ 52) by (rewrite <- Z.pow_add_r by lia; f_equal; lia).
      nia.
    - rewrite (Z.max_l 0 l) in Hn by lia. rewrite (Z.max_r 0 (- l)) in Hn by lia.
      rewrite Z.pow_0_r, Z.mul_1_r in Hn.
      assert (2 ^ (- l) * 2 ^ 52 = 2 ^ (52 - l)) by (rewrite <- Z.pow_add_r by lia; f_equal; lia).
      nia. }
  split; [nia|].
  unfold nearest. fold l. unfold precision, emin.
  rewrite (Z.max_r (-1074) (l - (53 - 1))) by lia.
  replace (l - (53 - 1)) with (- (52 - l)) by lia.
  unfold scaled_num, scaled_den.
  rewrite Z.opp_involutive.
  rewrite (Z.max_r 0 (52 - l)) by lia. rewrite (Z.max_l 0 (- (52 - l))) by lia.
  rewrite Z.pow_0_r, Z.mul_1_r. reflexivity.
Qed.

Lemma floor_nearest_exact n d :
  Z.abs n < 2 ^ 53 → 0 < d < 2 ^ 53 →
  floor_nearest n d = Int (n / d).
Proof.
  intros Hn Hd. unfold floor_nearest.
  destruct (Z.eqb_spec n 0) as [->|Hn0]; [rewrite Z.div_0_l by lia; reflexivity|].
  destruct (nearest_safe (Z.abs n) d ltac:(lia) Hd) as (k & Hk & HdP & ->).
  assert (HP : 0 < 2 ^ k) by (apply Z.pow_pos_nonneg; lia).
  assert (Hs : Z.sgn n = 1 ∨ Z.sgn n = -1) by lia.
  pose proof (floor_half_even (Z.abs n) d (2 ^ k) (Z.sgn n) ltac:(lia) ltac:(lia) HP HdP Hs)
    as Hcore.
  replace (Z.sgn n * Z.abs n) with n in Hcore by lia.
  destruct (Z.leb_spec 0 (- k)) as [Hk0|Hk0].
  - assert (k = 0) as -> by lia.
    change (2 ^ 0) with 1 in *. change (- 0) with 0. change (2 ^ 0) with 1.
    rewrite Z.div_1_r in Hcore. rewrite !Z.mul_1_r in *.
    assert (Hm : half_even (Z.abs n) d ≤ 2 ^ 53).
    { destruct Hs as [Hs1|Hs1]; rewrite Hs1 in Hcore.
      - assert (0 ≤ n / d) by (apply Z.div_pos; lia).
        assert (n / d ≤ n) by (apply Z.div_le_upper_bound; nia). lia.
      - assert (n / d = -1 * half_even (Z.abs n) d) by lia.
        assert (n ≤ n / d * 1).
        { assert (d = 1) by lia. subst d. rewrite Z.div_1_r. lia. }
        lia. }
    destruct (Z.leb_spec (2 ^ emax) (half_even (Z.abs n) d)) as [Hov|_].
    + exfalso. assert (2 ^ 53 < 2 ^ emax) by (apply Z.pow_lt_mono_r; unfold emax; lia). lia.
    + rewrite Hcore. reflexivity.
  - rewrite Z.opp_involutive, Hcore. reflexivity.
Qed.

Lemma toNumber_safe x : isSafeInteger x → toNumber x = Int x.
Proof.
  unfold isSafeInteger, MAX_SAFE_INTEGER. intros Hx. unfold toNumber.
  rewrite floor_nearest_exact by lia. rewrite Z.div_1_r. reflexivity.
Qed.

Lemma add_safe a b : isSafeInteger (a + b) → add (Int a) (Int b) = Int (a + b).
Proof. intros H. simpl. apply toNumber_safe, H. Qed.

Lemma sub_safe a b : isSafeInteger (a - b) → sub (Int a) (Int b) = Int (a - b).
Proof. intros H. unfold sub. simpl. apply toNumber_safe, H. Qed.

Lemma mul_safe a b : isSafeInteger (a * b) → mul (Int a) (Int b) = Int (a * b).
Proof. intros H. simpl. apply toNumber_safe, H. Qed.

Lemma floor_div_safe a b :
  isSafeInteger a → isSafeInteger b → b ≠ 0 → floor_div (Int a) (Int b) = Int (a / b).
Proof.
  unfold isSafeInteger, MAX_SAFE_INTEGER. intros Ha Hb Hb0. simpl.
  destruct (Z.eqb_spec b 0) as [?|_]; [done|].
  rewrite floor_nearest_exact by lia.
  f_equal. destruct (Z.lt_trichotomy b 0) as [Hneg|[?|Hpos]]; [|done|].
  - rewrite Z.sgn_neg, Z.abs_neq by lia.
    replace (-1 * a) with (- a) by lia. apply Z.div_opp_opp. lia.
  - rewrite Z.sgn_pos, Z.abs_eq by lia. f_equal. lia.
Qed.

Lemma agreeb_agree a b : Doubles.agreeb a b = true → Doubles.agree a b.
Proof.
  unfold Doubles.agreeb, Doubles.agree. intros H.
  repeat (apply andb_prop in H; destruct H as [H ?]).
  repeat split;
    match goal with
    | Hb : bool_decide ?P = true |- ?P => exact (bool_decide_eq_true_1 _ Hb)
    end.
Qed.

Lemma Forall_agree (l : list (JsNumber.number * JsNumber.number)) :
  forallb (λ p, Doubles.agreeb p.1 p.2) l = true →
  Forall (λ p, Doubles.agree p.1 p.2) l.
Proof.
  induction l as [|p l IH]; intros H; [constructor|].
  cbn [forallb] in H. apply andb_prop in H. destruct H as [Hp Hl].
  constructor; [apply agreeb_agree, Hp | apply IH, Hl].
Qed.

(** The operations of [JsNumber] are the operations of doubles: on every
    pair of the sample numbers, and on the pairs at the end of the range,
    reading a number as a double, operating on doubles and rounding down
    gives the number that [add], [sub], [mul] and [floor_div] give, and
    comparing the doubles gives what [gt] gives. *)
Lemma number_arithmetic_is_double_arithmetic :
  Forall (λ p, Doubles.agree p.1 p.2)
         (list_prod Doubles.samples Doubles.samples ++ Doubles.far_samples).
Proof. apply Forall_agree. vm_compute. reflexivity. Qed.

End NumberProperties.

(** ** Epochs, unbonding, rewards and commission (validatorUtils.ts) *)

Section ValidatorProperties.
Import NetworkTables JsNumber ValidatorUtils.

(** X1.  Epochs cut the block numbers into consecutive ranges of 5760
    blocks, as long as the block numbers are safe integers.  A block number
    that has 5760 safe integers on either side lies in the range of the
    epoch [getEpochFromBlock] gives it, [floor(blockNumber / 5760)].  For
    an epoch whose range and the start of the next are safe integers, the
    range is [epoch * 5760 .. epoch * 5760 + 5759], a block number is in it
    exactly when it is given this epoch, so are its first and its last
    block, and the next epoch starts right after.  Past the safe integers
    this fails: the range of epoch 1563749870614 ends where the next one
    starts, and its last block is given the next epoch. *)
Theorem epoch_ranges_partition (blockNumber epoch : Z) :
  isSafeInteger (blockNumber - 5760) →
  isSafeInteger (blockNumber + 5760) →
  isSafeInteger (epoch * 5760) →
  isSafeInteger ((epoch + 1) * 5760) →
  getEpochFromBlock (Int blockNumber) = Int (blockNumber / 5760) ∧
  (∃ first,
     getEpochBlockRange (getEpochFromBlock (Int blockNumber))
     = {| startBlock := Int first; endBlock := Int (first + 5759) |} ∧
     first ≤ blockNumber ≤ first + 5759) ∧
  getEpochBlockRange (Int epoch)
  = {| startBlock := Int (epoch * 5760); endBlock := Int (epoch * 5760 + 5759) |} ∧
  (getEpochFromBlock (Int blockNumber) = Int epoch ↔
   epoch * 5760 ≤ blockNumber ≤ epoch * 5760 + 5759) ∧
  getEpochFromBlock (startBlock (getEpochBlockRange (Int epoch))) = Int epoch ∧
  getEpochFromBlock (endBlock (getEpochBlockRange (Int epoch))) = Int epoch ∧
  startBlock (getEpochBlockRange (Int (epoch + 1)))
  = add (endBlock (getEpochBlockRange (Int epoch))) (Int 1) ∧
  isSafeInteger 1563749870614 ∧
  endBlock (getEpochBlockRange (Int 1563749870614)) = Int 9007199254742400 ∧
  startBlock (getEpochBlockRange (Int 1563749870615)) = Int 9007199254742400 ∧
  getEpochFromBlock (endBlock (getEpochBlockRange (Int 1563749870614)))
  = Int 1563749870615.
Proof.
  intros Hlo Hhi Hstart Hnext.
  assert (Hrange : ∀ e, isSafeInteger (e * 5760) → isSafeInteger ((e + 1) * 5760) →
            getEpochBlockRange (Int e)
            = {| startBlock := Int (e * 5760); endBlock := Int (e * 5760 + 5759) |}).
  { intros e H1 H2. unfold getEpochBlockRange. cbn [blocksPerEpoch EPOCH_CONFIG].
    rewrite mul_safe by exact H1.
    rewrite add_safe by (unfold isSafeInteger in *; lia).
    rewrite sub_safe by (unfold isSafeInteger, MAX_SAFE_INTEGER in *; lia).
    do 2 f_equal. lia. }
  assert (Hepoch : ∀ b, isSafeInteger b →
            getEpochFromBlock (Int b) = Int (b / 5760)).
  { intros b Hb. unfold getEpochFromBlock. cbn [blocksPerEpoch EPOCH_CONFIG].
    apply floor_div_safe; [exact Hb| |lia].
    unfold isSafeInteger, MAX_SAFE_INTEGER. lia. }
  assert (Hb : isSafeInteger blockNumber)
    by (unfold isSafeInteger, MAX_SAFE_INTEGER in *; lia).
  pose proof (Z.div_mod blockNumber 5760 ltac:(lia)) as Hdm.
  pose proof (Z.mod_pos_bound blockNumber 5760 ltac:(lia)) as Hmod.
  rewrite (Hepoch blockNumber Hb), (Hrange epoch Hstart Hnext).
  cbn [startBlock endBlock].
  split; [reflexivity|]. split.
  { exists (blockNumber / 5760 * 5760).
    split; [|lia].
    apply Hrange; unfold isSafeInteger, MAX_SAFE_INTEGER in *; lia. }
  split; [reflexivity|]. split.
  { split.
    - intros [= <-]. lia.
    - intros Hin. f_equal. symmetry.
      apply (Z.div_unique blockNumber 5760 epoch (blockNumber - 5760 * epoch)); lia. }
  split.
  { rewrite Hepoch by exact Hstart. f_equal. apply Z.div_mul. lia. }
  split.
  { rewrite Hepoch by (unfold isSafeInteger, MAX_SAFE_INTEGER in *; lia).
    f_equal. symmetry. apply (Z.div_unique _ 5760 epoch 5759); lia. }
  split.
  { unfold getEpochBlockRange. cbn [startBlock blocksPerEpoch EPOCH_CONFIG].
    rewrite mul_safe by exact Hnext.
    rewrite add_safe by (unfold isSafeInteger, MAX_SAFE_INTEGER in *; lia).
    f_equal. lia. }
  split; [unfold isSafeInteger, MAX_SAFE_INTEGER; lia|].
  repeat split; vm_compute; reflexivity.
Qed.

(** X2.  Unbonding that starts at an epoch completes 10 epochs later, as
    long as the epochs are safe integers: the number of epochs still to
    wait is [start + 10 - now] while that is positive and 0 from the
    completion epoch on, it is 10 at the start, and waiting that many
    epochs leads to the completion epoch.  Past the safe integers this
    fails: from the greatest safe integer the completion epoch is 9 epochs
    away. *)
Theorem unbonding_countdown (start now unbondingEpoch : Z) :
  isSafeInteger start →
  isSafeInteger now →
  isSafeInteger unbondingEpoch →
  isSafeInteger (start + 10) →
  isSafeInteger (start + 10 - now) →
  isSafeInteger (unbondingEpoch - now) →
  getUnbondingCompletionEpoch (Int start) = Int (start + 10) ∧
  epochsUntilUnbonding (getUnbondingCompletionEpoch (Int start)) (Int now)
  = Int (Z.max 0 (start + 10 - now)) ∧
  epochsUntilUnbonding (getUnbondingCompletionEpoch (Int start)) (Int start) = Int 10 ∧
  epochsUntilUnbonding (Int unbondingEpoch) (Int now)
  = Int (Z.max 0 (unbondingEpoch - now)) ∧
  (epochsUntilUnbonding (Int unbondingEpoch) (Int now) = Int 0 ↔ unbondingEpoch ≤ now) ∧
  (now < unbondingEpoch →
   add (Int now) (epochsUntilUnbonding (Int unbondingEpoch) (Int now))
   = Int unbondingEpoch) ∧
  getUnbondingCompletionEpoch (Int MAX_SAFE_INTEGER) = Int 9007199254741000 ∧
  epochsUntilUnbonding (getUnbondingCompletionEpoch (Int MAX_SAFE_INTEGER))
                       (Int MAX_SAFE_INTEGER) = Int 9.
Proof.
  intros _ _ Hu Hdone Hwait Hleft.
  assert (Huntil : ∀ u n, isSafeInteger (u - n) →
            epochsUntilUnbonding (Int u) (Int n) = Int (Z.max 0 (u - n))).
  { intros u n H. unfold epochsUntilUnbonding.
    rewrite sub_safe by exact H. cbn [gt].
    destruct (Z.gtb_spec (u - n) 0); f_equal; lia. }
  assert (Hcomplete : getUnbondingCompletionEpoch (Int start) = Int (start + 10)).
  { unfold getUnbondingCompletionEpoch. cbn [unbondingPeriod STAKING_CONFIG].
    apply add_safe. exact Hdone. }
  rewrite Hcomplete, !Huntil;
    try assumption;
    try (unfold isSafeInteger, MAX_SAFE_INTEGER in *; lia).
  split; [reflexivity|]. split; [reflexivity|].
  split; [f_equal; lia|]. split; [reflexivity|]. split.
  { split; [intros [= H]; lia | intros H; f_equal; lia]. }
  split.
  { intros Hlt. rewrite add_safe;
      [f_equal; lia | replace (now + Z.max 0 (unbondingEpoch - now)) with unbondingEpoch by lia;
                      exact Hu]. }
  split; vm_compute; reflexivity.
Qed.

Lemma quot_bounds (a b : Z) :
  0 ≤ a → 0 < b → 0 ≤ Z.quot a b ∧ b * Z.quot a b ≤ a.
Proof.
  intros Ha Hb. rewrite Z.quot_div_nonneg by lia.
  pose proof (Z.div_mod a b ltac:(lia)). pose proof (Z.mod_pos_bound a b Hb).
  split; [apply Z.div_pos; lia | lia].
Qed.

(** The delegator's share of the rewards, for amounts and a commission in
    range. *)
Lemma delegator_rewards_range
    (delegatedAmount totalValidatorStake validatorRewards commissionRate : Z) :
  0 ≤ delegatedAmount ≤ totalValidatorStake →
  0 ≤ validatorRewards →
  0 ≤ commissionRate ≤ 100 →
  0 ≤ calculateDelegatorRewards delegatedAmount totalValidatorStake
        validatorRewards commissionRate ≤ validatorRewards.
Proof.
  intros Hd Hr Hc. unfold calculateDelegatorRewards.
  destruct (Z.eqb_spec totalValidatorStake 0) as [|Ht]; [lia|].
  set (share := Z.quot (delegatedAmount * 10000) totalValidatorStake).
  destruct (quot_bounds (delegatedAmount * 10000) totalValidatorStake) as [Hs0 Hs1];
    [lia | lia |]. fold share in Hs0, Hs1.
  assert (Hs : share ≤ 10000) by nia.
  set (gross := Z.quot (validatorRewards * share) 10000).
  destruct (quot_bounds (validatorRewards * share) 10000) as [Hg0 Hg1]; [nia | lia |].
  fold gross in Hg0, Hg1.
  assert (Hg : gross ≤ validatorRewards) by nia.
  destruct (quot_bounds (gross * (commissionRate * 100)) 10000) as [Hk0 Hk1];
    [nia | lia |].
  nia.
Qed.

(** X3.  A delegator's reward is never negative and never more than the
    validator's rewards, when the stake and the rewards are not negative,
    the delegation is at most the validator's stake and the commission is
    a percentage from 0 to 100.  A delegation below one ten-thousandth of
    the stake earns nothing, a commission of 100 leaves nothing, and
    without stake the reward is 0. *)
Theorem delegator_rewards_bounds
    (delegatedAmount totalValidatorStake validatorRewards commissionRate : Z) :
  0 ≤ delegatedAmount ≤ totalValidatorStake →
  0 ≤ validatorRewards →
  0 ≤ commissionRate ≤ 100 →
  0 ≤ calculateDelegatorRewards delegatedAmount totalValidatorStake
        validatorRewards commissionRate ≤ validatorRewards ∧
  (delegatedAmount * 10000 < totalValidatorStake →
   calculateDelegatorRewards delegatedAmount totalValidatorStake
     validatorRewards commissionRate = 0) ∧
  (commissionRate = 100 →
   calculateDelegatorRewards delegatedAmount totalValidatorStake
     validatorRewards commissionRate = 0) ∧
  calculateDelegatorRewards delegatedAmount 0 validatorRewards commissionRate = 0.
Proof.
  intros Hd Hr Hc.
  split; [exact (delegator_rewards_range _ _ _ _ Hd Hr Hc)|].
  unfold calculateDelegatorRewards.
  split; [|split; [|reflexivity]].
  - intros Hsmall.
    destruct (Z.eqb_spec totalValidatorStake 0) as [|Ht]; [reflexivity|].
    rewrite (Z.quot_small (delegatedAmount * 10000) totalValidatorStake) by lia.
    rewrite Z.mul_0_r. reflexivity.
  - intros ->.
    destruct (Z.eqb_spec totalValidatorStake 0) as [|Ht]; [reflexivity|].
    change (100 * 100) with 10000. rewrite Z.quot_mul by lia. lia.
Qed.


End ValidatorProperties.

(** ** Bridge amounts and bridge status (bridgeUtils.ts, apiClient.ts) *)

Section BridgeProperties.
Import Networks BridgeUtils BridgeConfirmations ApiClient.

(** X5.  With limits passed by the caller, [validateBridgeAmount] accepts
    exactly the amounts from the minimum to the maximum of the direction
    that do not exceed the remaining daily limit, where a remaining daily
    limit of 0 counts as no limit at all.  It gives an error text exactly
    when it rejects, and below the minimum the error names the minimum even
    when the amount is also above the maximum. *)
Theorem validateBridgeAmount_accepts (amount : Z) (direction : BridgeDirection)
    (limits : BridgeLimits) :
  let min := match direction with
             | deposit => minDeposit limits | withdraw => minWithdraw limits end in
  let max := match direction with
             | deposit => maxDeposit limits | withdraw => maxWithdraw limits end in
  ∃ v,
    validateBridgeAmount amount direction (Some limits) = Done v ∧
    (isValid v = true ↔
       min ≤ amount ≤ max ∧
       match remainingDailyLimit limits with
       | Some remaining => remaining = 0 ∨ amount ≤ remaining
       | None => True
       end) ∧
    (isValid v = true ↔ error v = None) ∧
    (amount < min →
     error v = Some ("Amount below minimum: " +:+ Js.toString min)) ∧
    (min ≤ amount → max < amount →
     error v = Some ("Amount exceeds maximum: " +:+ Js.toString max)) ∧
    (min ≤ amount ≤ max → remainingDailyLimit limits = Some 0 → isValid v = true).
Proof.
  unfold validateBridgeAmount. destruct direction; simpl.
  all: match goal with
       | |- context [?a <? ?m] => destruct (Z.ltb_spec a m)
       end; simpl;
       [eexists; split; [reflexivity|]; simpl; repeat split; intros; try lia; try done|].
  all: match goal with
       | |- context [?a >? ?m] =>
           rewrite (Z.gtb_ltb a m); destruct (Z.ltb_spec m a)
       end; simpl;
       [eexists; split; [reflexivity|]; simpl; repeat split; intros; try lia; try done|].
  all: destruct (remainingDailyLimit limits) as [r|]; simpl;
       [|eexists; split; [reflexivity|]; simpl; repeat split; intros; try lia; try done].
  all: destruct (Z.eqb_spec r 0) as [->|Hr]; simpl;
       [eexists; split; [reflexivity|]; simpl; repeat split; intros;
          try lia; try done; auto|].
  all: rewrite (Z.gtb_ltb amount r); destruct (Z.ltb_spec r amount); simpl;
       eexists; (split; [reflexivity|]); simpl; repeat split; intros;
       try lia; try done; try congruence; auto.
  all: try (match goal with H : _ ∧ _ |- _ => destruct H as [_ [?|?]]; lia end).
Qed.

(** X6.  What [getBridgeStatus] returns always hangs together: [completed]
    is reported only for a deposit with at least 64 confirmations,
    [challenge] only for a withdrawal, and the required confirmations are 0
    exactly for [challenge] and 64 otherwise.  They agree with
    [getRequiredConfirmations] for every deposit and for every [challenge],
    but not for a withdrawal reported [pending] or [failed], which carries
    the 64 of deposits. *)
Theorem getBridgeStatus_report_invariants (this : BridgeClient) (txHash : string)
    (direction : BridgeDirection) (report : BridgeStatusReport) :
  getBridgeStatus this txHash direction = Done report →
  (report_status report = completed →
   direction = deposit ∧ 64 ≤ confirmations report) ∧
  (report_status report = challenge ↔
   direction = withdraw ∧ requiredConfirmations report = 0) ∧
  (report_status report ≠ challenge → requiredConfirmations report = 64) ∧
  (requiredConfirmations report = getRequiredConfirmations direction ↔
   direction = deposit ∨ report_status report = challenge).
Proof.
  unfold getBridgeStatus, getRequiredConfirmations.
  destruct (getTransactionReceipt (providerFor this direction) txHash)
    as [e|[receipt|]]; simpl; [discriminate| |].
  - destruct (getBlockNumber (providerFor this direction)) as [e|currentBlock];
      simpl; [discriminate|].
    destruct (decide (status receipt = Some 0)).
    + intros [= <-]. simpl. destruct direction; simpl;
        repeat split; intros; try done; try lia; auto.
      all: try (match goal with H : _ ∨ _ |- _ => destruct H; done end).
      all: try (match goal with H : _ ∧ _ |- _ => destruct H; done end).
    + destruct direction; simpl.
      * destruct (Z.geb_spec (currentBlock - blockNumber receipt) 64);
          intros [= <-]; simpl; repeat split; intros; try done; try lia; auto.
        all: try (match goal with H : _ ∧ _ |- _ => destruct H; done end).
      * intros [= <-]. simpl. repeat split; intros; try done; try lia; auto.
  - intros [= <-]. simpl. destruct direction; simpl;
      repeat split; intros; try done; try lia; auto.
    all: try (match goal with H : _ ∨ _ |- _ => destruct H; done end).
    all: try (match goal with H : _ ∧ _ |- _ => destruct H; done end).
Qed.

(** X7.  [getBridgeStatus] throws exactly when the receipt query throws, or
    a receipt exists and the block number query throws, and then with the
    error of that query.  Without a receipt the block number is not asked
    for: the answer is [pending] even when that query would throw. *)
Theorem getBridgeStatus_errors (this : BridgeClient) (txHash : string)
    (direction : BridgeDirection) (e : string) :
  (getBridgeStatus this txHash direction = Threw e ↔
   getTransactionReceipt (providerFor this direction) txHash = Threw e ∨
   (∃ receipt,
      getTransactionReceipt (providerFor this direction) txHash = Done (Some receipt) ∧
      getBlockNumber (providerFor this direction) = Threw e)) ∧
  (getTransactionReceipt (providerFor this direction) txHash = Done None →
   getBlockNumber (providerFor this direction) = Threw e →
   ∃ report, getBridgeStatus this txHash direction = Done report ∧
             report_status report = pending).
Proof.
  unfold getBridgeStatus.
  destruct (getTransactionReceipt (providerFor this direction) txHash)
    as [e1|[receipt|]]; simpl.
  - split; [|discriminate]. split.
    + intros [= ->]. by left.
    + intros [[= ->]|(r & Hr & _)]; [reflexivity|discriminate].
  - destruct (getBlockNumber (providerFor this direction)) as [e2|currentBlock]; simpl.
    + split; [|discriminate]. split.
      * intros [= ->]. right. eauto.
      * intros [?|(r & _ & [= ->])]; [discriminate|reflexivity].
    + split; [|discriminate]. split.
      * intros H. exfalso.
        destruct (decide (status receipt = Some 0)); [discriminate|].
        destruct (decide (direction = deposit)); [|discriminate].
        destruct (_ >=? _); discriminate.
      * intros [?|(r & _ & ?)]; discriminate.
  - split.
    + split; [discriminate|]. intros [?|(r & ? & _)]; discriminate.
    + intros _ _. eexists. split; reflexivity.
Qed.

End BridgeProperties.

(** ** Gwei, transaction cost and epoch times (unitConverter.ts) *)

Section UnitProperties.
Import Js Ethers UnitConverter UnitConverterMore.

(** X8.  Reading back in gwei what was written in gwei gives the same wei:
    [gweiToWei (weiToGwei w) = w] for a bigint and for every text that
    [getBigInt] reads, whenever the value fits the signed 512-bit format of
    the library. *)
Theorem gwei_round_trip (w : Z) (text : string) :
  - 2 ^ 511 ≤ w < 2 ^ 511 →
  getBigInt text = Done w →
  (weiToGwei (WeiBigint w) ≫= gweiToWei) = Done w ∧
  (weiToGwei (WeiString text) ≫= gweiToWei) = Done w.
Proof.
  intros Hw Htext. split.
  - apply (parseUnits_formatUnits (Js.toString w) w 9);
      [apply getBigInt_toString | lia | exact Hw].
  - apply (parseUnits_formatUnits text w 9); [exact Htext | lia | exact Hw].
Qed.

(** X9.  [estimateTransactionCost] returns exactly when the product of gas
    limit and gas price fits the signed 512-bit format, and throws
    otherwise.  When it returns, its three fields name the same amount:
    [wei] is the product, and both the OAS text and the gwei text read back
    to it. *)
Theorem estimateTransactionCost_consistent (gasLimit gasPrice : Z) :
  (- 2 ^ 511 ≤ gasLimit * gasPrice < 2 ^ 511 →
   ∃ cost,
     estimateTransactionCost gasLimit gasPrice = Done cost ∧
     cost_wei cost = gasLimit * gasPrice ∧
     oasToWei (cost_oas cost) = Done (gasLimit * gasPrice) ∧
     gweiToWei (cost_gwei cost) = Done (gasLimit * gasPrice)) ∧
  (¬ (- 2 ^ 511 ≤ gasLimit * gasPrice < 2 ^ 511) →
   ∃ e, estimateTransactionCost gasLimit gasPrice = Threw e).
Proof.
  set (w := gasLimit * gasPrice).
  assert (Hshift : Z.shiftl 1 511 = 2 ^ 511) by (rewrite Z.shiftl_1_l; reflexivity).
  split.
  - intros Hw.
    pose proof (parseUnits_formatUnits (Js.toString w) w 18
                  (getBigInt_toString w) ltac:(lia) Hw) as Hoas.
    pose proof (parseUnits_formatUnits (Js.toString w) w 9
                  (getBigInt_toString w) ltac:(lia) Hw) as Hgwei.
    unfold estimateTransactionCost, weiToOas, weiToGwei. fold w.
    cbn [wei_toString].
    destruct (formatUnits (Js.toString w) 18) as [e|oas]; [discriminate Hoas|].
    destruct (formatUnits (Js.toString w) 9) as [e|gwei]; [discriminate Hgwei|].
    eexists. split; [reflexivity|]. cbn [cost_wei cost_oas cost_gwei].
    split; [reflexivity|]. split; [exact Hoas|exact Hgwei].
  - intros Hw.
    unfold estimateTransactionCost, weiToOas, formatUnits. fold w.
    cbn [wei_toString]. rewrite getBigInt_toString. simpl.
    unfold checkValue at 1. rewrite Hshift.
    destruct (Z.leb_spec (- 2 ^ 511) w); destruct (Z.ltb_spec w (2 ^ 511));
      try (exfalso; apply Hw; split; assumption);
      eexists; reflexivity.
Qed.

End UnitProperties.

(** ** Epochs and timestamps (unitConverter.ts) *)

Section EpochTimeProperties.
Import JsNumber UnitConverterMore.

(** X10.  Epochs and timestamps convert back and forth, as long as the
    numbers are safe integers.  The start of epoch [e] is
    [genesis + e * duration], and it lies in epoch [e] for every duration
    but 0.  For a positive duration a timestamp lies in epoch
    [floor((timestamp - genesis) / duration)], that is in epoch [e] exactly
    when it is at or after the start of [e] and before the start of
    [e + 1].  Omitted arguments take 86400 seconds and genesis 0.  A
    duration of 0 gives no epoch but an infinity or [NaN].  Past the safe
    integers the round trip fails: with a duration of 3002399751580331 the
    start of epoch 3 is given epoch 2. *)
Theorem epoch_timestamp_round_trip (epoch timestamp : Z)
    (epochDuration genesisTimestamp : option Z) :
  isSafeInteger timestamp →
  isSafeInteger (default 86400 epochDuration) →
  isSafeInteger (default 0 genesisTimestamp) →
  isSafeInteger (timestamp - default 0 genesisTimestamp) →
  (default 86400 epochDuration ≠ 0 →
   isSafeInteger (epoch * default 86400 epochDuration) →
   isSafeInteger (default 0 genesisTimestamp + epoch * default 86400 epochDuration) →
   epochToTimestamp (Int epoch) (Int <$> epochDuration) (Int <$> genesisTimestamp)
   = Int (default 0 genesisTimestamp + epoch * default 86400 epochDuration) ∧
   timestampToEpoch
     (epochToTimestamp (Int epoch) (Int <$> epochDuration) (Int <$> genesisTimestamp))
     (Int <$> epochDuration) (Int <$> genesisTimestamp) = Int epoch) ∧
  (0 < default 86400 epochDuration →
   timestampToEpoch (Int timestamp) (Int <$> epochDuration) (Int <$> genesisTimestamp)
   = Int ((timestamp - default 0 genesisTimestamp) / default 86400 epochDuration) ∧
   (timestampToEpoch (Int timestamp) (Int <$> epochDuration) (Int <$> genesisTimestamp)
    = Int epoch ↔
    default 0 genesisTimestamp + epoch * default 86400 epochDuration ≤ timestamp
      < default 0 genesisTimestamp + (epoch + 1) * default 86400 epochDuration)) ∧
  timestampToEpoch (Int timestamp) (Some (Int 0)) (Int <$> genesisTimestamp)
  = (if 0 <? timestamp - default 0 genesisTimestamp then Infinity
     else if timestamp - default 0 genesisTimestamp <? 0 then NegInfinity
     else NaN) ∧
  isSafeInteger 3002399751580331 ∧
  timestampToEpoch
    (epochToTimestamp (Int 3) (Some (Int 3002399751580331)) None)
    (Some (Int 3002399751580331)) None = Int 2.
Proof.
  assert (Hd : default (Int 86400) (Int <$> epochDuration)
               = Int (default 86400 epochDuration))
    by (destruct epochDuration; reflexivity).
  assert (Hg : default (Int 0) (Int <$> genesisTimestamp)
               = Int (default 0 genesisTimestamp))
    by (destruct genesisTimestamp; reflexivity).
  unfold timestampToEpoch, epochToTimestamp. rewrite Hd, Hg.
  set (d := default 86400 epochDuration). set (g := default 0 genesisTimestamp).
  intros _ Hsd _ Hst.
  split; [|split; [|split; [|split]]].
  - intros Hd0 Hmul Hsum.
    rewrite mul_safe by exact Hmul. rewrite add_safe by exact Hsum.
    split; [reflexivity|].
    rewrite sub_safe by (replace (g + epoch * d - g) with (epoch * d) by lia; exact Hmul).
    replace (g + epoch * d - g) with (epoch * d) by lia.
    rewrite floor_div_safe by assumption.
    f_equal. apply Z.div_mul. exact Hd0.
  - intros Hpos.
    rewrite sub_safe by exact Hst.
    rewrite floor_div_safe by (try assumption; lia).
    split; [reflexivity|].
    pose proof (Z.div_mod (timestamp - g) d ltac:(lia)) as Hdm.
    pose proof (Z.mod_pos_bound (timestamp - g) d Hpos) as Hm.
    split.
    + intros [= <-]. nia.
    + intros [Hlo Hhi]. f_equal. symmetry.
      apply (Z.div_unique_pos _ _ _ (timestamp - g - epoch * d)); lia.
  - cbn [default]. rewrite sub_safe by exact Hst. reflexivity.
  - unfold isSafeInteger, MAX_SAFE_INTEGER. lia.
  - vm_compute. reflexivity.
Qed.

End EpochTimeProperties.

(** ** Chain ids, verses and gas settings (layerUtils.ts, verses.ts) *)

Section LayerProperties.
Import Js LayerUtils VerseTable LayerConfig.

Lemma own_cons {A} (k : string) (a : A) (table : list (string * A)) (key : string) :
  own ((k, a) :: table) key = if String.eqb k key then Some a else own table key.
Proof. unfold own. cbn [find fst]. destruct (String.eqb k key); reflexivity. Qed.

Lemma own_nil {A} (key : string) : own (@nil (string * A)) key = None.
Proof. reflexivity. Qed.

(** No verse of the table has a hub chain id or the chain id 0. *)
Lemma verse_chain_ids (key : string) (v : VerseConfig) :
  own VERSES key = Some v →
  chainId v ≠ 0 ∧ chainId v ≠ 248 ∧ chainId v ≠ 9372 ∧
  getVerseConfig (chainId v) = Some v.
Proof.
  unfold own, VERSES. cbn [find fst].
  repeat (destruct (String.eqb _ key); [intros [= <-]; vm_compute; repeat split; congruence|]).
  discriminate.
Qed.

Lemma getVerseConfig_found (n : Z) (v : VerseConfig) :
  getVerseConfig n = Some v →
  chainId v = n ∧ ∃ key, own VERSES key = Some v.
Proof.
  unfold getVerseConfig, VERSES. cbn [fmap list_fmap snd find].
  repeat (match goal with
          | |- context [?a =? n] =>
              destruct (Z.eqb_spec a n) as [<-|_];
              [intros [= <-]; split; [reflexivity|]|]
          end).
  9: discriminate.
  - by exists "homeVerse".
  - by exists "mchVerse".
  - by exists "tcgVerse".
  - by exists "saakuruVerse".
  - by exists "chainVerse".
  - by exists "defiVerse".
  - by exists "yooldoVerse".
  - by exists "geekVerse".
Qed.

Lemma getVerseChainId_cases (key : string) :
  (∃ v, own VERSES key = Some v ∧ getVerseChainId key = chainId v) ∨
  (own VERSES key = None ∧ getVerseChainId key = 0).
Proof.
  unfold getVerseChainId, property.
  destruct (own VERSES key) as [v|]; [left; eauto|right].
  split; [reflexivity|]. destruct (existsb _ _); reflexivity.
Qed.

(** X11.  The layer [getLayerFromChainId] gives to the chain id that
    [getChainId] resolves, when the layer is not [custom]: it is [verse]
    exactly when the layer is ['verse'] and a verse key is given, whether
    or not the key is known, and [hub] otherwise.  So the layer ['verse']
    without a verse key, like every unknown layer name, resolves to a hub
    chain (248), and an unknown verse key to chain id 0. *)
Theorem getChainId_layer (layer : string) (verseKey : option string)
    (customChainId : option Z) :
  layer ≠ "custom" →
  let keyed := String.eqb layer "verse" &&
               match verseKey with Some key => truthy_string key | None => false end in
  getLayerFromChainId (getChainId layer verseKey customChainId) =
    (if keyed then verse else hub) ∧
  (keyed = false → layer ≠ "hubTestnet" →
   getChainId layer verseKey customChainId = 248) ∧
  (∀ key, keyed = true → verseKey = Some key →
     getChainId layer verseKey customChainId = getVerseChainId key ∧
     (own VERSES key = None → getChainId layer verseKey customChainId = 0)).
Proof.
  intros Hcustom keyed.
  assert (Hnet : ∀ l, field_or (property NETWORKS l) net_chainId 248 =
                      if String.eqb "hubTestnet" l then 9372 else 248).
  { intros l. unfold property, NETWORKS. rewrite !own_cons, own_nil.
    destruct (String.eqb_spec "hub" l) as [<-|_]; [reflexivity|].
    destruct (String.eqb "hubTestnet" l); [reflexivity|].
    destruct (existsb _ _); reflexivity. }
  assert (Hverse : ∀ key, getLayerFromChainId (getVerseChainId key) = verse).
  { intros key. destruct (getVerseChainId_cases key) as [(v & Hv & ->)|[_ ->]];
      [|reflexivity].
    destruct (verse_chain_ids key v Hv) as (_ & H248 & H9372 & _).
    unfold getLayerFromChainId.
    destruct (Z.eqb_spec (chainId v) 248); [done|].
    destruct (Z.eqb_spec (chainId v) 9372); [done|]. reflexivity. }
  assert (Hhub : ∀ l, getLayerFromChainId
                        (field_or (property NETWORKS l) net_chainId 248) = hub).
  { intros l. rewrite Hnet. destruct (String.eqb "hubTestnet" l); reflexivity. }
  unfold getChainId.
  destruct (String.eqb_spec layer "custom") as [?|_]; [done|].
  subst keyed.
  destruct verseKey as [key|].
  - destruct (String.eqb layer "verse" && truthy_string key) eqn:Hk.
    + split; [apply Hverse|]. split; [discriminate|].
      intros key' _ [= <-]. split; [reflexivity|].
      intros Hown. destruct (getVerseChainId_cases key) as [(v & Hv & _)|[_ H0]];
        [congruence|exact H0].
    + split; [apply Hhub|]. split; [|discriminate].
      intros _ Ht. rewrite Hnet.
      destruct (String.eqb_spec "hubTestnet" layer); [congruence|reflexivity].
  - rewrite andb_false_r. split; [apply Hhub|]. split; [|discriminate].
    intros _ Ht. rewrite Hnet.
    destruct (String.eqb_spec "hubTestnet" layer); [congruence|reflexivity].
Qed.

(** X12.  Looking a verse up by its chain id undoes looking its chain id up
    by key: the chain ids of the table are pairwise different.  What the
    lookup by chain id finds is a verse of the table with that chain id,
    and the chain id 0 that an unknown key gets finds nothing. *)
Theorem verse_chain_id_round_trip (key : string) (n : Z) (v : VerseConfig) :
  (own VERSES key = Some v → getVerseConfig (getVerseChainId key) = Some v) ∧
  (getVerseConfig n = Some v →
   chainId v = n ∧ ∃ key', own VERSES key' = Some v ∧ getVerseChainId key' = n) ∧
  (own VERSES key = None → getVerseConfig (getVerseChainId key) = None).
Proof.
  split; [|split].
  - intros Hv. destruct (getVerseChainId_cases key) as [(v' & Hv' & ->)|[Hn _]];
      [|congruence].
    assert (v' = v) as -> by congruence.
    apply (verse_chain_ids key v Hv).
  - intros Hn. destruct (getVerseConfig_found n v Hn) as (Hc & key' & Hk).
    split; [exact Hc|]. exists key'. split; [exact Hk|].
    destruct (getVerseChainId_cases key') as [(v' & Hv' & ->)|[Hnone _]]; congruence.
  - intros Hnone. destruct (getVerseChainId_cases key) as [(v' & Hv' & _)|[_ ->]];
      [congruence|reflexivity].
Qed.

(** X13.  The gas settings of a layer.  Gas is switched off, with gas limit
    0 and no gas price, exactly for the layer ['verse'] with the key of a
    verse of the table that is gasless; otherwise the gas limit is 21000.
    The hub price of 1 gwei is given to the layers ['hub'] and
    ['hubTestnet'] only: ['hubMainnet'], which [isHubLayer] counts as a hub
    layer, gets the verse price of 0.001 gwei. *)
Theorem getGasConfig_cases (layer : string) (verseKey : option string) :
  let config := getGasConfig layer verseKey in
  useGas config = negb (isGaslessSupported layer verseKey) ∧
  (isGaslessSupported layer verseKey = true ↔
   layer = "verse" ∧ ∃ key v, verseKey = Some key ∧ own VERSES key = Some v ∧
                              isGasless v = true) ∧
  (useGas config = false → defaultGasLimit config = 0 ∧ defaultGasPrice config = None) ∧
  (useGas config = true →
   defaultGasLimit config = 21000 ∧
   defaultGasPrice config =
     Some (if decide (layer = "hub" ∨ layer = "hubTestnet") then 10 ^ 9 else 10 ^ 6)) ∧
  (isHubLayer layer = true →
   useGas config = true ∧
   (defaultGasPrice config = Some (10 ^ 9) ↔ layer ≠ "hubMainnet")).
Proof.
  assert (Hgl : isGaslessSupported layer verseKey = true ↔
                layer = "verse" ∧ ∃ key v, verseKey = Some key ∧
                  own VERSES key = Some v ∧ isGasless v = true).
  { unfold isGaslessSupported.
    destruct (String.eqb_spec layer "verse") as [->|Hl]; cbn [negb].
    - destruct verseKey as [key|]; [|split; [discriminate|intros (_ & ? & ? & ? & _); done]].
      destruct (truthy_string key) eqn:Ht.
      + unfold property. destruct (own VERSES key) as [v|] eqn:Hown; cbn [field_or].
        * split.
          -- intros Hg. split; [reflexivity|]. exists key, v. done.
          -- intros (_ & key' & v' & [= <-] & Hv & Hg). congruence.
        * split.
          -- destruct (existsb _ _); discriminate.
          -- intros (_ & key' & v' & [= <-] & Hv & _). congruence.
      + split; [discriminate|].
        intros (_ & key' & v' & [= <-] & Hv & _).
        unfold truthy_string in Ht. apply negb_false_iff, String.eqb_eq in Ht.
        subst key. discriminate.
    - split; [discriminate|]. intros [? _]. done. }
  intros config. subst config. unfold getGasConfig.
  destruct (isGaslessSupported layer verseKey) eqn:Hg.
  - cbn [useGas defaultGasLimit defaultGasPrice negb]. split; [reflexivity|]. split; [exact Hgl|].
    split; [done|]. split; [discriminate|].
    intros Hhub. exfalso. apply proj1 in Hgl. destruct (Hgl eq_refl) as [-> _].
    discriminate.
  - split.
    { destruct (_ || _); reflexivity. }
    split; [exact Hgl|].
    unfold isHubLayer.
    destruct (String.eqb_spec layer "hub") as [->|H1]; cbn [orb].
    { split; [discriminate|]. split.
      - intros _. split; [reflexivity|]. destruct (decide _) as [_|n]; [reflexivity|].
        exfalso. apply n. by left.
      - intros _. split; [reflexivity|]. split; [discriminate|reflexivity]. }
    destruct (String.eqb_spec layer "hubTestnet") as [->|H2]; cbn [orb].
    { split; [discriminate|]. split.
      - intros _. split; [reflexivity|]. destruct (decide _) as [_|n]; [reflexivity|].
        exfalso. apply n. by right.
      - intros _. split; [reflexivity|]. split; [discriminate|reflexivity]. }
    split; [discriminate|]. split.
    + intros _. split; [reflexivity|]. destruct (decide _) as [[?|?]|_]; [done..|reflexivity].
    + rewrite orb_false_r. intros Hm. apply String.eqb_eq in Hm. subst layer.
      split; [reflexivity|]. split; [discriminate|done].
Qed.

End LayerProperties.

(** ** Staking information (hubClient.ts) *)

Section StakingProperties.
Import HubStaking.

Lemma sumZ_app (xs ys : list Z) : sumZ (xs ++ ys) = sumZ xs + sumZ ys.
Proof. unfold sumZ. induction xs as [|x xs IH]; simpl; lia. Qed.

Lemma stakingLoop_invariant this address vs acc :
  stakingInvariant this address acc →
  stakingInvariant this address (stakingLoop this address vs acc) ∧
  validator <$> acc_delegations (stakingLoop this address vs acc) =
    (validator <$> acc_delegations acc) ++ filter (λ v, reported this address v = true) vs.
Proof.
  revert acc. induction vs as [|v vs IH]; intros acc Hacc; simpl.
  - split; [exact Hacc|]. rewrite filter_nil, app_nil_r. reflexivity.
  - rewrite filter_cons.
    assert (Hrep : reported this address v =
                   match getDelegation this address v, getRewards this address v with
                   | Done delegation, Done _ => delegation >? 0
                   | _, _ => false
                   end) by reflexivity.
    unfold stakingStep.
    destruct (getDelegation this address v) as [e|delegation] eqn:Hd; cbn [mbind outcome_bind obind].
    { rewrite Hrep, decide_False by discriminate. apply IH, Hacc. }
    destruct (Z.gtb_spec delegation 0) as [Hpos|Hnonpos].
    + destruct (getRewards this address v) as [e|r] eqn:Hr; cbn [mbind outcome_bind obind mret outcome_ret].
      { rewrite Hrep, decide_False by discriminate. apply IH, Hacc. }
      rewrite Hrep, decide_True by reflexivity.
      match goal with
      | |- context [stakingLoop this address vs ?a] =>
          destruct (IH a) as [Hinv Hval]
      end.
      { destruct Hacc as (Hs & Hw & Hall). unfold stakingInvariant.
        cbn [acc_delegations acc_totalStaked acc_totalRewards].
        rewrite !fmap_app, !sumZ_app. cbn [fmap list_fmap amount rewards].
        unfold sumZ at 2 4. cbn [foldr].
        split; [lia|]. split; [lia|].
        apply Forall_app. split; [exact Hall|].
        constructor; [|constructor]. cbn [amount validator rewards].
        split; [lia|]. split; assumption. }
      split; [exact Hinv|]. rewrite Hval. cbn [acc_delegations].
      rewrite fmap_app, <- app_assoc. reflexivity.
    + cbn [mret outcome_ret]. rewrite Hrep. 
      destruct (getRewards this address v);
        rewrite decide_False by discriminate; apply IH, Hacc.
Qed.

(** X14.  The totals of [getStakingInfo] are the sums over the delegations
    it lists: [totalStaked] of their amounts and [totalRewards] of their
    rewards, [validators] names the same validators in the same order, and
    every listed delegation has a positive amount, which is what the
    contract gave for that validator.  This holds also when the queries of
    some validators threw. *)
Theorem getStakingInfo_totals (this : HubClient) (address : string)
    (info : StakingInfo) :
  getStakingInfo this address = Done info →
  totalStaked info = sumZ (amount <$> delegations info) ∧
  totalRewards info = sumZ (rewards <$> delegations info) ∧
  validators info = validator <$> delegations info ∧
  Forall (λ d, 0 < amount d ∧
               getDelegation this address (validator d) = Done (amount d) ∧
               getRewards this address (validator d) = Done (rewards d))
         (delegations info) ∧
  (0 ≤ totalStaked info ∧ (totalStaked info = 0 ↔ delegations info = [])).
Proof.
  unfold getStakingInfo.
  destruct (stakeManager this) as [sm|] eqn:Hsm; [|discriminate].
  destruct (getValidators this) as [e|vs]; cbn [mbind outcome_bind obind mret outcome_ret]; [discriminate|].
  intros [= <-]. cbn [totalStaked totalRewards validators delegations].
  destruct (stakingLoop_invariant this address vs
              {| acc_delegations := []; acc_totalStaked := 0; acc_totalRewards := 0 |})
    as [(Hs & Hr & Hall) _].
  { unfold stakingInvariant. simpl. repeat split; constructor. }
  split; [exact Hs|]. split; [exact Hr|]. split; [reflexivity|]. split; [exact Hall|].
  rewrite Hs.
  assert (Hpos : Forall (λ d, 0 < amount d)
                   (acc_delegations (stakingLoop this address vs
                      {| acc_delegations := []; acc_totalStaked := 0;
                         acc_totalRewards := 0 |}))).
  { eapply Forall_impl; [exact Hall|]. intros d (H & _). exact H. }
  clear Hs Hr Hall.
  induction Hpos as [|d ds Hd Hds IH].
  - unfold sumZ. simpl. split; [lia|]. split; reflexivity.
  - assert (Hnn : 0 ≤ sumZ (amount <$> ds)) by apply IH.
    unfold sumZ in *. cbn [fmap list_fmap foldr]. change (foldr Z.add 0 (list_fmap _ _ amount ds)) with (foldr Z.add 0 (amount <$> ds)).
    split; [lia|]. split; [lia|discriminate].
Qed.

(** X15.  No validator makes [getStakingInfo] throw.  It throws exactly when
    the stake manager is missing or the list of validators cannot be read;
    otherwise it returns, and the validators it lists are those of the
    contract's list, in that order, whose delegation is read and positive
    and whose rewards are read.  A validator whose query throws is left out
    without a trace. *)
Theorem getStakingInfo_skips (this : HubClient) (address : string) :
  match getValidators this with
  | Threw e => getStakingInfo this address = Threw e
  | Done vs =>
      ∃ info, getStakingInfo this address = Done info ∧
              validators info = filter (λ v, reported this address v = true) vs
  end.
Proof.
  unfold getStakingInfo, getValidators.
  destruct (stakeManager this) as [sm|] eqn:Hsm; [|reflexivity].
  destruct (sm_getValidators sm) as [e|vs]; simpl; [reflexivity|].
  eexists. split; [reflexivity|]. simpl.
  destruct (stakingLoop_invariant this address vs
              {| acc_delegations := []; acc_totalStaked := 0; acc_totalRewards := 0 |})
    as [_ Hval].
  { unfold stakingInvariant. simpl. repeat split; constructor. }
  exact Hval.
Qed.

End StakingProperties.

(** ** Bridge transfers (apiClient.ts, Oasys.node.ts) *)

Section TransferProperties.
Import Js Networks BridgeUtils UnitConverter BridgeTransfer BridgeOperations.

(** [validateBridgeAmount] with the default limits, for both directions. *)
Lemma validateBridgeAmount_default (amount : Z) (direction : BridgeDirection) :
  validateBridgeAmount amount direction None =
    Done (if amount <? 10 ^ 15 then
            {| isValid := false;
               error := Some "Amount below minimum: 1000000000000000" |}
          else if amount >? 10 ^ 23 then
            {| isValid := false;
               error := Some "Amount exceeds maximum: 100000000000000000000000" |}
          else {| isValid := true; error := None |}).
Proof.
  assert (Hdef : validateBridgeAmount amount direction None =
                 validateBridgeAmount amount direction
                   (Some {| minDeposit := 1000000000000000;
                            maxDeposit := 100000000000000000000000;
                            minWithdraw := 1000000000000000;
                            maxWithdraw := 100000000000000000000000;
                            dailyLimit := None; remainingDailyLimit := None |})).
  { unfold validateBridgeAmount. rewrite getDefaultBridgeLimits_value. reflexivity. }
  rewrite Hdef.
  pose proof (validateBridgeAmount_limits amount direction
    {| minDeposit := 1000000000000000;
       maxDeposit := 100000000000000000000000;
       minWithdraw := 1000000000000000;
       maxWithdraw := 100000000000000000000000;
       dailyLimit := None; remainingDailyLimit := None |}) as (Hlo & Hhi & Hin).
  change (10 ^ 15) with 1000000000000000.
  change (10 ^ 23) with 100000000000000000000000.
  destruct (Z.ltb_spec amount 1000000000000000) as [Ha|Ha].
  - rewrite Hlo by (destruct direction; exact Ha). destruct direction; reflexivity.
  - rewrite Z.gtb_ltb.
    destruct (Z.ltb_spec 100000000000000000000000 amount) as [Hb|Hb].
    + rewrite Hhi by (destruct direction; assumption). destruct direction; reflexivity.
    + rewrite Hin by (destruct direction; first [assumption | reflexivity]).
      reflexivity.
Qed.

Lemma deposit_limits :
  BigInt (Networks.minDeposit BRIDGE_CONFIG) = Done (10 ^ 15) ∧
  BigInt (Networks.maxDeposit BRIDGE_CONFIG) = Done (10 ^ 23).
Proof. split; vm_compute; reflexivity. Qed.

(** [depositOas] with an amount in the range and without [toAddress] and
    options. *)
Lemma depositOas_plain (this : BridgeClient) (amount : Z) :
  depositOas this amount None None =
    match hubWallet this, l1Bridge this with
    | Some _, Some bridge =>
        if amount <? 10 ^ 15 then
          Threw "Amount below minimum deposit: 1000000000000000"
        else if amount >? 10 ^ 23 then
          Threw "Amount exceeds maximum deposit: 100000000000000000000000"
        else bridge (depositETH 200000 "0x"
                       {| value := Some amount; gasLimit := Some 250000;
                          gasPrice := None |})
    | _, _ => Threw "Wallet not configured - private key required"
    end.
Proof.
  unfold depositOas. destruct deposit_limits as [-> ->].
  destruct (hubWallet this) as [wallet|]; [|reflexivity].
  destruct (l1Bridge this) as [bridge|]; [|reflexivity].
  cbn [mbind outcome_bind obind].
  destruct (amount <? 10 ^ 15); [reflexivity|].
  destruct (amount >? 10 ^ 23); reflexivity.
Qed.

(** X16.  The deposit operation of the bridge resource sends a transaction
    exactly when the amount text reads as a number of wei from 10^15 to
    10^23 (0.001 to 100,000 OAS) and the client has a hub wallet and an L1
    bridge; the call is then [depositETH] with minimum gas limit 200000,
    no extra data, the amount as value and gas limit 250000, and the
    result carries the hash of that call.  An amount outside the range is
    refused before the client is asked: the error is the same for every
    client.  [depositOas] itself never lets an amount outside the range
    through, whatever address and options it is given. *)
Theorem deposit_operation_sends (bridgeClient : BridgeClient) (verseKey amount : string)
    (result : TransferResult) :
  (depositOperation bridgeClient verseKey amount = Done result ↔
   ∃ w wallet bridge tx,
     oasToWei amount = Done w ∧ 10 ^ 15 ≤ w ≤ 10 ^ 23 ∧
     hubWallet bridgeClient = Some wallet ∧ l1Bridge bridgeClient = Some bridge ∧
     bridge (depositETH 200000 "0x"
               {| value := Some w; gasLimit := Some 250000; gasPrice := None |})
       = Done tx ∧
     result = {| txHash := tx_hash tx; result_amount := amount;
                 result_direction := "Hub → Verse"; result_verse := verseKey;
                 estimatedTime := "~15 minutes" |}) ∧
  (∀ w, oasToWei amount = Done w → ¬ (10 ^ 15 ≤ w ≤ 10 ^ 23) →
     ∃ e, ∀ other, depositOperation other verseKey amount = Threw e) ∧
  (∀ a toAddress options tx,
     depositOas bridgeClient a toAddress options = Done tx → 10 ^ 15 ≤ a ≤ 10 ^ 23).
Proof.
  split; [|split].
  - unfold depositOperation.
    destruct (oasToWei amount) as [e|w]; cbn [mbind outcome_bind obind].
    { split; [discriminate|]. intros (? & ? & ? & ? & ? & _). discriminate. }
    rewrite validateBridgeAmount_default. cbn [mbind outcome_bind obind].
    unfold requireValid.
    destruct (Z.ltb_spec w (10 ^ 15)) as [Hlo|Hlo]; cbn [isValid error default].
    { split; [discriminate|]. intros (w' & ? & ? & ? & [= <-] & Hr & _). lia. }
    rewrite Z.gtb_ltb.
    destruct (Z.ltb_spec (10 ^ 23) w) as [Hhi|Hhi]; cbn [isValid error default].
    { split; [discriminate|]. intros (w' & ? & ? & ? & [= <-] & Hr & _). lia. }
    cbn [mbind outcome_bind obind mret outcome_ret].
    rewrite depositOas_plain.
    destruct (Z.ltb_spec w (10 ^ 15)) as [?|_]; [lia|].
    rewrite Z.gtb_ltb. destruct (Z.ltb_spec (10 ^ 23) w) as [?|_]; [lia|].
    destruct (hubWallet bridgeClient) as [wallet|].
    2: { split; [discriminate|]. intros (? & ? & ? & ? & _ & _ & ? & _). discriminate. }
    destruct (l1Bridge bridgeClient) as [bridge|].
    2: { split; [discriminate|]. intros (? & ? & ? & ? & _ & _ & _ & ? & _). discriminate. }
    split.
    + destruct (bridge _) as [e|tx] eqn:Hcall; [discriminate|].
      intros [= <-]. exists w, wallet, bridge, tx. repeat split; try lia; assumption.
    + intros (w' & wallet' & bridge' & tx & [= <-] & _ & [= <-] & [= <-] & Hcall & ->).
      rewrite Hcall. reflexivity.
  - intros w Hw Hout. unfold depositOperation. rewrite Hw.
    cbn [mbind outcome_bind obind]. rewrite validateBridgeAmount_default.
    cbn [mbind outcome_bind obind]. unfold requireValid.
    destruct (Z.ltb_spec w (10 ^ 15)) as [Hlo|Hlo]; cbn [isValid error default].
    { eexists. intros other. reflexivity. }
    rewrite Z.gtb_ltb.
    destruct (Z.ltb_spec (10 ^ 23) w) as [Hhi|Hhi]; cbn [isValid error default].
    { eexists. intros other. reflexivity. }
    lia.
  - intros a toAddress options tx. unfold depositOas.
    destruct deposit_limits as [-> ->].
    destruct (hubWallet bridgeClient) as [wallet|]; [|discriminate].
    destruct (l1Bridge bridgeClient) as [bridge|]; [|discriminate].
    cbn [mbind outcome_bind obind].
    destruct (Z.ltb_spec a (10 ^ 15)) as [?|Hlo]; [discriminate|].
    rewrite Z.gtb_ltb.
    destruct (Z.ltb_spec (10 ^ 23) a) as [?|Hhi]; [discriminate|].
    intros _. lia.
Qed.

(** X17.  The withdraw operation sends a transaction exactly when the
    amount text reads as a number of wei from 10^15 to 10^23 and the client
    has a verse wallet and an L2 bridge; the call is then [withdraw] of the
    zero token address with the amount both as argument and as value,
    minimum gas limit 200000 and no gas limit of its own.  The check of the
    operation is the only one: [withdrawOas] passes every amount on,
    also 0, a negative one and one above the maximum. *)
Theorem withdraw_operation_sends (bridgeClient : BridgeClient) (verseKey amount : string)
    (result : TransferResult) :
  (withdrawOperation bridgeClient verseKey amount = Done result ↔
   ∃ w wallet bridge tx,
     oasToWei amount = Done w ∧ 10 ^ 15 ≤ w ≤ 10 ^ 23 ∧
     verseWallet bridgeClient = Some wallet ∧ l2Bridge bridgeClient = Some bridge ∧
     bridge (BridgeTransfer.withdraw "0x0000000000000000000000000000000000000000" w
               200000 "0x"
               {| value := Some w; gasLimit := None; gasPrice := None |})
       = Done tx ∧
     result = {| txHash := tx_hash tx; result_amount := amount;
                 result_direction := "Verse → Hub"; result_verse := verseKey;
                 estimatedTime := "~7 days (challenge period)" |}) ∧
  (∀ a wallet bridge,
     verseWallet bridgeClient = Some wallet → l2Bridge bridgeClient = Some bridge →
     withdrawOas bridgeClient a None None =
       bridge (BridgeTransfer.withdraw "0x0000000000000000000000000000000000000000" a
                 200000 "0x"
                 {| value := Some a; gasLimit := None; gasPrice := None |})).
Proof.
  assert (Hplain : ∀ a wallet bridge,
     verseWallet bridgeClient = Some wallet → l2Bridge bridgeClient = Some bridge →
     withdrawOas bridgeClient a None None =
       bridge (BridgeTransfer.withdraw "0x0000000000000000000000000000000000000000" a
                 200000 "0x"
                 {| value := Some a; gasLimit := None; gasPrice := None |})).
  { intros a wallet bridge Hw Hb. unfold withdrawOas. rewrite Hw, Hb. reflexivity. }
  split; [|exact Hplain].
  unfold withdrawOperation.
  destruct (oasToWei amount) as [e|w]; cbn [mbind outcome_bind obind].
  { split; [discriminate|]. intros (? & ? & ? & ? & ? & _). discriminate. }
  rewrite validateBridgeAmount_default. cbn [mbind outcome_bind obind].
  unfold requireValid.
  destruct (Z.ltb_spec w (10 ^ 15)) as [Hlo|Hlo]; cbn [isValid error default].
  { split; [discriminate|]. intros (w' & ? & ? & ? & [= <-] & Hr & _). lia. }
  rewrite Z.gtb_ltb.
  destruct (Z.ltb_spec (10 ^ 23) w) as [Hhi|Hhi]; cbn [isValid error default].
  { split; [discriminate|]. intros (w' & ? & ? & ? & [= <-] & Hr & _). lia. }
  cbn [mbind outcome_bind obind mret outcome_ret].
  destruct (verseWallet bridgeClient) as [wallet|] eqn:Hwallet.
  2: { unfold withdrawOas. rewrite Hwallet. split; [discriminate|].
       intros (? & ? & ? & ? & _ & _ & ? & _). discriminate. }
  destruct (l2Bridge bridgeClient) as [bridge|] eqn:Hbridge.
  2: { unfold withdrawOas. rewrite Hwallet, Hbridge. split; [discriminate|].
       intros (? & ? & ? & ? & _ & _ & _ & ? & _). discriminate. }
  rewrite (Hplain w wallet bridge eq_refl eq_refl).
  split.
  - destruct (bridge _) as [e|tx] eqn:Hcall; [discriminate|].
    intros [= <-]. exists w, wallet, bridge, tx. repeat split; try lia; assumption.
  - intros (w' & wallet' & bridge' & tx & [= <-] & _ & [= <-] & [= <-] & Hcall & ->).
    rewrite Hcall. reflexivity.
Qed.

End TransferProperties.

(** ** The client factories (apiClient.ts, hubClient.ts) *)

Section FactoryProperties.
Import Js LayerUtils VerseTable LayerConfig Factories.

(** X18.  [createBridgeClient] throws exactly for a verse key that is
    neither a key of [VERSES] nor a name inherited from [Object.prototype],
    and then names the key.  The hub RPC URL of the client is the mainnet
    URL unless the layer is ['custom'] and a custom URL is given: for the
    layer ['hubTestnet'] too the bridge client talks to the mainnet hub.
    The verse RPC URL is that of the verse of the table. *)
Theorem createBridgeClient_network (hubCredentials : BridgeCredentials)
    (verseKey' : string) :
  (∀ e, createBridgeClient hubCredentials verseKey' = Threw e ↔
        own VERSES verseKey' = None ∧
        existsb (String.eqb verseKey') objectPrototypeNames = false ∧
        e = "Verse not found: " +:+ verseKey') ∧
  (∀ config, createBridgeClient hubCredentials verseKey' = Done config →
     hubRpcUrl config =
       (if decide (bridge_layer hubCredentials = "custom")
        then default "https://rpc.mainnet.oasys.games" (bridge_customRpcUrl hubCredentials)
        else "https://rpc.mainnet.oasys.games") ∧
     verseRpcUrl config = rpcUrl <$> own VERSES verseKey' ∧
     verseKey config = verseKey' ∧
     bridge_config_privateKey config = bridge_privateKey hubCredentials).
Proof.
  unfold createBridgeClient, property.
  destruct (own VERSES verseKey') as [v|] eqn:Hown.
  - split.
    + intros e. split; [discriminate|]. intros (? & _). discriminate.
    + intros config [= <-]. cbn [hubRpcUrl verseRpcUrl verseKey bridge_config_privateKey].
      split; [|done].
      destruct (String.eqb_spec (bridge_layer hubCredentials) "hub") as [Hh|_].
      { rewrite decide_False by (rewrite Hh; discriminate). reflexivity. }
      destruct (String.eqb_spec (bridge_layer hubCredentials) "custom") as [Hc|Hc].
      { rewrite decide_True by exact Hc. reflexivity. }
      rewrite decide_False by exact Hc. reflexivity.
  - destruct (existsb (String.eqb verseKey') objectPrototypeNames) eqn:Hproto.
    + split.
      * intros e. split; [discriminate|]. intros (_ & ? & _). discriminate.
      * intros config [= <-].
        cbn [hubRpcUrl verseRpcUrl verseKey bridge_config_privateKey].
        split; [|done].
        destruct (String.eqb_spec (bridge_layer hubCredentials) "hub") as [Hh|_].
        { rewrite decide_False by (rewrite Hh; discriminate). reflexivity. }
        destruct (String.eqb_spec (bridge_layer hubCredentials) "custom") as [Hc|Hc].
        { rewrite decide_True by exact Hc. reflexivity. }
        rewrite decide_False by exact Hc. reflexivity.
    + split.
      * intros e. split.
        -- intros [= <-]. done.
        -- intros (_ & _ & ->). reflexivity.
      * discriminate.
Qed.

(** X19.  The chain a hub client is made for.  [layer] decides before
    [network], and ['mainnet'] is taken when both are missing.  Unless the
    name is ['custom'], the client gets the testnet (chain id 9372 with the
    testnet URL) for the names ['hubTestnet'] and ['testnet'], and the
    mainnet (248 with the mainnet URL) for every other name, known or not;
    both are chains that [getLayerFromChainId] counts as hub.  The chain id
    is the one [getChainId] of the layer utilities resolves for the same
    name, except for ['testnet'], which [getChainId] resolves to 248. *)
Theorem createHubClient_network (credentials : HubCredentials) :
  let name := layerOrNetwork credentials in
  let config := createHubClient credentials in
  (∀ l, layer credentials = Some l → name = l) ∧
  (layer credentials = None → network credentials = None → name = "mainnet") ∧
  (name ≠ "custom" →
   (if decide (name = "hubTestnet" ∨ name = "testnet")
    then config_chainId config = 9372 ∧
         config_rpcUrl config = "https://rpc.testnet.oasys.games"
    else config_chainId config = 248 ∧
         config_rpcUrl config = "https://rpc.mainnet.oasys.games") ∧
   getLayerFromChainId (config_chainId config) = hub) ∧
  (name ≠ "testnet" →
   config_chainId config = getChainId name None (customChainId credentials)) ∧
  config_privateKey config = privateKey credentials.
Proof.
  intros name config. subst config. unfold createHubClient. fold name.
  split; [|split; [|split; [|split]]].
  - intros l Hl. subst name. unfold layerOrNetwork. rewrite Hl. reflexivity.
  - intros Hl Hn. subst name. unfold layerOrNetwork. rewrite Hl, Hn. reflexivity.
  - intros Hcustom.
    destruct (String.eqb_spec name "hub") as [->|H1]; cbn [orb].
    { rewrite decide_False by (intros [?|?]; discriminate). done. }
    destruct (String.eqb_spec name "hubMainnet") as [->|H2]; cbn [orb].
    { rewrite decide_False by (intros [?|?]; discriminate). done. }
    destruct (String.eqb_spec name "mainnet") as [->|H3]; cbn [orb].
    { rewrite decide_False by (intros [?|?]; discriminate). done. }
    destruct (String.eqb_spec name "hubTestnet") as [->|H4]; cbn [orb].
    { rewrite decide_True by (by left). done. }
    destruct (String.eqb_spec name "testnet") as [->|H5]; cbn [orb].
    { rewrite decide_True by (by right). done. }
    destruct (String.eqb_spec name "custom") as [?|_]; [done|].
    rewrite decide_False by (intros [?|?]; done). done.
  - intros Htest. unfold getChainId, property, NETWORKS.
    rewrite !own_cons, own_nil.
    destruct (String.eqb_spec name "hub") as [->|H1]; cbn [orb].
    { reflexivity. }
    rewrite (proj2 (String.eqb_neq "hub" name)) by congruence.
    destruct (String.eqb_spec name "hubMainnet") as [->|H2]; cbn [orb].
    { reflexivity. }
    destruct (String.eqb_spec name "mainnet") as [->|H3]; cbn [orb].
    { reflexivity. }
    destruct (String.eqb_spec name "hubTestnet") as [->|H4]; cbn [orb].
    { reflexivity. }
    rewrite (proj2 (String.eqb_neq "hubTestnet" name)) by congruence.
    destruct (String.eqb_spec name "testnet") as [?|_]; [done|]. cbn [orb].
    destruct (String.eqb_spec name "custom") as [->|H6].
    { reflexivity. }
    cbn [config_chainId]. destruct (existsb _ _); reflexivity.
  - destruct (_ || _ || _); [reflexivity|].
    destruct (_ || _); [reflexivity|]. destruct (_ =? _)%string; reflexivity.
Qed.

End FactoryProperties.

(** ** The polling trigger: contract events, repeated polls, and events that
    are not compared with anything *)

Section PollMore.
Import Trigger Scenarios TriggerScenarios.

Lemma for_each_push {A} (record : A → INodeExecutionData) (xs : list A) (s : PollState) :
  for_each xs (λ x, push (record x)) s =
    (Done tt, {| results := results s ++ map record xs;
                 workflowStaticData := workflowStaticData s;
                 console := console s |}).
Proof.
  revert s. induction xs as [|x xs IH]; intros s; simpl.
  - rewrite app_nil_r. destruct s; reflexivity.
  - rewrite bind_run. unfold push at 1. rewrite IH. simpl.
    rewrite <- app_assoc. reflexivity.
Qed.

(** Runs the binds at the head of a goal [m s = _] as far as they are
    decided. *)
Ltac run_binds :=
  repeat first [ rewrite bind_run
               | progress cbv beta iota
               | progress unfold mret, M_ret, await ].

(** X20.  A poll of the contract category on the hub layer, with a contract
    address and an event name, when the hub is above the stored cursor: the
    events are asked for from the block after the cursor up to the current
    block, each event found becomes one record, in the order of the answer,
    and the cursor moves to the current block.  When reading the ABI or the
    query throws, nothing is logged and the cursor moves all the same: the
    poll returns [null], and the next poll asks from the block after the
    current one on. *)
Theorem contract_poll_advances (ctx : PollContext) (s : PollState)
    (event contractAddress eventName : string) (credentials : Credentials)
    (hubClient : HubClient) (C : Z) :
  nodeParameter ctx "category" = ParamSet "contract" →
  nodeParameter ctx "event" = ParamSet event →
  getCredentials ctx "oasysNetwork" = Done credentials →
  (nodeParameter ctx "layer" = ParamSet "hub" ∨ nodeParameter ctx "layer" = ParamUnset) →
  nodeParameter ctx "contractAddress" = ParamSet contractAddress →
  nodeParameter ctx "eventName" = ParamSet eventName →
  contractAddress ≠ "" → eventName ≠ "" →
  createHubClient ctx (hubLayerArgument (cred_layer credentials))
                  (cred_privateKey credentials) = Done hubClient →
  hub_getBlockNumber hubClient = Done C →
  cursor s (stateKeyOf "contract" event) < C →
  let key := stateKeyOf "contract" event in
  let query : outcome (list Json) :=
    match nodeParameter ctx "abi" with
    | ParamThrows e => Threw e
    | parameter =>
        abi ← JSON_parse ctx (match parameter with ParamSet text => text | _ => "[]" end);
        hub_getContractEvents hubClient contractAddress abi eventName
                              (cursor s key + 1) C
    end in
  let records := match query with
                 | Done events => map (contractRecord contractAddress eventName) events
                 | Threw _ => []
                 end in
  poll ctx s =
    (Done (if (length records =? 0)%nat then None else Some [records]),
     {| results := records;
        workflowStaticData := <[key := C]> (workflowStaticData s);
        console := console s |}).
Proof.
  intros Hc He Hcr Hlayer Haddr Hname Haddr_ne Hname_ne Hcl Hbn HL key query records.
  assert (HgtC : (C >? cursor s key) = true)
    by (rewrite Z.gtb_ltb; apply Z.ltb_lt; exact HL).
  set (s0 := {| results := []; workflowStaticData := workflowStaticData s;
                console := console s |}).
  assert (Hta : truthy_string contractAddress = true).
  { unfold truthy_string. apply negb_true_iff, String.eqb_neq. exact Haddr_ne. }
  assert (Htn : truthy_string eventName = true).
  { unfold truthy_string. apply negb_true_iff, String.eqb_neq. exact Hname_ne. }
  assert (Hlayer' : ∀ B (k : string → M B) st,
            (getNodeParameter ctx "layer" (Some "hub") ≫= k) st = k "hub" st).
  { intros B k st. unfold getNodeParameter.
    destruct Hlayer as [-> | ->]; reflexivity. }
  assert (Hwork : pollWork ctx "contract" event credentials (cursor s key) s0 =
                  (Done C, {| results := records;
                              workflowStaticData := workflowStaticData s;
                              console := console s |})).
  { unfold pollWork, walletOnLayer.
    change (String.eqb "contract" "hub") with false.
    change (String.eqb "contract" "wallet") with false.
    change (String.eqb "contract" "staking") with false.
    change (String.eqb "contract" "verse") with false.
    change (String.eqb "contract" "bridge") with false.
    change (String.eqb "contract" "nft") with false.
    change (String.eqb "contract" "contract") with true.
    cbv iota. run_binds.
    unfold contractBranch. rewrite Hlayer'.
    rewrite (bind_param_run _ _ _ _ _ _ Haddr), (bind_param_run _ _ _ _ _ _ Hname).
    change (String.eqb "hub" "hub") with true. cbv iota.
    rewrite (bind_await_run _ _ _ _ Hcl), (bind_await_run _ _ _ _ Hbn).
    rewrite Hta, Htn, HgtC. cbn [andb].
    rewrite bind_run. unfold try_catch. rewrite bind_run.
    subst records query. unfold getNodeParameter.
    destruct (nodeParameter ctx "abi") as [e| |text]; [reflexivity| |].
    - unfold mret at 1, M_ret at 1. cbv beta iota. rewrite bind_run. unfold await at 1.
      cbv beta iota.
      destruct (JSON_parse ctx "[]") as [e|abi]; [reflexivity|].
      cbn [mbind outcome_bind obind]. rewrite bind_run. unfold await at 1.
      destruct (hub_getContractEvents _ _ _ _ _ _) as [e|events]; [reflexivity|].
      cbv beta iota.
      change (λ evt : Json, push _) with
        (λ evt : Json, push (contractRecord contractAddress eventName evt)).
      rewrite for_each_push. reflexivity.
    - unfold mret at 1, M_ret at 1. cbv beta iota. rewrite bind_run. unfold await at 1.
      cbv beta iota.
      destruct (JSON_parse ctx text) as [e|abi]; [reflexivity|].
      cbn [mbind outcome_bind obind]. rewrite bind_run. unfold await at 1.
      destruct (hub_getContractEvents _ _ _ _ _ _) as [e|events]; [reflexivity|].
      cbv beta iota.
      change (λ evt : Json, push _) with
        (λ evt : Json, push (contractRecord contractAddress eventName evt)).
      rewrite for_each_push. reflexivity. }
  rewrite (poll_run ctx s _ _ _ Hc He Hcr). fold key. fold s0.
  unfold try_catch, pollBody. rewrite bind_run, Hwork, HgtC.
  reflexivity.
Qed.

Lemma readsResultsOnly_ret {A} (a : A) : readsResultsOnly (mret a : M A).
Proof. intros s s' Hr. split; [reflexivity|exact Hr]. Qed.

Lemma readsResultsOnly_bind {A B} (m : M A) (k : A → M B) :
  readsResultsOnly m → (∀ a, readsResultsOnly (k a)) → readsResultsOnly (m ≫= k).
Proof.
  intros Hm Hk s s' Hr. unfold mbind, M_bind.
  destruct (Hm s s' Hr) as [Hf Hres].
  destruct (m s) as [[e|a] s1], (m s') as [[e'|a'] s1']; simpl in *;
    try discriminate.
  - injection Hf as <-. split; [reflexivity|exact Hres].
  - injection Hf as <-. apply Hk. exact Hres.
Qed.

Lemma readsResultsOnly_throw {A} e : readsResultsOnly (throw e : M A).
Proof. intros s s' Hr. split; [reflexivity|exact Hr]. Qed.

Lemma readsResultsOnly_await {A} (call : outcome A) : readsResultsOnly (await call).
Proof. intros s s' Hr. split; [reflexivity|exact Hr]. Qed.

Lemma readsResultsOnly_push item : readsResultsOnly (push item).
Proof. intros s s' Hr. split; [reflexivity|]. simpl. rewrite Hr. reflexivity. Qed.

Lemma readsResultsOnly_try_catch body handler :
  readsResultsOnly body → (∀ e, readsResultsOnly (handler e)) →
  readsResultsOnly (try_catch body handler).
Proof.
  intros Hb Hh s s' Hr. unfold try_catch.
  destruct (Hb s s' Hr) as [Hf Hres].
  destruct (body s) as [[e|a] s1], (body s') as [[e'|a'] s1']; simpl in *;
    try discriminate.
  - injection Hf as <-. apply Hh. exact Hres.
  - split; [exact Hf|exact Hres].
Qed.

Lemma readsResultsOnly_getNodeParameter ctx name fallback :
  readsResultsOnly (getNodeParameter ctx name fallback).
Proof.
  unfold getNodeParameter.
  destruct (nodeParameter ctx name);
    [apply readsResultsOnly_throw| |apply readsResultsOnly_ret].
  destruct fallback; [apply readsResultsOnly_ret | apply readsResultsOnly_throw].
Qed.

Lemma readsResultsOnly_for_each {A} (xs : list A) body :
  (∀ x, readsResultsOnly (body x)) → readsResultsOnly (for_each xs body).
Proof.
  intros Hb. induction xs as [|x xs IH]; simpl.
  - apply readsResultsOnly_ret.
  - apply readsResultsOnly_bind; [apply Hb | intros _; exact IH].
Qed.

Create HintDb reads.
#[local] Hint Resolve readsResultsOnly_ret readsResultsOnly_throw
  readsResultsOnly_await readsResultsOnly_push
  readsResultsOnly_getNodeParameter : reads.

(** Splits a statement along its binds, conditionals and loops until the
    primitive statements remain. *)
Ltac reads :=
  repeat first
    [ progress intros
    | solve [auto with reads]
    | apply readsResultsOnly_bind
    | apply readsResultsOnly_try_catch
    | apply readsResultsOnly_for_each
    | match goal with
      | |- readsResultsOnly (if ?b then _ else _) => destruct b
      | |- readsResultsOnly (match ?x with _ => _ end) => destruct x
      end ].

(** The dispatch of [poll] reads neither the stored data nor the console. *)
Lemma readsResultsOnly_pollWork ctx category event credentials lastProcessedBlock :
  readsResultsOnly (pollWork ctx category event credentials lastProcessedBlock).
Proof.
  unfold pollWork, walletOnLayer, hubBranch, verseBranch, bridgeBranch, nftBranch,
    contractBranch, replayBlocks.
  reads.
Qed.

(** Apart from the [newBlock] event and the contract category, the dispatch
    makes no use of the stored cursor. *)
Lemma pollWork_ignores_cursor ctx category event credentials (L L' : Z) :
  category ≠ "contract" → event ≠ "newBlock" →
  pollWork ctx category event credentials L =
  pollWork ctx category event credentials L'.
Proof.
  intros Hc He. unfold pollWork, hubBranch, verseBranch.
  rewrite (proj2 (String.eqb_neq event "newBlock") He).
  rewrite (proj2 (String.eqb_neq category "contract") Hc).
  reflexivity.
Qed.

(** The records a poll ends with are those of the dispatch, whether it
    threw or not. *)
Lemma poll_results_of_work ctx category event key credentials L s0 :
  results (snd (try_catch (pollBody ctx category event key credentials L)
                  (λ error, console_error "Oasys Trigger polling error:" error) s0)) =
  results (snd (pollWork ctx category event credentials L s0)).
Proof.
  unfold try_catch, pollBody. rewrite bind_run.
  destruct (pollWork ctx category event credentials L s0) as [[e|c] s1];
    [reflexivity|].
  destruct (c >? L); reflexivity.
Qed.

(** X21.  For every event but [newBlock], in every category but
    [contract], what a poll returns does not depend on the state earlier
    polls left: the stored cursor is not consulted and nothing is compared
    with an earlier answer.  So the events [epochChanged], [statusChanged],
    the wallet, staking, bridge and NFT events are reported at every poll
    whose calls succeed, whether or not anything changed. *)
Theorem poll_ignores_stored_state (ctx : PollContext) (s s' : PollState) :
  nodeParameter ctx "category" ≠ ParamSet "contract" →
  nodeParameter ctx "event" ≠ ParamSet "newBlock" →
  fst (poll ctx s) = fst (poll ctx s').
Proof.
  intros Hcat Hev.
  destruct (nodeParameter ctx "category") as [e| |category] eqn:Hc;
    [unfold poll, getNodeParameter; rewrite Hc; reflexivity..|].
  destruct (nodeParameter ctx "event") as [e| |event] eqn:He;
    [unfold poll, getNodeParameter; rewrite Hc, He; reflexivity..|].
  destruct (getCredentials ctx "oasysNetwork") as [e|credentials] eqn:Hcr;
    [unfold poll, getNodeParameter; rewrite Hc, He; run_binds; rewrite Hcr;
     reflexivity|].
  rewrite (poll_run ctx s _ _ _ Hc He Hcr), (poll_run ctx s' _ _ _ Hc He Hcr).
  cbn [fst]. rewrite !poll_results_of_work.
  assert (Hcat' : category ≠ "contract") by congruence.
  assert (Hev' : event ≠ "newBlock") by congruence.
  rewrite (pollWork_ignores_cursor ctx category event credentials
             (cursor s (stateKeyOf category event))
             (cursor s' (stateKeyOf category event)) Hcat' Hev').
  destruct (readsResultsOnly_pollWork ctx category event credentials
              (cursor s' (stateKeyOf category event))
              {| results := []; workflowStaticData := workflowStaticData s;
                 console := console s |}
              {| results := []; workflowStaticData := workflowStaticData s';
                 console := console s' |} eq_refl) as [_ Hres].
  rewrite Hres. reflexivity.
Qed.

Lemma elem_of_for_range (first last n : Z) :
  n ∈ for_range first last ↔ first ≤ n ≤ last.
Proof. unfold for_range. rewrite elem_of_seqZ. lia. Qed.

(** X22.  Two [newBlock] polls of the hub, one after the other, when no
    call throws: the second poll starts above the height the first one
    reached, so no block number is looked at twice and no record is handed
    out twice; its records are those of the blocks from
    [max (C1 + 1) (C2 - 5)] to [C2].  When the hub grew by more than six
    blocks between the polls, the blocks from [C1 + 1] to [C2 - 6] are in
    neither window: they are never reported. *)
Theorem newBlock_polls_do_not_repeat (ctx1 ctx2 : PollContext) (s : PollState)
    (credentials1 credentials2 : Credentials) (hub1 hub2 : HubClient)
    (C1 C2 : Z) (blocks1 blocks2 : Z → option Block) :
  let key := "oasys_trigger_hub_newBlock" in
  let window1 := for_range (Z.max (cursor s key + 1) (C1 - 5)) C1 in
  let window2 := for_range (Z.max (C1 + 1) (C2 - 5)) C2 in
  nodeParameter ctx1 "category" = ParamSet "hub" →
  nodeParameter ctx1 "event" = ParamSet "newBlock" →
  getCredentials ctx1 "oasysNetwork" = Done credentials1 →
  createHubClient ctx1 (hubLayerArgument (cred_layer credentials1))
                  (cred_privateKey credentials1) = Done hub1 →
  hub_getBlockNumber hub1 = Done C1 →
  (∀ n, n ∈ window1 → hub_getBlock hub1 n = Done (blocks1 n)) →
  nodeParameter ctx2 "category" = ParamSet "hub" →
  nodeParameter ctx2 "event" = ParamSet "newBlock" →
  getCredentials ctx2 "oasysNetwork" = Done credentials2 →
  createHubClient ctx2 (hubLayerArgument (cred_layer credentials2))
                  (cred_privateKey credentials2) = Done hub2 →
  hub_getBlockNumber hub2 = Done C2 →
  (∀ n, n ∈ window2 → hub_getBlock hub2 n = Done (blocks2 n)) →
  cursor s key < C1 → C1 < C2 →
  let s1 := snd (poll ctx1 s) in
  let s2 := snd (poll ctx2 s1) in
  results s1 = foundRecords hubBlockRecord blocks1 window1 ∧
  results s2 = foundRecords hubBlockRecord blocks2 window2 ∧
  cursor s1 key = C1 ∧ cursor s2 key = C2 ∧
  (∀ n, n ∈ window1 → n ∉ window2) ∧
  (∀ n, n ∈ window2 → C1 < n ≤ C2) ∧
  (∀ n, C1 < n ≤ C2 - 6 → (n ∉ window1) ∧ (n ∉ window2)).
Proof.
  intros key window1 window2 Hc1 He1 Hcr1 Hcl1 Hbn1 Hb1 Hc2 He2 Hcr2 Hcl2 Hbn2 Hb2
    HL1 HL2 s1 s2.
  pose proof (hub_newBlock_poll ctx1 s credentials1 hub1 C1 blocks1
                Hc1 He1 Hcr1 Hcl1 Hbn1 HL1 Hb1) as Hp1.
  cbv zeta in Hp1. fold key in Hp1. fold window1 in Hp1.
  assert (Hs1 : s1 = {| results := foundRecords hubBlockRecord blocks1 window1;
                        workflowStaticData := <[key := C1]> (workflowStaticData s);
                        console := console s |}).
  { subst s1. rewrite Hp1. reflexivity. }
  assert (Hcur1 : cursor s1 key = C1).
  { rewrite (cursor_insert s s1 key C1 key) by (rewrite Hs1; reflexivity).
    rewrite decide_True by reflexivity. reflexivity. }
  assert (HL2' : cursor s1 key < C2) by lia.
  assert (Hb2' : ∀ n, n ∈ for_range (Z.max (cursor s1 key + 1) (C2 - 5)) C2 →
                      hub_getBlock hub2 n = Done (blocks2 n)).
  { rewrite Hcur1. exact Hb2. }
  pose proof (hub_newBlock_poll ctx2 s1 credentials2 hub2 C2 blocks2
                Hc2 He2 Hcr2 Hcl2 Hbn2 HL2' Hb2') as Hp2.
  cbv zeta in Hp2. fold key in Hp2. rewrite Hcur1 in Hp2. fold window2 in Hp2.
  assert (Hs2 : s2 = {| results := foundRecords hubBlockRecord blocks2 window2;
                        workflowStaticData := <[key := C2]> (workflowStaticData s1);
                        console := console s1 |}).
  { subst s2. rewrite Hp2. reflexivity. }
  split; [rewrite Hs1; reflexivity|]. split; [rewrite Hs2; reflexivity|].
  split; [exact Hcur1|]. split.
  { rewrite (cursor_insert s1 s2 key C2 key) by (rewrite Hs2; reflexivity).
    rewrite decide_True by reflexivity. reflexivity. }
  subst window1 window2.
  split; [|split].
  - intros n H1 H2. apply elem_of_for_range in H1, H2. lia.
  - intros n H2. apply elem_of_for_range in H2. lia.
  - intros n Hn. split; intros H; apply elem_of_for_range in H; lia.
Qed.

End PollMore.

(** ** The clients of the action node (Oasys.node.ts) *)

Section NodeClientProperties.
Import VerseTable Factories NodeClients.

(** The configuration of a hub client, by the name that decides. *)
Lemma createHubClient_value (credentials : HubCredentials) :
  createHubClient credentials =
    if decide (layerOrNetwork credentials = "hubTestnet" ∨
               layerOrNetwork credentials = "testnet")
    then {| config_rpcUrl := "https://rpc.testnet.oasys.games";
            config_chainId := 9372;
            config_privateKey := privateKey credentials |}
    else if decide (layerOrNetwork credentials = "custom")
    then {| config_rpcUrl := default "https://rpc.mainnet.oasys.games"
                                     (customRpcUrl credentials);
            config_chainId := default 248 (customChainId credentials);
            config_privateKey := privateKey credentials |}
    else {| config_rpcUrl := "https://rpc.mainnet.oasys.games";
            config_chainId := 248;
            config_privateKey := privateKey credentials |}.
Proof.
  unfold createHubClient.
  set (name := layerOrNetwork credentials).
  destruct (String.eqb_spec name "hub") as [->|H1]; cbn [orb].
  { rewrite decide_False by (intros [?|?]; discriminate).
    rewrite decide_False by discriminate. reflexivity. }
  destruct (String.eqb_spec name "hubMainnet") as [->|H2]; cbn [orb].
  { rewrite decide_False by (intros [?|?]; discriminate).
    rewrite decide_False by discriminate. reflexivity. }
  destruct (String.eqb_spec name "mainnet") as [->|H3]; cbn [orb].
  { rewrite decide_False by (intros [?|?]; discriminate).
    rewrite decide_False by discriminate. reflexivity. }
  destruct (String.eqb_spec name "hubTestnet") as [->|H4]; cbn [orb].
  { rewrite decide_True by (by left). reflexivity. }
  destruct (String.eqb_spec name "testnet") as [->|H5]; cbn [orb].
  { rewrite decide_True by (by right). reflexivity. }
  rewrite decide_False by (intros [?|?]; done).
  destruct (String.eqb_spec name "custom") as [->|H6].
  { rewrite decide_True by reflexivity. reflexivity. }
  rewrite decide_False by exact H6. reflexivity.
Qed.

(** X23.  For the bridge resource [execute] creates a hub client and a
    bridge client from the same credentials.  The hub client goes to the
    testnet exactly for the layers ['hubTestnet'] and ['testnet'] and to the
    mainnet otherwise; the bridge client goes to the mainnet hub for every
    layer.  With ['hubTestnet'] credentials the two clients are on
    different networks. *)
Theorem node_bridge_client_network (networkLayer : string) (privateKey : option string)
    (verseKey' : string) :
  (∃ hubClient,
     hubClientOf networkLayer privateKey "bridge" = Some hubClient ∧
     config_rpcUrl hubClient =
       (if decide (networkLayer = "hubTestnet" ∨ networkLayer = "testnet")
        then "https://rpc.testnet.oasys.games"
        else "https://rpc.mainnet.oasys.games") ∧
     config_chainId hubClient =
       (if decide (networkLayer = "hubTestnet" ∨ networkLayer = "testnet")
        then 9372 else 248)) ∧
  (∀ bridgeClient,
     bridgeClientOf networkLayer privateKey verseKey' = Done bridgeClient →
     hubRpcUrl bridgeClient = "https://rpc.mainnet.oasys.games") ∧
  (∀ hubClient bridgeClient,
     networkLayer = "hubTestnet" →
     hubClientOf networkLayer privateKey "bridge" = Some hubClient →
     bridgeClientOf networkLayer privateKey verseKey' = Done bridgeClient →
     config_rpcUrl hubClient ≠ hubRpcUrl bridgeClient).
Proof.
  assert (Hhub : ∃ hubClient,
     hubClientOf networkLayer privateKey "bridge" = Some hubClient ∧
     config_rpcUrl hubClient =
       (if decide (networkLayer = "hubTestnet" ∨ networkLayer = "testnet")
        then "https://rpc.testnet.oasys.games"
        else "https://rpc.mainnet.oasys.games") ∧
     config_chainId hubClient =
       (if decide (networkLayer = "hubTestnet" ∨ networkLayer = "testnet")
        then 9372 else 248)).
  { unfold hubClientOf.
    change (existsb (String.eqb "bridge") ["hub"; "staking"; "validator"; "bridge"])
      with true.
    rewrite orb_true_r. eexists. split; [reflexivity|].
    rewrite createHubClient_value.
    change (layerOrNetwork _) with networkLayer.
    destruct (decide (networkLayer = "hubTestnet" ∨ networkLayer = "testnet"));
      [done|].
    destruct (decide (networkLayer = "custom")); done. }
  assert (Hbridge : ∀ bridgeClient,
     bridgeClientOf networkLayer privateKey verseKey' = Done bridgeClient →
     hubRpcUrl bridgeClient = "https://rpc.mainnet.oasys.games").
  { intros bridgeClient. unfold bridgeClientOf, createBridgeClient.
    cbn [bridge_layer bridge_customRpcUrl default].
    destruct (property VERSES verseKey'); [| |discriminate];
      intros [= <-]; cbn [hubRpcUrl];
      destruct (String.eqb networkLayer "hub"); try reflexivity;
      destruct (String.eqb networkLayer "custom"); reflexivity. }
  split; [exact Hhub|]. split; [exact Hbridge|].
  intros hubClient bridgeClient -> Hh Hb.
  rewrite (Hbridge bridgeClient Hb).
  destruct Hhub as (hubClient' & Hh' & Hurl & _).
  assert (hubClient' = hubClient) as -> by congruence.
  rewrite Hurl. rewrite decide_True by (by left). discriminate.
Qed.

End NodeClientProperties.

(** ** Verse clients and gas (verseClient.ts) *)

Section VerseClientProperties.
Import Js VerseTable LayerConfig VerseClients.

Lemma own_VERSES_gasless (key : string) (v : VerseConfig) :
  own VERSES key = Some v → (isGasless v = false ↔ key = "defiVerse").
Proof.
  unfold VERSES. rewrite !own_cons, own_nil.
  repeat match goal with
         | |- context [String.eqb ?k key] =>
             destruct (String.eqb_spec k key) as [<-|?];
             [intros [= <-]; vm_compute; split; intros;
              first [discriminate | reflexivity]|]
         end.
  discriminate.
Qed.

(** X24.  Every verse client that [createVerseClient] makes is gasless,
    except the one for ['defiVerse']: the verses of the table say so, a
    custom verse is taken to be gasless, and so is a client made for a name
    that [VERSES] only inherits.  For a verse of the table the flag is the
    one [isGaslessSupported] gives; for ['customVerse'] the two differ.  A
    gasless client answers 0 for the gas price and the gas estimate without
    asking the provider, and sends a transfer without the caller's gas
    limit and gas price; a client with gas passes them on. *)
Theorem verse_client_gasless (credentials : VerseCredentials) (this : VerseClient)
    (to' : string) (amount : Z) (options : option GasOptions) :
  (∀ config, createVerseClient credentials = Done config →
     (constructedGasless config = false ↔ verse credentials = "defiVerse") ∧
     (∀ v, own VERSES (verse credentials) = Some v →
        constructedGasless config =
          isGaslessSupported "verse" (Some (verse credentials)) ∧
        config_chainId config = Some (getVerseChainId (verse credentials)))) ∧
  (createVerseClient {| verse := "customVerse"; privateKey := None;
                        customVerseRpcUrl := None; customVerseChainId := None |} =
     Done {| config_rpcUrl := Some ""; config_chainId := Some 0;
             config_privateKey := None; config_isGasless := Some true |} ∧
   isGaslessSupported "verse" (Some "customVerse") = false) ∧
  (this_isGasless this = true →
     getGasPrice this = Done 0 ∧
     (∀ value' data, estimateGas this to' value' data = Done 0) ∧
     transfer this to' amount options = transfer this to' amount None) ∧
  (this_isGasless this = false →
     ∀ send, wallet this = Some send →
       transfer this to' amount options =
         send {| to := to'; value := amount;
                 gasLimit := options ≫= opt_gasLimit;
                 gasPrice := options ≫= opt_gasPrice |}).
Proof.
  split; [|split; [|split]].
  - intros config. unfold createVerseClient.
    destruct (String.eqb_spec (verse credentials) "customVerse") as [Hc|Hc].
    + intros [= <-]. unfold constructedGasless. cbn [config_isGasless default].
      split.
      * split; [discriminate|]. rewrite Hc. discriminate.
      * intros v Hv. rewrite Hc in Hv. vm_compute in Hv. discriminate.
    + unfold property.
      destruct (own VERSES (verse credentials)) as [v|] eqn:Hown.
      * intros [= <-]. unfold constructedGasless.
        cbn [config_isGasless config_chainId default].
        split; [exact (own_VERSES_gasless _ v Hown)|].
        intros v' [= <-]. unfold isGaslessSupported, getVerseChainId, property.
        rewrite Hown. cbn [negb String.eqb field_or].
        change (String.eqb "verse" "verse") with true. cbn [negb].
        assert (Ht : truthy_string (verse credentials) = true).
        { unfold truthy_string. apply negb_true_iff, String.eqb_neq.
          intros Hempty. rewrite Hempty in Hown. vm_compute in Hown. discriminate. }
        rewrite Ht. split; reflexivity.
      * destruct (existsb _ _) eqn:Hproto; [|discriminate].
        intros [= <-]. unfold constructedGasless. cbn [config_isGasless default].
        split; [|intros v Hv; discriminate].
        split; [discriminate|]. intros Hd. rewrite Hd in Hown.
        vm_compute in Hown. discriminate.
  - split; reflexivity.
  - intros Hg. unfold getGasPrice, estimateGas, transfer. rewrite Hg.
    split; [reflexivity|]. split; [reflexivity|].
    destruct (wallet this); reflexivity.
  - intros Hg send Hw. unfold transfer. rewrite Hw, Hg. reflexivity.
Qed.

End VerseClientProperties.

(** ** Validator recommendations (validatorUtils.ts) *)

Section RecommendationProperties.
Import Recommendations.

Lemma insert_by_perm {A} (before : A → A → bool) (x : A) (l : list A) :
  insert_by before x l ≡ₚ x :: l.
Proof.
  induction l as [|y l IH]; simpl; [reflexivity|].
  destruct (before x y); [reflexivity|].
  rewrite IH. apply Permutation_swap.
Qed.

Lemma sort_by_perm {A} (before : A → A → bool) (l : list A) :
  sort_by before l ≡ₚ l.
Proof.
  induction l as [|x l IH]; simpl; [reflexivity|].
  rewrite insert_by_perm, IH. reflexivity.
Qed.

Section Stable.
Context {A : Type} (before : A → A → bool) (earlier : A → A → Prop).
Hypothesis before_total : ∀ a b, before a b = false → before b a = true.
Hypothesis before_trans :
  ∀ a b c, before a b = true → before b c = true → before a c = true.

Lemma insert_by_sorted (x : A) (l : list A) :
  Forall (earlier x) l →
  StronglySorted (ranks before earlier) l →
  StronglySorted (ranks before earlier) (insert_by before x l).
Proof.
  intros Hx Hl. induction Hl as [|y l Hl IH Hy]; simpl.
  - repeat constructor.
  - apply Forall_cons in Hx as [Hxy Hxl].
    destruct (before x y) eqn:Hb.
    + constructor; [constructor; assumption|].
      constructor.
      * split; [exact Hb|]. intros _. exact Hxy.
      * rewrite Forall_forall in Hy, Hxl |- *. intros z Hz. split.
        -- eapply before_trans; [exact Hb|]. apply (Hy z Hz).
        -- intros _. apply (Hxl z Hz).
    + constructor; [apply IH; exact Hxl|].
      rewrite insert_by_perm. constructor; [|exact Hy].
      split; [apply before_total; exact Hb|]. intros Hxy'. congruence.
Qed.

Lemma sort_by_sorted (l : list A) :
  StronglySorted earlier l →
  StronglySorted (ranks before earlier) (sort_by before l).
Proof.
  intros Hl. induction Hl as [|x l Hl IH Hx]; simpl; [constructor|].
  apply insert_by_sorted; [|exact IH].
  rewrite sort_by_perm. exact Hx.
Qed.

End Stable.

Lemma StronglySorted_any {A} (l : list A) : StronglySorted (λ _ _, True) l.
Proof.
  induction l as [|x l IH]; constructor; [exact IH|].
  apply Forall_forall. done.
Qed.

Lemma StronglySorted_impl {A} (R S : A → A → Prop) (l : list A) :
  (∀ a b, R a b → S a b) → StronglySorted R l → StronglySorted S l.
Proof.
  intros HRS Hl. induction Hl as [|x l Hl IH Hx]; constructor; [exact IH|].
  eapply Forall_impl; [exact Hx|]. intros b. apply HRS.
Qed.

Lemma StronglySorted_filter_bool {A} (R : A → A → Prop) (keep : A → bool) (l : list A) :
  StronglySorted R l → StronglySorted R (List.filter keep l).
Proof.
  intros Hl. induction Hl as [|x l Hl IH Hx]; simpl; [constructor|].
  destruct (keep x); [|exact IH].
  constructor; [exact IH|].
  rewrite Forall_forall in Hx |- *. intros y Hy.
  apply Hx. apply list_elem_of_In in Hy. apply filter_In in Hy as [Hy _].
  apply list_elem_of_In. exact Hy.
Qed.

Lemma filter_bool_perm {A} (keep : A → bool) (l l' : list A) :
  l ≡ₚ l' → List.filter keep l ≡ₚ List.filter keep l'.
Proof.
  intros H. induction H as [|x l l' H IH|x y l|l l' l'' H1 IH1 H2 IH2]; simpl.
  - reflexivity.
  - destruct (keep x); [rewrite IH|]; [reflexivity|exact IH].
  - destruct (keep x), (keep y); try reflexivity. apply Permutation_swap.
  - etrans; eassumption.
Qed.

Lemma byCommission_order :
  (∀ a b, byCommission a b = false → byCommission b a = true) ∧
  (∀ a b c, byCommission a b = true → byCommission b c = true →
            byCommission a c = true).
Proof. unfold byCommission. split; intros; lia. Qed.

Lemma byUptime_order :
  (∀ a b, byUptime a b = false → byUptime b a = true) ∧
  (∀ a b c, byUptime a b = true → byUptime b c = true → byUptime a c = true).
Proof. unfold byUptime. split; intros; lia. Qed.

(** X25.  The recommendations are the addresses of the first five of a
    ranking of the eligible validators: all of them, or with
    [preferKnownValidator] those whose address is that of a known
    validator up to the case of letters.  With [preferHighUptime] the
    ranking goes from the highest uptime down, and validators of equal
    uptime are ranked by rising commission when [preferLowCommission] is
    set as well; with [preferLowCommission] alone it goes by rising
    commission; without both it is the order of the argument.  So there
    are five recommendations, or as many as there are eligible
    validators. *)
Theorem validator_recommendations (criteria : Criteria) (validators : list Validator) :
  let eligible := if preferKnownValidator criteria
                  then List.filter isKnown validators else validators in
  ∃ ranked,
    ranked ≡ₚ eligible ∧
    getValidatorRecommendations criteria validators = address <$> take 5 ranked ∧
    length (getValidatorRecommendations criteria validators) =
      Nat.min 5 (length eligible) ∧
    (preferHighUptime criteria = true →
     StronglySorted
       (λ a b, uptime b ≤ uptime a ∧
               (preferLowCommission criteria = true → uptime a = uptime b →
                commissionRate a ≤ commissionRate b)) ranked) ∧
    (preferHighUptime criteria = false → preferLowCommission criteria = true →
     StronglySorted (λ a b, commissionRate a ≤ commissionRate b) ranked) ∧
    (preferHighUptime criteria = false → preferLowCommission criteria = false →
     ranked = eligible).
Proof.
  intros eligible. unfold getValidatorRecommendations.
  destruct byCommission_order as [Hct Hcr]. destruct byUptime_order as [Hut Hur].
  set (s1 := if preferLowCommission criteria
             then sort_by byCommission validators else validators).
  set (s2 := if preferHighUptime criteria then sort_by byUptime s1 else s1).
  set (s3 := if preferKnownValidator criteria then List.filter isKnown s2 else s2).
  assert (Hp1 : s1 ≡ₚ validators).
  { subst s1. destruct (preferLowCommission criteria); [apply sort_by_perm|reflexivity]. }
  assert (Hp2 : s2 ≡ₚ validators).
  { subst s2. destruct (preferHighUptime criteria); [rewrite sort_by_perm|]; exact Hp1. }
  assert (Hp3 : s3 ≡ₚ eligible).
  { subst s3 eligible. destruct (preferKnownValidator criteria);
      [apply filter_bool_perm|]; exact Hp2. }
  assert (Hs1 : preferLowCommission criteria = true →
                StronglySorted (ranks byCommission (λ _ _, True)) s1).
  { intros Hl. subst s1. rewrite Hl.
    apply (sort_by_sorted byCommission (λ _ _, True) Hct Hcr). apply StronglySorted_any. }
  exists s3. split; [exact Hp3|]. split; [reflexivity|]. split.
  { rewrite length_fmap, length_take. rewrite (Permutation_length Hp3). reflexivity. }
  assert (Hkeep : ∀ R, StronglySorted R s2 → StronglySorted R s3).
  { intros R H. subst s3. destruct (preferKnownValidator criteria);
      [apply StronglySorted_filter_bool|]; exact H. }
  split; [|split].
  - intros Hu. apply Hkeep. subst s2. rewrite Hu.
    destruct (preferLowCommission criteria) eqn:Hl.
    + eapply StronglySorted_impl;
        [|apply (sort_by_sorted byUptime (ranks byCommission (λ _ _, True)) Hut Hur),
           (Hs1 eq_refl)].
      intros a b [Hab Hba]. unfold byUptime in Hab, Hba. split; [lia|].
      intros _ Heq. destruct Hba as [Hc _]; [lia|]. unfold byCommission in Hc. lia.
    + eapply StronglySorted_impl;
        [|apply (sort_by_sorted byUptime (λ _ _, True) Hut Hur), StronglySorted_any].
      intros a b [Hab _]. unfold byUptime in Hab. split; [lia|discriminate].
  - intros Hu Hl. apply Hkeep. subst s2. rewrite Hu.
    eapply StronglySorted_impl; [|apply (Hs1 Hl)].
    intros a b [Hab _]. unfold byCommission in Hab. lia.
  - intros Hu Hl. subst s3 s2 s1 eligible. rewrite Hu, Hl. reflexivity.
Qed.

End RecommendationProperties.

(** ** Staking transactions (hubClient.ts, Oasys.node.ts) *)

Section StakingTransactionProperties.
Import Js NetworkTables UnitConverter BridgeTransfer StakingTransactions.

(** X26.  The stake and unstake operations send a transaction for every
    amount text that [oasToWei] reads, whenever the hub client has a wallet:
    [stake] with the amount as value, [unstake] with the amount as
    argument, both with gas limit 150000.  No minimum is checked on the
    way: the amounts below one OAS, for which [meetsMinimumDelegation] is
    false, are sent like any other, and so are 0 and negative amounts. *)
Theorem stake_operation_unchecked (client : HubSigner) (validatorAddress amount : string)
    (w : Z) (signer : Wallet)
    (contract : StakeManagerCall → outcome TransactionResponse) :
  oasToWei amount = Done w →
  wallet client = Some signer →
  stakeManager client = Some contract →
  stakeOperation (Some client) validatorAddress amount =
    (tx ← contract (stake_call validatorAddress
                      {| value := Some w; gasLimit := Some 150000; gasPrice := None |});
     mret {| txHash := tx_hash tx; result_validator := validatorAddress;
             result_amount := amount |}) ∧
  unstakeOperation (Some client) validatorAddress amount =
    (tx ← contract (unstake_call validatorAddress w
                      {| value := None; gasLimit := Some 150000; gasPrice := None |});
     mret {| txHash := tx_hash tx; result_validator := validatorAddress;
             result_amount := amount |}) ∧
  meetsMinimumDelegation w = Done (10 ^ 18 <=? w).
Proof.
  intros Hw Hs Hc.
  unfold stakeOperation, unstakeOperation, requireHubClient, stake, unstake.
  cbn [mbind outcome_bind obind]. rewrite Hw, Hs, Hc.
  split; [reflexivity|]. split; [reflexivity|].
  unfold meetsMinimumDelegation.
  assert (Hmin : BigInt (minimumDelegation STAKING_CONFIG) = Done (10 ^ 18))
    by (vm_compute; reflexivity).
  rewrite Hmin. cbn [mbind outcome_bind obind mret outcome_ret].
  f_equal. rewrite Z.geb_leb. reflexivity.
Qed.

End StakingTransactionProperties.

(** ** The polling trigger: records handed out again, and polls that stay
    silent *)

Section PollAgain.
Import Trigger Scenarios.

Ltac steps :=
  repeat first [ rewrite bind_run
               | progress cbv beta iota
               | progress unfold mret, M_ret, await ].

Lemma for_range_split (first n last : Z) :
  first ≤ n ≤ last →
  for_range first last = for_range first (n - 1) ++ n :: for_range (n + 1) last.
Proof.
  intros Hn. unfold for_range.
  replace (last - first + 1) with ((n - 1 - first + 1) + (last - n + 1)) by lia.
  rewrite seqZ_app by lia.
  replace (first + (n - 1 - first + 1)) with n by lia.
  rewrite (seqZ_cons n (last - n + 1)) by lia.
  replace (Z.succ n) with (n + 1) by lia.
  replace (Z.pred (last - n + 1)) with (last - (n + 1) + 1) by lia.
  reflexivity.
Qed.

Lemma foundRecords_app record blocks (xs ys : list Z) :
  foundRecords record blocks (xs ++ ys) =
  foundRecords record blocks xs ++ foundRecords record blocks ys.
Proof.
  induction xs as [|x xs IH]; simpl; [reflexivity|].
  destruct (blocks x); simpl; rewrite IH; reflexivity.
Qed.

(** The look-back loop when [getBlock] throws at block [n]: the records of
    the blocks before [n] are pushed, and the error leaves the loop. *)
Lemma for_each_throws (getBlock : Z → outcome (option Block))
    (record : Z → Block → INodeExecutionData) (blocks : Z → option Block)
    (xs ys : list Z) (n : Z) (e : string) (s : PollState) :
  (∀ m, m ∈ xs → getBlock m = Done (blocks m)) →
  getBlock n = Threw e →
  for_each (xs ++ n :: ys) (λ blockNum,
     block ← await (getBlock blockNum);
     match block with
     | Some block => push (record blockNum block)
     | None => mret tt
     end) s =
  (Threw e, {| results := results s ++ foundRecords record blocks xs;
               workflowStaticData := workflowStaticData s;
               console := console s |}).
Proof.
  revert s. induction xs as [|x xs IH]; intros s Hall Hn; simpl.
  - rewrite bind_run, bind_run. unfold await at 1. rewrite Hn.
    rewrite app_nil_r. destruct s; reflexivity.
  - rewrite bind_run, bind_run. unfold await at 1.
    rewrite (Hall x) by left.
    destruct (blocks x) as [b|] eqn:Hb; simpl.
    + rewrite IH; [|intros m Hm; apply Hall; by right|exact Hn].
      simpl. rewrite <- app_assoc. reflexivity.
    + rewrite IH; [|intros m Hm; apply Hall; by right|exact Hn]. reflexivity.
Qed.

(** X27.  A hub [newBlock] poll whose [getBlock] throws at block [n] hands
    out the records of the blocks of its window before [n] and leaves the
    stored cursor as it was.  The next poll at the same height, when no call
    throws, starts from the same block again: it hands out the same
    records once more, followed by those of the blocks from [n] on. *)
Theorem newBlock_poll_redelivers (ctx1 ctx2 : PollContext) (s : PollState)
    (credentials1 credentials2 : Credentials) (hub1 hub2 : HubClient)
    (C n : Z) (e : string) (blocks : Z → option Block) :
  let key := "oasys_trigger_hub_newBlock" in
  let first := Z.max (cursor s key + 1) (C - 5) in
  nodeParameter ctx1 "category" = ParamSet "hub" →
  nodeParameter ctx1 "event" = ParamSet "newBlock" →
  getCredentials ctx1 "oasysNetwork" = Done credentials1 →
  createHubClient ctx1 (hubLayerArgument (cred_layer credentials1))
                  (cred_privateKey credentials1) = Done hub1 →
  hub_getBlockNumber hub1 = Done C →
  nodeParameter ctx2 "category" = ParamSet "hub" →
  nodeParameter ctx2 "event" = ParamSet "newBlock" →
  getCredentials ctx2 "oasysNetwork" = Done credentials2 →
  createHubClient ctx2 (hubLayerArgument (cred_layer credentials2))
                  (cred_privateKey credentials2) = Done hub2 →
  hub_getBlockNumber hub2 = Done C →
  cursor s key < C →
  first ≤ n ≤ C →
  (∀ m, first ≤ m < n → hub_getBlock hub1 m = Done (blocks m)) →
  hub_getBlock hub1 n = Threw e →
  (∀ m, first ≤ m ≤ C → hub_getBlock hub2 m = Done (blocks m)) →
  let s1 := snd (poll ctx1 s) in
  let delivered := foundRecords hubBlockRecord blocks (for_range first (n - 1)) in
  fst (poll ctx1 s) =
    Done (if (length delivered =? 0)%nat then None else Some [delivered]) ∧
  workflowStaticData s1 = workflowStaticData s ∧
  results (snd (poll ctx2 s1)) =
    delivered ++ foundRecords hubBlockRecord blocks (for_range n C).
Proof.
  intros key first Hc1 He1 Hcr1 Hcl1 Hbn1 Hc2 He2 Hcr2 Hcl2 Hbn2 HL Hn Hb1 Hthrow Hb2
    s1 delivered.
  assert (HgtC : (C >? cursor s key) = true)
    by (rewrite Z.gtb_ltb; apply Z.ltb_lt; exact HL).
  set (s0 := {| results := []; workflowStaticData := workflowStaticData s;
                console := console s |}).
  assert (Hwork : pollWork ctx1 "hub" "newBlock" credentials1 (cursor s key) s0 =
                  (Threw e, {| results := delivered;
                               workflowStaticData := workflowStaticData s;
                               console := console s |})).
  { unfold pollWork. change (String.eqb "hub" "hub") with true. cbv iota.
    rewrite bind_ret_run. cbv iota.
    unfold hubBranch.
    rewrite (bind_await_run _ _ _ _ Hcl1), (bind_await_run _ _ _ _ Hbn1).
    change (String.eqb "hub" "hub") with true.
    change (String.eqb "newBlock" "newBlock") with true.
    rewrite HgtC. cbn [andb]. cbv iota.
    rewrite bind_run. unfold replayBlocks. fold key. fold first.
    rewrite (for_range_split first n C Hn).
    rewrite (for_each_throws _ _ blocks _ _ n e); [reflexivity| |exact Hthrow].
    intros m Hm. apply elem_of_for_range in Hm. apply Hb1. lia. }
  pose proof (poll_after_throw ctx1 s "hub" "newBlock" credentials1 e _
                Hc1 He1 Hcr1 Hwork) as Hp1.
  cbn [results workflowStaticData console] in Hp1.
  assert (Hs1 : s1 = {| results := delivered;
                        workflowStaticData := workflowStaticData s;
                        console := console s ++ ["Oasys Trigger polling error: " +:+ e] |}).
  { subst s1. rewrite Hp1. reflexivity. }
  split; [rewrite Hp1; reflexivity|].
  split; [rewrite Hs1; reflexivity|].
  assert (Hcur : cursor s1 key = cursor s key).
  { unfold cursor. rewrite Hs1. reflexivity. }
  assert (HL' : cursor s1 key < C) by (rewrite Hcur; exact HL).
  assert (Hb2' : ∀ m, m ∈ for_range (Z.max (cursor s1 key + 1) (C - 5)) C →
                      hub_getBlock hub2 m = Done (blocks m)).
  { rewrite Hcur. fold first. intros m Hm. apply elem_of_for_range in Hm.
    apply Hb2. exact Hm. }
  pose proof (hub_newBlock_poll ctx2 s1 credentials2 hub2 C blocks
                Hc2 He2 Hcr2 Hcl2 Hbn2 HL' Hb2') as Hp2.
  cbv zeta in Hp2. fold key in Hp2. rewrite Hcur in Hp2. fold first in Hp2.
  rewrite Hp2. cbn [snd results].
  assert (Hcons : for_range n C = n :: for_range (n + 1) C).
  { unfold for_range. rewrite (seqZ_cons n) by lia.
    replace (Z.succ n) with (n + 1) by lia.
    replace (Z.pred (C - n + 1)) with (C - (n + 1) + 1) by lia. reflexivity. }
  rewrite Hcons, (for_range_split first n C Hn), foundRecords_app. reflexivity.
Qed.

(** The verse branch pushes nothing for an event that is neither
    [newBlock] nor [statusChanged], whatever its calls do. *)
Lemma verseBranch_silent ctx event credentials lastProcessedBlock s :
  event ≠ "newBlock" → event ≠ "statusChanged" →
  results (snd (verseBranch ctx event credentials lastProcessedBlock s)) = results s.
Proof.
  intros Hn Hs. unfold verseBranch, getNodeParameter.
  rewrite (proj2 (String.eqb_neq event "newBlock") Hn).
  rewrite (proj2 (String.eqb_neq event "statusChanged") Hs).
  cbn [andb].
  destruct (nodeParameter ctx "verse") as [e'| |v]; [reflexivity| |].
  - steps. destruct (createVerseClient ctx "homeVerse" _) as [e'|client];
      [reflexivity|].
    steps. destruct (verse_getBlockNumber client); reflexivity.
  - steps. destruct (createVerseClient ctx v _) as [e'|client]; [reflexivity|].
    steps. destruct (verse_getBlockNumber client); reflexivity.
Qed.

(** X28.  A poll of the wallet category never returns a record when the
    layer parameter is set to anything but ['hub'], for every event other
    than [newBlock] and [statusChanged], so for all five wallet events:
    on the verse layer the balance is not read and nothing is pushed,
    whatever the chain does; the poll returns [null]. *)
Theorem wallet_poll_silent_off_hub (ctx : PollContext) (s : PollState)
    (event layer : string) (credentials : Credentials) :
  nodeParameter ctx "category" = ParamSet "wallet" →
  nodeParameter ctx "event" = ParamSet event →
  getCredentials ctx "oasysNetwork" = Done credentials →
  nodeParameter ctx "layer" = ParamSet layer →
  layer ≠ "hub" →
  event ≠ "newBlock" → event ≠ "statusChanged" →
  fst (poll ctx s) = Done None ∧
  results (snd (poll ctx s)) = [].
Proof.
  intros Hc He Hcr Hl Hhub Hn Hs.
  set (s0 := {| results := []; workflowStaticData := workflowStaticData s;
                console := console s |}).
  assert (Hres : results (snd (pollWork ctx "wallet" event credentials
                                 (cursor s (stateKeyOf "wallet" event)) s0)) = []).
  { unfold pollWork, walletOnLayer.
    change (String.eqb "wallet" "hub") with false.
    change (String.eqb "wallet" "wallet") with true.
    change (String.eqb "wallet" "staking") with false.
    change (String.eqb "wallet" "verse") with false.
    change (String.eqb "wallet" "bridge") with false.
    change (String.eqb "wallet" "nft") with false.
    change (String.eqb "wallet" "contract") with false.
    cbv iota. unfold getNodeParameter. rewrite Hl.
    steps. rewrite (proj2 (String.eqb_neq layer "hub") Hhub). steps.
    destruct (String.eqb layer "verse"); [|reflexivity].
    apply (verseBranch_silent ctx event credentials _ s0 Hn Hs). }
  rewrite (poll_run ctx s _ _ _ Hc He Hcr). cbn [fst snd]. fold s0.
  rewrite poll_results_of_work, Hres. split; reflexivity.
Qed.

End PollAgain.

(** ** The further properties at concrete inputs *)

Section MoreInstances.
Import Js Networks LayerUtils BridgeUtils ApiClient Trigger Scenarios.
Import ValidatorUtils UnitConverter UnitConverterMore VerseTable LayerConfig.
Import TriggerScenarios ClientScenarios StakingScenarios.

(** A delegation of a quarter of the stake, rewards of 1000 and a
    commission of 10 percent: 225. *)
Lemma delegator_rewards_bounds_witness :
  calculateDelegatorRewards (10 ^ 18) (4 * 10 ^ 18) 1000 10 = 225 ∧
  0 ≤ calculateDelegatorRewards (10 ^ 18) (4 * 10 ^ 18) 1000 10 ≤ 1000.
Proof.
  split; [reflexivity|].
  destruct (delegator_rewards_bounds (10 ^ 18) (4 * 10 ^ 18) 1000 10) as [H _];
    [lia | lia | lia | exact H].
Defined.

(** The completed deposit of the sample client: 64 confirmations of 64. *)
Lemma getBridgeStatus_report_invariants_witness :
  getBridgeStatus sampleBridgeClient "0xabc" deposit =
    Done {| report_status := completed; confirmations := 64;
            requiredConfirmations := 64 |} ∧
  (64 : Z) = BridgeConfirmations.getRequiredConfirmations deposit.
Proof.
  split; [reflexivity|].
  destruct (getBridgeStatus_report_invariants sampleBridgeClient "0xabc" deposit
              {| report_status := completed; confirmations := 64;
                 requiredConfirmations := 64 |} eq_refl) as (_ & _ & _ & H).
  apply H. by left.
Defined.

(** 1.5 gwei and a negative amount, there and back. *)
Lemma gwei_round_trip_witness :
  (weiToGwei (WeiBigint 1500000000) ≫= gweiToWei) = Done 1500000000 ∧
  (weiToGwei (WeiString "-42") ≫= gweiToWei) = Done (-42).
Proof.
  split.
  - destruct (gwei_round_trip 1500000000 "1500000000") as [H _];
      [lia | reflexivity | exact H].
  - destruct (gwei_round_trip (-42) "-42") as [_ H]; [lia | reflexivity | exact H].
Defined.

(** The layer ['verse'] with a known key is a verse chain; without a key
    it resolves to the hub chain 248. *)
Lemma getChainId_layer_witness :
  getLayerFromChainId (getChainId "verse" (Some "tcgVerse") None) = verse ∧
  getChainId "verse" (Some "tcgVerse") None = 2400 ∧
  getChainId "verse" None None = 248.
Proof.
  destruct (getChainId_layer "verse" (Some "tcgVerse") None) as (H1 & _ & H3);
    [discriminate|].
  destruct (getChainId_layer "verse" None None) as (_ & H2 & _); [discriminate|].
  split; [exact H1|]. split.
  - destruct (H3 "tcgVerse" eq_refl eq_refl) as [-> _]. reflexivity.
  - apply H2; [reflexivity | discriminate].
Defined.

(** The delegator of the sample stake manager: 12 staked with two
    validators, the second validator left out. *)
Lemma getStakingInfo_totals_witness :
  HubStaking.getStakingInfo sampleStakingClient "0xd1" =
    Done {| HubStaking.totalStaked := 12;
            HubStaking.validators := ["0xv1"; "0xv3"];
            HubStaking.delegations :=
              [ {| HubStaking.validator := "0xv1"; HubStaking.amount := 5;
                   HubStaking.rewards := 1 |};
                {| HubStaking.validator := "0xv3"; HubStaking.amount := 7;
                   HubStaking.rewards := 2 |} ];
            HubStaking.totalRewards := 3 |} ∧
  (12 : Z) = HubStaking.sumZ [5; 7].
Proof.
  split; [reflexivity|].
  destruct (getStakingInfo_totals sampleStakingClient "0xd1" _ eq_refl) as (H & _).
  exact H.
Defined.

(** A contract poll whose event query throws: [null], nothing logged, and
    the cursor at the height of the hub. *)
Lemma contract_poll_advances_witness :
  poll (contractContext (deafHub 40)) freshState =
    (Done None,
     {| results := [];
        workflowStaticData := {[ "oasys_trigger_contract_contractEvent" := 40 ]};
        console := [] |}).
Proof.
  rewrite (contract_poll_advances (contractContext (deafHub 40)) freshState
             "contractEvent" "0x5200" "Transfer" sampleCredentials (deafHub 40) 40
             eq_refl eq_refl eq_refl (or_intror eq_refl) eq_refl eq_refl
             ltac:(discriminate) ltac:(discriminate) eq_refl eq_refl ltac:(reflexivity)).
  reflexivity.
Defined.

(** The [epochChanged] poll returns the same record whether the trigger has
    polled before or not. *)
Lemma poll_ignores_stored_state_witness :
  fst (poll (sampleContext "hub" "epochChanged" (sampleHub 10 11) (sampleVerse 0))
            freshState) =
  fst (poll (sampleContext "hub" "epochChanged" (sampleHub 10 11) (sampleVerse 0))
            {| results := [];
               workflowStaticData := {[ "oasys_trigger_hub_epochChanged" := 10 ]};
               console := [] |}) ∧
  fst (poll (sampleContext "hub" "epochChanged" (sampleHub 10 11) (sampleVerse 0))
            freshState) ≠ Done None.
Proof.
  split; [|discriminate].
  apply poll_ignores_stored_state; discriminate.
Defined.

(** A hub polled at height 3 and then at height 12: blocks 1 to 3, then
    blocks 7 to 12; blocks 4 to 6 are never reported. *)
Lemma newBlock_polls_do_not_repeat_witness :
  results (snd (poll (sampleContext "hub" "newBlock" (sampleHub 12 100) (sampleVerse 0))
                  (snd (poll (sampleContext "hub" "newBlock" (sampleHub 3 100)
                                (sampleVerse 0)) freshState)))) =
    map (λ n, hubBlockRecord n (sampleBlock n)) [7; 8; 9; 10; 11; 12] ∧
  (4 ∉ for_range (Z.max (3 + 1) (12 - 5)) 12).
Proof.
  destruct (newBlock_polls_do_not_repeat
              (sampleContext "hub" "newBlock" (sampleHub 3 100) (sampleVerse 0))
              (sampleContext "hub" "newBlock" (sampleHub 12 100) (sampleVerse 0))
              freshState sampleCredentials sampleCredentials
              (sampleHub 3 100) (sampleHub 12 100) 3 12
              (λ n, Some (sampleBlock n)) (λ n, Some (sampleBlock n)))
    as (_ & H2 & _ & _ & _ & _ & Hskip); try reflexivity.
  - intros n Hn. change (n ∈ [1; 2; 3]) in Hn.
    repeat (apply elem_of_cons in Hn as [->|Hn]; [reflexivity|]). inversion Hn.
  - intros n Hn. change (n ∈ [7; 8; 9; 10; 11; 12]) in Hn.
    repeat (apply elem_of_cons in Hn as [->|Hn]; [reflexivity|]). inversion Hn.
  - split; [rewrite H2; reflexivity|]. apply (Hskip 4). lia.
Defined.

(** A deposit of 1.5 OAS by the sample signer is sent; so is a withdrawal
    of 0.001 OAS. *)
Lemma deposit_operation_sends_witness :
  BridgeOperations.depositOperation sampleSigner "homeVerse" "1.5" =
    Done {| BridgeOperations.txHash := "0x1d";
            BridgeOperations.result_amount := "1.5";
            BridgeOperations.result_direction := "Hub → Verse";
            BridgeOperations.result_verse := "homeVerse";
            BridgeOperations.estimatedTime := "~15 minutes" |}.
Proof.
  apply (proj1 (deposit_operation_sends sampleSigner "homeVerse" "1.5" _)).
  exists (15 * 10 ^ 17), {| BridgeTransfer.address := "0xf39F" |},
         (λ _, Done {| BridgeTransfer.tx_hash := "0x1d" |}),
         {| BridgeTransfer.tx_hash := "0x1d" |}.
  split; [vm_compute; reflexivity|]. split; [lia|].
  split; [reflexivity|]. split; [reflexivity|]. split; reflexivity.
Defined.

Lemma withdraw_operation_sends_witness :
  BridgeOperations.withdrawOperation sampleSigner "homeVerse" "0.001" =
    Done {| BridgeOperations.txHash := "0x2w";
            BridgeOperations.result_amount := "0.001";
            BridgeOperations.result_direction := "Verse → Hub";
            BridgeOperations.result_verse := "homeVerse";
            BridgeOperations.estimatedTime := "~7 days (challenge period)" |}.
Proof.
  apply (proj1 (withdraw_operation_sends sampleSigner "homeVerse" "0.001" _)).
  exists (10 ^ 15), {| BridgeTransfer.address := "0xf39F" |},
         (λ _, Done {| BridgeTransfer.tx_hash := "0x2w" |}),
         {| BridgeTransfer.tx_hash := "0x2w" |}.
  split; [vm_compute; reflexivity|]. split; [lia|].
  split; [reflexivity|]. split; [reflexivity|]. split; reflexivity.
Defined.

(** Half an OAS is below the minimum delegation, and is staked. *)
Lemma stake_operation_unchecked_witness :
  StakingTransactions.stakeOperation (Some sampleStaker) "0xv1" "0.5" =
    Done {| StakingTransactions.txHash := "0x57";
            StakingTransactions.result_validator := "0xv1";
            StakingTransactions.result_amount := "0.5" |} ∧
  StakingTransactions.meetsMinimumDelegation (5 * 10 ^ 17) = Done false.
Proof.
  destruct (stake_operation_unchecked sampleStaker "0xv1" "0.5" (5 * 10 ^ 17)
              {| BridgeTransfer.address := "0xf39F" |}
              (λ _, Done {| BridgeTransfer.tx_hash := "0x57" |}))
    as (Hstake & _ & Hmin); [vm_compute; reflexivity | reflexivity | reflexivity |].
  split; [rewrite Hstake; reflexivity | rewrite Hmin; reflexivity].
Defined.

(** A hub at height 2 whose [getBlock] throws at block 2, polled twice: the
    record of block 1 is handed out by both polls. *)
Lemma newBlock_poll_redelivers_witness :
  fst (poll (sampleContext "hub" "newBlock" (sampleHub 2 2) (sampleVerse 0)) freshState) =
    Done (Some [[hubBlockRecord 1 (sampleBlock 1)]]) ∧
  results (snd (poll (sampleContext "hub" "newBlock" (sampleHub 2 100) (sampleVerse 0))
                  (snd (poll (sampleContext "hub" "newBlock" (sampleHub 2 2)
                                (sampleVerse 0)) freshState)))) =
    [hubBlockRecord 1 (sampleBlock 1); hubBlockRecord 2 (sampleBlock 2)].
Proof.
  destruct (newBlock_poll_redelivers
              (sampleContext "hub" "newBlock" (sampleHub 2 2) (sampleVerse 0))
              (sampleContext "hub" "newBlock" (sampleHub 2 100) (sampleVerse 0))
              freshState sampleCredentials sampleCredentials
              (sampleHub 2 2) (sampleHub 2 100) 2 2 "request timeout"
              (λ m, Some (sampleBlock m)))
    as (H1 & _ & H2); try reflexivity.
  - vm_compute. split; discriminate.
  - intros m Hm. change (Z.max (cursor freshState "oasys_trigger_hub_newBlock" + 1)
                               (2 - 5)) with 1 in Hm.
    assert (m = 1) as -> by lia. reflexivity.
  - intros m Hm. change (Z.max (cursor freshState "oasys_trigger_hub_newBlock" + 1)
                               (2 - 5)) with 1 in Hm.
    assert (m = 1 ∨ m = 2) as [-> | ->] by lia; reflexivity.
  - split; [exact H1|exact H2].
Defined.

(** A wallet watched on the verse layer: the poll returns [null], while
    the verse is at height 7. *)
Lemma wallet_poll_silent_off_hub_witness :
  fst (poll (walletContext "verse" (sampleHub 10 11) (sampleVerse 7)) freshState) =
    Done None.
Proof.
  apply (wallet_poll_silent_off_hub
           (walletContext "verse" (sampleHub 10 11) (sampleVerse 7)) freshState
           "balanceChanged" "verse" sampleCredentials);
    first [reflexivity | discriminate].
Defined.

(** Block 12345 is in epoch 2, whose range is 11520 to 17279; epoch 3 starts
    at 17280. *)
Lemma epoch_ranges_partition_witness :
  getEpochFromBlock (JsNumber.Int 12345) = JsNumber.Int 2 ∧
  getEpochBlockRange (JsNumber.Int 2)
  = {| startBlock := JsNumber.Int 11520; endBlock := JsNumber.Int 17279 |} ∧
  startBlock (getEpochBlockRange (JsNumber.Int 3)) = JsNumber.Int 17280.
Proof.
  destruct (epoch_ranges_partition 12345 2) as (H1 & _ & H3 & _ & _ & _ & H7 & _);
    [unfold JsNumber.isSafeInteger, JsNumber.MAX_SAFE_INTEGER; lia ..|].
  split; [exact H1|]. split; [exact H3|].
  rewrite H3 in H7. exact H7.
Defined.

(** Unbonding started in epoch 100 completes in epoch 110; in epoch 104
    there are 6 epochs to wait, in epoch 120 none. *)
Lemma unbonding_countdown_witness :
  getUnbondingCompletionEpoch (JsNumber.Int 100) = JsNumber.Int 110 ∧
  epochsUntilUnbonding (getUnbondingCompletionEpoch (JsNumber.Int 100)) (JsNumber.Int 104)
  = JsNumber.Int 6 ∧
  epochsUntilUnbonding (JsNumber.Int 110) (JsNumber.Int 120) = JsNumber.Int 0.
Proof.
  split; [|split].
  - destruct (unbonding_countdown 100 104 110) as (H & _);
      [unfold JsNumber.isSafeInteger, JsNumber.MAX_SAFE_INTEGER; lia ..|exact H].
  - destruct (unbonding_countdown 100 104 110) as (_ & H & _);
      [unfold JsNumber.isSafeInteger, JsNumber.MAX_SAFE_INTEGER; lia ..|exact H].
  - destruct (unbonding_countdown 100 120 110) as (_ & _ & _ & H & _);
      [unfold JsNumber.isSafeInteger, JsNumber.MAX_SAFE_INTEGER; lia ..|exact H].
Defined.

(** Epoch 19000 of days starts at second 1641600000 and holds second
    1641650000; with a genesis at 1600000000 and epochs of an hour, epoch 5
    starts at 1600018000 and holds second 1600020000. *)
Lemma epoch_timestamp_round_trip_witness :
  epochToTimestamp (JsNumber.Int 19000) None None = JsNumber.Int 1641600000 ∧
  timestampToEpoch (epochToTimestamp (JsNumber.Int 19000) None None) None None
  = JsNumber.Int 19000 ∧
  timestampToEpoch (JsNumber.Int 1641650000) None None = JsNumber.Int 19000 ∧
  epochToTimestamp (JsNumber.Int 5) (Some (JsNumber.Int 3600))
                   (Some (JsNumber.Int 1600000000)) = JsNumber.Int 1600018000 ∧
  timestampToEpoch (JsNumber.Int 1600020000) (Some (JsNumber.Int 3600))
                   (Some (JsNumber.Int 1600000000)) = JsNumber.Int 5.
Proof.
  destruct (epoch_timestamp_round_trip 19000 1641650000 None None) as (H1 & H2 & _);
    [unfold JsNumber.isSafeInteger, JsNumber.MAX_SAFE_INTEGER; simpl; lia ..|].
  destruct H1 as (Hstart & Hback);
    [simpl; lia | unfold JsNumber.isSafeInteger, JsNumber.MAX_SAFE_INTEGER; simpl; lia ..|].
  destruct H2 as (Hin & _); [simpl; lia|].
  destruct (epoch_timestamp_round_trip 5 1600020000 (Some 3600) (Some 1600000000))
    as (H3 & H4 & _);
    [unfold JsNumber.isSafeInteger, JsNumber.MAX_SAFE_INTEGER; simpl; lia ..|].
  destruct H3 as (Hstart' & _);
    [simpl; lia | unfold JsNumber.isSafeInteger, JsNumber.MAX_SAFE_INTEGER; simpl; lia ..|].
  destruct H4 as (Hin' & _); [simpl; lia|].
  split; [exact Hstart|]. split; [exact Hback|]. split; [exact Hin|].
  split; [exact Hstart'|exact Hin'].
Defined.

End MoreInstances.
